(** * Real-time EMG processing pipeline

    A shallow embedding of [real_time_processor.py] (class
    [RealTimeDataProcessor]) and of the offline extractor of
    [feature_extractor.py] (class [FeatureExtractor]), with the parts of
    NumPy, SciPy, [collections.deque] and [queue.Queue] they call.

    - Python floats and NumPy [float64] values are IEEE 754 binary64 numbers,
      taken from the Standard Library's executable specification
      ([SpecFloat], precision 53, maximal exponent 1024, round to nearest
      even).
    - Python integers are [Z].
    - A sample is a binary64 number from the moment it enters the sample
      queue; the code keeps the integer read from the serial line until
      NumPy converts the window.  An integer that NumPy cannot hold in a
      numeric window is represented by NaN (see [sample_of_int]).
    - [deque] sizes are those of a 64-bit CPython.
    - The training data collector of [data_collection.py] is embedded for
      its recording loop.
    - Methods that mutate [self] take the object and return the new one
      together with their return value.
    - The two stages are threads whose loop bodies are modelled one iteration
      at a time; a schedule interleaves iterations of both. *)

From Stdlib Require Import String ZArith List Bool Lia.
From Stdlib Require Import Floats.SpecFloat.
Import ListNotations.

Open Scope Z_scope.

(** ** Binary64 arithmetic *)

Module F64.

Definition f64 : Type := spec_float.

Definition prec : Z := 53.
Definition emax : Z := 1024.

Definition add : f64 -> f64 -> f64 := SFadd prec emax.
Definition sub : f64 -> f64 -> f64 := SFsub prec emax.
Definition mul : f64 -> f64 -> f64 := SFmul prec emax.
Definition div : f64 -> f64 -> f64 := SFdiv prec emax.
Definition sqrt : f64 -> f64 := SFsqrt prec emax.
Definition abs : f64 -> f64 := SFabs.
Definition ltb : f64 -> f64 -> bool := SFltb.
Definition eqb : f64 -> f64 -> bool := SFeqb.

Definition pzero : f64 := S754_zero false.
Definition nzero : f64 := S754_zero true.
Definition nan : f64 := S754_nan.
Definition pinf : f64 := S754_infinity false.

(** [m * 2^e], correctly rounded. *)
Definition of_scaled (m e : Z) : f64 := binary_normalize prec emax m e false.

(** [float(z)] for a Python integer. *)
Definition of_Z (z : Z) : f64 := of_scaled z 0.

Definition one : f64 := of_Z 1.

(** [np.isnan], [np.isinf], [np.signbit] on one element.  A NaN carries no
    sign in this representation; its sign bit reads as clear. *)
Definition isnan (x : f64) : bool :=
  match x with S754_nan => true | _ => false end.

Definition isinf (x : f64) : bool :=
  match x with S754_infinity _ => true | _ => false end.

Definition signbit (x : f64) : bool :=
  match x with
  | S754_zero s | S754_infinity s | S754_finite s _ _ => s
  | S754_nan => false
  end.

Definition is_finite (x : f64) : bool := negb (isnan x || isinf x).

(** [np.sign] on one element: -1, 0, +1, and NaN for NaN. *)
Definition sign (x : f64) : f64 :=
  match x with
  | S754_nan => S754_nan
  | S754_zero _ => pzero
  | S754_infinity s | S754_finite s _ _ => if s then SFopp one else one
  end.

End F64.

Abbreviation f64 := F64.f64.

(** ** scipy.signal.lfilter

    The recursive routine behind [lfilter(b, a, x, zi=zi)] for a
    one-dimensional input: a direct form II transposed structure.  SciPy
    runs it whenever [a] has two coefficients or more, which is the case of
    every band-pass design of order 1 or more ([2 * order + 1] coefficients);
    for a single coefficient in [a] it convolves instead, and what is proved
    of filtered values below is stated for two coefficients or more.  The
    routine is written over an arbitrary scalar type with its four
    operations; no law of arithmetic is assumed of them.

    On an input without samples the routine is not run at all: SciPy
    returns the empty output and, as final state, the array it allocated
    for it, which nothing was written to. *)

Section LFilter.

Variable F : Type.
Variable zero : F.
Variables add sub mul div : F -> F -> F.

(** Both coefficient vectors are padded with zeros to the common length
    [max(len(a), len(b))] and divided by [a[0]]. *)
Definition pad (n : nat) (l : list F) : list F :=
  l ++ repeat zero (n - length l).

Definition normalize (a0 : F) (l : list F) : list F :=
  map (fun c => div c a0) l.

(** The delays after one sample.  [bt] and [at_] are the coefficients from
    index 1 on, [zt] the delays from index 1 on.  The middle delays are
    [z[k+1] + x*b[k+1] - y*a[k+1]], the last one [x*b[k+1] - y*a[k+1]]. *)
Fixpoint update_state (x y : F) (bt at_ zt : list F) : list F :=
  match bt, at_ with
  | bk :: bt', ak :: at' =>
      match bt' with
      | [] => [sub (mul x bk) (mul y ak)]
      | _ :: _ =>
          sub (add (hd zero zt) (mul x bk)) (mul y ak)
            :: update_state x y bt' at' (tl zt)
      end
  | _, _ => []
  end.

(** One input sample: the output [y = z[0] + b[0]*x] and the new delays.
    With a single coefficient there are no delays and [y = x*b[0]]. *)
Definition filt_step (bn an z : list F) (x : F) : F * list F :=
  match bn, an with
  | b0 :: (_ :: _) as bt, _ :: at_ =>
      let y := add (hd zero z) (mul b0 x) in
      (y, update_state x y bt at_ (tl z))
  | b0 :: _, _ => (mul x b0, z)
  | [], _ => (x, z)
  end.

Fixpoint filt (bn an z xs : list F) : list F * list F :=
  match xs with
  | [] => ([], z)
  | x :: xs' =>
      let '(y, z') := filt_step bn an z x in
      let '(ys, zf) := filt bn an z' xs' in
      (y :: ys, zf)
  end.

(** What the memory allocated for a final state holds, cell by cell,
    before anything is written to it. *)
Variable unwritten : nat -> F.

(** [lfilter(b, a, x, zi=zi)], returning [(y, zf)].  [None] stands for the
    [ValueError] raised when [a] is empty or [zi] does not hold
    [max(len(a), len(b)) - 1] delays.  The final state of an empty input
    has the shape of [zi] and the contents of the unwritten memory. *)
Definition lfilter (b a x zi : list F) : option (list F * list F) :=
  let n := Nat.max (length a) (length b) in
  match a with
  | [] => None
  | a0 :: _ =>
      if Nat.eqb (length zi) (n - 1)
      then
        match x with
        | [] => Some ([], map unwritten (seq 0 (length zi)))
        | _ :: _ =>
            Some (filt (normalize a0 (pad n b)) (normalize a0 (pad n a)) zi x)
        end
      else None
  end.

End LFilter.

Arguments pad {F}.
Arguments normalize {F}.
Arguments update_state {F}.
Arguments filt_step {F}.
Arguments filt {F}.
Arguments lfilter {F}.

(** The filter on binary64 samples, as the processor calls it. *)
Definition lfilter64 : (nat -> f64) -> list f64 -> list f64 -> list f64 ->
                       list f64 -> option (list f64 * list f64) :=
  lfilter F64.pzero F64.add F64.sub F64.mul F64.div.

(** ** NumPy operations on one-dimensional arrays *)

Module Numpy.

(** [np.sum] of a boolean array: the number of [True] entries. *)
Fixpoint count_true (l : list bool) : Z :=
  match l with
  | [] => 0
  | true :: l' => 1 + count_true l'
  | false :: l' => count_true l'
  end.

(** [np.diff]: [out[i] = op a[i+1] a[i]].  The operation is subtraction on
    numbers and [!=] on booleans. *)
Fixpoint adjacent {A B : Type} (op : A -> A -> B) (l : list A) : list B :=
  match l with
  | x :: (y :: _) as t => op y x :: adjacent op t
  | _ => []
  end.

Definition diff (w : list f64) : list f64 := adjacent F64.sub w.

Definition diff_bool (w : list bool) : list bool := adjacent xorb w.

(** Summation of [float64] arrays, as [np.add.reduce] evaluates it: fewer
    than 8 elements are accumulated in order, starting from -0.0; up to 128
    elements go through eight running sums that are combined pairwise,
    the remainder being added in order; longer arrays are split in two,
    the first part holding a multiple of 8 elements.  The result is added
    to the identity 0.0. *)
Definition seq_sum (init : f64) (l : list f64) : f64 :=
  fold_left F64.add l init.

Fixpoint map2 (l1 l2 : list f64) : list f64 :=
  match l1, l2 with
  | x :: l1', y :: l2' => F64.add x y :: map2 l1' l2'
  | _, _ => []
  end.

Fixpoint unrolled (fuel : nat) (r rest : list f64) : list f64 * list f64 :=
  match fuel with
  | O => (r, rest)
  | S fuel' =>
      if (8 <=? length rest)%nat
      then unrolled fuel' (map2 r (firstn 8 rest)) (skipn 8 rest)
      else (r, rest)
  end.

Definition combine8 (r : list f64) : f64 :=
  let r_ (i : nat) := nth i r F64.nzero in
  F64.add (F64.add (F64.add (r_ 0%nat) (r_ 1%nat)) (F64.add (r_ 2%nat) (r_ 3%nat)))
          (F64.add (F64.add (r_ 4%nat) (r_ 5%nat)) (F64.add (r_ 6%nat) (r_ 7%nat))).

Definition block_sum (l : list f64) : f64 :=
  let '(r, rest) := unrolled (length l) (firstn 8 l) (skipn 8 l) in
  seq_sum (combine8 r) rest.

Fixpoint pairwise_sum (fuel : nat) (l : list f64) : f64 :=
  let n := length l in
  if (n <? 8)%nat then seq_sum F64.nzero l
  else if (n <=? 128)%nat then block_sum l
  else
    match fuel with
    | O => block_sum l
    | S fuel' =>
        let n2 := (n / 2 - (n / 2) mod 8)%nat in
        F64.add (pairwise_sum fuel' (firstn n2 l))
                (pairwise_sum fuel' (skipn n2 l))
    end.

Definition sum (l : list f64) : f64 :=
  F64.add F64.pzero (pairwise_sum (length l) l).

(** [np.mean]: the sum divided by the number of elements. *)
Definition mean (l : list f64) : f64 :=
  F64.div (sum l) (F64.of_Z (Z.of_nat (length l))).

(** [np.std] (population standard deviation, [ddof = 0]): the mean, the
    deviations from it, their squares, the mean of these, its root. *)
Definition std (l : list f64) : f64 :=
  let arrmean := mean l in
  let x := map (fun v => F64.sub v arrmean) l in
  let x2 := map (fun v => F64.mul v v) x in
  F64.sqrt (F64.div (sum x2) (F64.of_Z (Z.of_nat (length l)))).

Definition any (l : list bool) : bool := existsb (fun v => v) l.

End Numpy.

(** ** Features *)

Record features : Type := mk_features {
  mav : f64;
  std : f64;
  ssc : f64;
  zc : f64
}.

(** [np.sum((diff[:-1] * diff[1:]) < 0)]: the products of consecutive first
    differences that are negative. *)
Definition slope_sign_changes (w : list f64) : Z :=
  Numpy.count_true
    (map (fun p => F64.ltb p F64.pzero)
         (Numpy.adjacent (fun next prev => F64.mul prev next) (Numpy.diff w))).

Module RealTime.

(** [np.sum(np.diff(np.signbit(signal)))] *)
Definition zero_crossings (w : list f64) : Z :=
  Numpy.count_true (Numpy.diff_bool (map F64.signbit w)).

(** [RealTimeDataProcessor._extract_features] *)
Definition _extract_features (signal : list f64) : features :=
  {| mav := Numpy.mean (map F64.abs signal);
     std := Numpy.std signal;
     ssc := F64.of_Z (slope_sign_changes signal);
     zc := F64.of_Z (zero_crossings signal) |}.

End RealTime.

Module FeatureExtractor.

(** [np.sum(np.diff(np.sign(window)) != 0)] *)
Definition zero_crossings (w : list f64) : Z :=
  Numpy.count_true
    (map (fun d => negb (F64.eqb d F64.pzero)) (Numpy.diff (map F64.sign w))).

(** [FeatureExtractor.extract_features]; the returned array is
    [[mav, std, ssc, zc]]. *)
Definition extract_features (window : list f64) : features :=
  {| mav := Numpy.mean (map F64.abs window);
     std := Numpy.std window;
     ssc := F64.of_Z (slope_sign_changes window);
     zc := F64.of_Z (zero_crossings window) |}.

End FeatureExtractor.

(** ** collections.deque with [maxlen] *)

Module Deque.

(** [deque.append]: the element is added on the right; a deque that then
    holds more than [maxlen] elements drops its leftmost one. *)
Definition append {A : Type} (maxlen : Z) (d : list A) (v : A) : list A :=
  let d' := d ++ [v] in
  if maxlen <? Z.of_nat (length d') then tl d' else d'.

(** [deque.popleft], called on a non-empty deque only. *)
Definition popleft {A : Type} (d : list A) : list A := tl d.

End Deque.

(** ** queue.Queue, without its blocking operations *)

Module Queue.

Record t (A : Type) : Type := mk { items : list A; maxsize : Z }.
Arguments mk {A}.
Arguments items {A}.
Arguments maxsize {A}.

Definition empty {A : Type} (maxsize : Z) : t A := mk [] maxsize.

Definition qsize {A : Type} (q : t A) : Z := Z.of_nat (length (items q)).

(** A queue is full when [0 < maxsize <= qsize]. *)
Definition full {A : Type} (q : t A) : bool :=
  (0 <? maxsize q) && (maxsize q <=? qsize q).

(** [put_nowait]: [None] stands for [queue.Full]. *)
Definition put_nowait {A : Type} (q : t A) (v : A) : option (t A) :=
  if full q then None else Some (mk (items q ++ [v]) (maxsize q)).

(** [get_nowait], and [get(timeout=...)] at the moment it returns or gives
    up: [None] stands for [queue.Empty]. *)
Definition get_nowait {A : Type} (q : t A) : option (A * t A) :=
  match items q with
  | [] => None
  | v :: rest => Some (v, mk rest (maxsize q))
  end.

End Queue.

(** ** The processor object *)

(** The dictionary returned for a processed window.  Its [timestamp] entry
    (the wall clock at the time of the return) is left out. *)
Record result : Type := mk_result {
  raw_signal : list f64;
  filtered_signal : list f64;
  result_features : features;
  prediction : option Z
}.

(** An attached model, seen through [_get_prediction]: the class index, or
    [None] when every calling convention failed or the call raised. *)
Definition classifier : Type := list f64 -> features -> option Z.

Inductive target : Type :=
| data_collection_loop
| processing_loop.

(** A started [threading.Thread]. *)
Record thread : Type := mk_thread {
  ident : nat;
  thread_target : target;
  daemon : bool
}.

Record processor : Type := mk_processor {
  port : string;
  baud_rate : Z;
  buffer_size : Z;
  step_size : Z;
  sampling_freq : Z;
  buffer : list f64;
  b : list f64;
  a : list f64;
  filter_state : option (list f64);
  model : option classifier;
  data_queue : Queue.t f64;
  result_queue : Queue.t result;
  running : bool;
  collection_thread : option thread;
  processing_thread : option thread;
  samples_collected : Z;
  samples_processed : Z;
  samples_dropped : Z
}.

Definition set_buffer (s : processor) (v : list f64) : processor :=
  mk_processor (port s) (baud_rate s) (buffer_size s) (step_size s)
    (sampling_freq s) v (b s) (a s) (filter_state s) (model s)
    (data_queue s) (result_queue s) (running s) (collection_thread s)
    (processing_thread s) (samples_collected s) (samples_processed s)
    (samples_dropped s).

Definition set_filter_state (s : processor) (v : option (list f64))
  : processor :=
  mk_processor (port s) (baud_rate s) (buffer_size s) (step_size s)
    (sampling_freq s) (buffer s) (b s) (a s) v (model s)
    (data_queue s) (result_queue s) (running s) (collection_thread s)
    (processing_thread s) (samples_collected s) (samples_processed s)
    (samples_dropped s).

Definition set_model (s : processor) (v : option classifier) : processor :=
  mk_processor (port s) (baud_rate s) (buffer_size s) (step_size s)
    (sampling_freq s) (buffer s) (b s) (a s) (filter_state s) v
    (data_queue s) (result_queue s) (running s) (collection_thread s)
    (processing_thread s) (samples_collected s) (samples_processed s)
    (samples_dropped s).

Definition set_data_queue (s : processor) (v : Queue.t f64) : processor :=
  mk_processor (port s) (baud_rate s) (buffer_size s) (step_size s)
    (sampling_freq s) (buffer s) (b s) (a s) (filter_state s) (model s)
    v (result_queue s) (running s) (collection_thread s)
    (processing_thread s) (samples_collected s) (samples_processed s)
    (samples_dropped s).

Definition set_result_queue (s : processor) (v : Queue.t result)
  : processor :=
  mk_processor (port s) (baud_rate s) (buffer_size s) (step_size s)
    (sampling_freq s) (buffer s) (b s) (a s) (filter_state s) (model s)
    (data_queue s) v (running s) (collection_thread s)
    (processing_thread s) (samples_collected s) (samples_processed s)
    (samples_dropped s).

Definition set_running (s : processor) (v : bool) : processor :=
  mk_processor (port s) (baud_rate s) (buffer_size s) (step_size s)
    (sampling_freq s) (buffer s) (b s) (a s) (filter_state s) (model s)
    (data_queue s) (result_queue s) v (collection_thread s)
    (processing_thread s) (samples_collected s) (samples_processed s)
    (samples_dropped s).

Definition set_collection_thread (s : processor) (v : option thread)
  : processor :=
  mk_processor (port s) (baud_rate s) (buffer_size s) (step_size s)
    (sampling_freq s) (buffer s) (b s) (a s) (filter_state s) (model s)
    (data_queue s) (result_queue s) (running s) v
    (processing_thread s) (samples_collected s) (samples_processed s)
    (samples_dropped s).

Definition set_processing_thread (s : processor) (v : option thread)
  : processor :=
  mk_processor (port s) (baud_rate s) (buffer_size s) (step_size s)
    (sampling_freq s) (buffer s) (b s) (a s) (filter_state s) (model s)
    (data_queue s) (result_queue s) (running s) (collection_thread s)
    v (samples_collected s) (samples_processed s)
    (samples_dropped s).

Definition set_samples_collected (s : processor) (v : Z) : processor :=
  mk_processor (port s) (baud_rate s) (buffer_size s) (step_size s)
    (sampling_freq s) (buffer s) (b s) (a s) (filter_state s) (model s)
    (data_queue s) (result_queue s) (running s) (collection_thread s)
    (processing_thread s) v (samples_processed s)
    (samples_dropped s).

Definition set_samples_processed (s : processor) (v : Z) : processor :=
  mk_processor (port s) (baud_rate s) (buffer_size s) (step_size s)
    (sampling_freq s) (buffer s) (b s) (a s) (filter_state s) (model s)
    (data_queue s) (result_queue s) (running s) (collection_thread s)
    (processing_thread s) (samples_collected s) v
    (samples_dropped s).

Definition set_samples_dropped (s : processor) (v : Z) : processor :=
  mk_processor (port s) (baud_rate s) (buffer_size s) (step_size s)
    (sampling_freq s) (buffer s) (b s) (a s) (filter_state s) (model s)
    (data_queue s) (result_queue s) (running s) (collection_thread s)
    (processing_thread s) (samples_collected s) (samples_processed s)
    v.

(** What the constructor can raise. *)
Inductive init_error : Type :=
| maxlen_overflow        (* OverflowError from [deque(maxlen=buffer_size)] *)
| maxlen_negative        (* ValueError from [deque(maxlen=buffer_size)] *)
| nyquist_overflow       (* OverflowError from [sampling_freq / 2] *)
| zero_division          (* ZeroDivisionError from [low_freq / nyquist] *)
| filter_design_error.   (* an exception of [signal.butter] *)

Inductive start_outcome : Type :=
| already_running        (* prints "Processor is already running!" *)
| started.               (* prints "Real-time processor started!" *)

(** What the serial port offers to one iteration of the collection loop:
    nothing ([in_waiting == 0]), or a line with the outcome of
    [int(ser.readline().decode().strip())], [None] standing for the
    [ValueError] of a line that does not parse. *)
Inductive raw_unit : Type :=
| no_data
| line (parsed : option Z).

(** A sample as [np.array(list(self.buffer))] holds it.  An integer of the
    int64 or uint64 range is, for the checks and the filter, the nearest
    binary64 number.  Any other integer makes the window an array of
    objects, on which [np.isnan] raises [TypeError]: [_process_window] then
    returns [None] from its handler and has changed nothing, exactly as it
    does for a window that holds a NaN.  Such a sample is represented by
    NaN. *)
Definition sample_of_int (value : Z) : f64 :=
  if (- 2 ^ 63 <=? value) && (value <? 2 ^ 64) then F64.of_Z value
  else F64.nan.

Inductive collect_outcome : Type :=
| idle
| skipped
| enqueued
| dropped.

Inductive process_outcome : Type :=
| timed_out
| appended
| triggered (window : list f64) (res : option result).


(** The loop [for _ in range(step_size): if self.buffer: self.buffer.popleft()]
    after [n] rounds. *)
Fixpoint evict (n : nat) (d : list f64) : list f64 :=
  match n with
  | O => d
  | S n' =>
      evict n' (match d with [] => d | _ :: _ => Deque.popleft d end)
  end.

Definition has_nan_or_inf (w : list f64) : bool :=
  Numpy.any (map F64.isnan w) || Numpy.any (map F64.isinf w).

Section RealTimeDataProcessor.

(** [signal.butter(filter_order, [low, high], btype='band')], returning
    [(b, a)]; [None] when it raises. *)
Variable butter : Z -> f64 -> f64 -> option (list f64 * list f64).

(** [signal.lfilter_zi(b, a)]; [None] when it raises. *)
Variable lfilter_zi : list f64 -> list f64 -> option (list f64).

(** What the memory [signal.lfilter] allocates for its final state holds
    when [_process_window] runs on a processor; it is read only for a
    window without samples. *)
Variable unwritten : processor -> nat -> f64.

(** [RealTimeDataProcessor.__init__], on a 64-bit CPython: [deque] reads
    [maxlen] as a signed 64-bit size and raises [OverflowError] for an
    integer that does not fit, [ValueError] for a negative one. *)
Definition __init__ (port_ : string)
    (baud_rate_ buffer_size_ step_size_ sampling_freq_ : Z)
    (low_freq high_freq : f64) (filter_order : Z)
  : init_error + processor :=
  if (buffer_size_ <? - 2 ^ 63) || (2 ^ 63 <=? buffer_size_)
  then inl maxlen_overflow
  else if buffer_size_ <? 0 then inl maxlen_negative
  else
    let nyquist := F64.of_scaled sampling_freq_ (-1) in
    if F64.isinf nyquist then inl nyquist_overflow
    else if F64.eqb nyquist F64.pzero then inl zero_division
    else
      let low := F64.div low_freq nyquist in
      let high := F64.div high_freq nyquist in
      match butter filter_order low high with
      | None => inl filter_design_error
      | Some (b_, a_) =>
          inr {| port := port_;
                 baud_rate := baud_rate_;
                 buffer_size := buffer_size_;
                 step_size := step_size_;
                 sampling_freq := sampling_freq_;
                 buffer := [];
                 b := b_;
                 a := a_;
                 filter_state := None;
                 model := None;
                 data_queue := Queue.empty 1000;
                 result_queue := Queue.empty 100;
                 running := false;
                 collection_thread := None;
                 processing_thread := None;
                 samples_collected := 0;
                 samples_processed := 0;
                 samples_dropped := 0 |}
      end.

(** [RealTimeDataProcessor.start]; [threads] lists the threads started so
    far in the process. *)
Definition start (s : processor) (threads : list thread)
  : processor * list thread * start_outcome :=
  if running s then (s, threads, already_running)
  else
    let s1 := set_running s true in
    let t1 := mk_thread (length threads) data_collection_loop true in
    let s2 := set_collection_thread s1 (Some t1) in
    let threads1 := threads ++ [t1] in
    let t2 := mk_thread (length threads1) processing_loop true in
    let s3 := set_processing_thread s2 (Some t2) in
    (s3, threads1 ++ [t2], started).

(** [RealTimeDataProcessor.stop], returning the threads it joined (each
    with a timeout of one second). *)
Definition stop (s : processor) : processor * list thread :=
  let s1 := set_running s false in
  let j1 := match collection_thread s1 with Some t => [t] | None => [] end in
  let j2 := match processing_thread s1 with Some t => [t] | None => [] end in
  (s1, j1 ++ j2).

(** One iteration of the [while self.running] loop of
    [_data_collection_loop]. *)
Definition collection_iteration (s : processor) (u : raw_unit)
  : processor * collect_outcome :=
  match u with
  | no_data => (s, idle)
  | line None => (s, skipped)
  | line (Some value) =>
      let s1 := set_samples_collected s (samples_collected s + 1) in
      match Queue.put_nowait (data_queue s1) (sample_of_int value) with
      | Some q => (set_data_queue s1 q, enqueued)
      | None => (set_samples_dropped s1 (samples_dropped s1 + 1), dropped)
      end
  end.

(** [RealTimeDataProcessor._process_window].  Every [return None] of the
    method, and its [except Exception] handler, give [None] here. *)
Definition _process_window (s : processor) : processor * option result :=
  let window := buffer s in
  if negb (Z.of_nat (length window) =? buffer_size s) then (s, None)
  else if has_nan_or_inf window then (s, None)
  else
    match
      match filter_state s with
      | None => lfilter_zi (b s) (a s)
      | Some zi => Some zi
      end
    with
    | None => (s, None)
    | Some zi =>
        let s1 := set_filter_state s (Some zi) in
        match lfilter64 (unwritten s) (b s1) (a s1) window zi with
        | None => (s1, None)
        | Some (filtered, zf) =>
            let s2 := set_filter_state s1 (Some zf) in
            if has_nan_or_inf filtered then (s2, None)
            else
              let feats := RealTime._extract_features filtered in
              let pred :=
                match model s2 with
                | None => None
                | Some m => m filtered feats
                end in
              let s3 :=
                set_buffer s2 (evict (Z.to_nat (step_size s2)) (buffer s2)) in
              let s4 :=
                set_samples_processed s3 (samples_processed s3 + 1) in
              (s4, Some {| raw_signal := window;
                           filtered_signal := filtered;
                           result_features := feats;
                           prediction := pred |})
        end
    end.

(** One iteration of the [while self.running] loop of [_processing_loop]. *)
Definition processing_iteration (s : processor)
  : processor * process_outcome :=
  match Queue.get_nowait (data_queue s) with
  | None => (s, timed_out)
  | Some (value, q) =>
      let s1 := set_data_queue s q in
      let s2 :=
        set_buffer s1 (Deque.append (buffer_size s1) (buffer s1) value) in
      if Z.of_nat (length (buffer s2)) =? buffer_size s2 then
        let '(s3, res) := _process_window s2 in
        match res with
        | Some r =>
            match Queue.put_nowait (result_queue s3) r with
            | Some q' => (set_result_queue s3 q', triggered (buffer s2) res)
            | None => (s3, triggered (buffer s2) res)
            end
        | None => (s3, triggered (buffer s2) res)
        end
      else (s2, appended)
  end.

(** [RealTimeDataProcessor.get_latest_result] *)
Definition get_latest_result (s : processor) : processor * option result :=
  match Queue.get_nowait (result_queue s) with
  | Some (r, q) => (set_result_queue s q, Some r)
  | None => (s, None)
  end.


(** *** Schedules of the two stages

    Between [start] and [stop] the collection thread and the processing
    thread run their loops side by side.  A schedule lists, in the order
    in which they take effect, the iterations of the collection loop (each
    with what the serial port offered) and the iterations of the
    processing loop. *)
Inductive event : Type :=
| collect (u : raw_unit)
| process.

Inductive observation : Type :=
| collected (o : collect_outcome)
| processed (o : process_outcome).

Definition step (s : processor) (e : event) : processor * observation :=
  match e with
  | collect u =>
      let '(s', o) := collection_iteration s u in (s', collected o)
  | process =>
      let '(s', o) := processing_iteration s in (s', processed o)
  end.

Fixpoint run (s : processor) (es : list event)
  : processor * list observation :=
  match es with
  | [] => (s, [])
  | e :: es' =>
      let '(s1, o) := step s e in
      let '(s2, os) := run s1 es' in
      (s2, o :: os)
  end.

(** The iterations of a schedule that read a line that parses, and those
    among them that find the sample queue full at that moment. *)
Definition parses (e : event) : bool :=
  match e with
  | collect (line (Some _)) => true
  | _ => false
  end.

Fixpoint parsed_count (es : list event) : Z :=
  match es with
  | [] => 0
  | e :: es' => (if parses e then 1 else 0) + parsed_count es'
  end.

Fixpoint full_rejections (s : processor) (es : list event) : Z :=
  match es with
  | [] => 0
  | e :: es' =>
      (if parses e && Queue.full (data_queue s) then 1 else 0)
      + full_rejections (fst (step s e)) es'
  end.

Definition is_collect (e : event) : Prop :=
  match e with collect _ => True | process => False end.


End RealTimeDataProcessor.


(** ** Reference notions for the properties *)

(** The window [[v, -v, v, -v, ...]] of length [n]. *)
Fixpoint alternating (n : nat) (v : f64) : list f64 :=
  match n with
  | O => []
  | S n' => v :: alternating n' (SFopp v)
  end.

(** The sign of a sample, an exact zero (of either sign bit) being a sign of
    its own. *)
Inductive sign_class : Type :=
| sign_negative
| sign_zero
| sign_positive
| sign_nan.

Definition sign_class_of (x : f64) : sign_class :=
  match x with
  | S754_nan => sign_nan
  | S754_zero _ => sign_zero
  | S754_infinity s | S754_finite s _ _ =>
      if s then sign_negative else sign_positive
  end.

Definition sign_class_eqb (c1 c2 : sign_class) : bool :=
  match c1, c2 with
  | sign_negative, sign_negative | sign_zero, sign_zero
  | sign_positive, sign_positive | sign_nan, sign_nan => true
  | _, _ => false
  end.

(** The count of sign changes between consecutive samples, where a zero
    sample is a sign boundary: a step from or to a zero counts. *)
Definition sign_changes (w : list f64) : Z :=
  Numpy.count_true
    (Numpy.adjacent (fun next prev =>
                       negb (sign_class_eqb (sign_class_of prev)
                                            (sign_class_of next))) w).

(** Zeros of either sign; numbers other than zero. *)
Definition is_zero (x : f64) : Prop :=
  match x with S754_zero _ => True | _ => False end.

Definition nonzero_number (x : f64) : Prop :=
  match x with S754_nan | S754_zero _ => False | _ => True end.

(** The binary64 number nearest to 0.1, [0x1.999999999999ap-4]. *)
Definition tenth : f64 := S754_finite false 7205759403792794 (-56).

(** The same significand a thousand binades lower,
    [0x1.999999999999ap-1004]. *)
Definition tenth_scaled : f64 := S754_finite false 7205759403792794 (-1056).


(** ** A concrete configuration for the examples

    The coefficients of a second-order band-pass section,
    [b = [1/2, 0, -1/2]] and [a = [1, -1/2, 1/4]], and its steady-state
    delays [zi = [-1/2, -1/2]] (the state in which a constant input 1 gives
    the constant output 0).  They stand for what [signal.butter] and
    [signal.lfilter_zi] return. *)

Definition half : f64 := F64.of_scaled 1 (-1).

Definition example_b : list f64 := [half; F64.pzero; SFopp half].

Definition example_a : list f64 := [F64.one; SFopp half; F64.of_scaled 1 (-2)].

Definition example_zi : list f64 := [SFopp half; SFopp half].

Definition example_butter (order : Z) (low high : f64)
  : option (list f64 * list f64) :=
  Some (example_b, example_a).

Definition example_lfilter_zi (b_ a_ : list f64) : option (list f64) :=
  Some example_zi.

(** Fresh memory that holds zeros. *)
Definition example_unwritten (s : processor) (i : nat) : f64 := F64.pzero.

(** A processor with [buffer_size = 4] and [step_size = 2], as constructed. *)
Definition example_processor : processor :=
  {| port := "COM3";
     baud_rate := 115200;
     buffer_size := 4;
     step_size := 2;
     sampling_freq := 1000;
     buffer := [];
     b := example_b;
     a := example_a;
     filter_state := None;
     model := None;
     data_queue := Queue.empty 1000;
     result_queue := Queue.empty 100;
     running := false;
     collection_thread := None;
     processing_thread := None;
     samples_collected := 0;
     samples_processed := 0;
     samples_dropped := 0 |}.



(** The example processor with a full window [1, 2, 3, 4] and the samples
    5, 6 waiting in the sample queue. *)
Definition example_full : processor :=
  set_buffer
    (set_data_queue example_processor
       (Queue.mk (map F64.of_Z [5; 6]) 1000))
    (map F64.of_Z [1; 2; 3; 4]).

(** The example processor with a sample queue that holds its 1000 samples. *)
Definition example_saturated : processor :=
  set_data_queue example_processor (Queue.mk (repeat F64.one 1000) 1000).

(** Two results that differ in their prediction, queued in this order. *)
Definition example_result (class : Z) : result :=
  {| raw_signal := [];
     filtered_signal := [];
     result_features := RealTime._extract_features [];
     prediction := Some class |}.

Definition example_with_results : processor :=
  set_result_queue example_processor
    (Queue.mk [example_result 1; example_result 2] 100).

(** The example processor with a full window whose second sample is NaN. *)
Definition example_nan_window : processor :=
  set_buffer example_processor
    [F64.of_Z 1; F64.nan; F64.of_Z 3; F64.of_Z 4].

(** ** Python ranges and slices *)

Module Python.

(** The number of elements of [range(start, stop, step)]. *)
Definition range_length (start stop step : Z) : Z :=
  if (0 <? step) && (start <? stop) then 1 + (stop - 1 - start) / step
  else if (step <? 0) && (stop <? start) then 1 + (start - 1 - stop) / (- step)
  else 0.

(** [range(start, stop, step)]; [None] stands for the [ValueError] of a
    zero step. *)
Definition range (start stop step : Z) : option (list Z) :=
  if step =? 0 then None
  else
    Some (map (fun i => start + Z.of_nat i * step)
              (seq 0 (Z.to_nat (range_length start stop step)))).

(** A slice bound, brought into [0 .. n]: a negative bound counts from the
    end. *)
Definition slice_index (n i : Z) : Z :=
  if i <? 0 then Z.max (i + n) 0 else Z.min i n.

(** [l[i:j]] *)
Definition slice {A : Type} (l : list A) (i j : Z) : list A :=
  let n := Z.of_nat (length l) in
  let lo := slice_index n i in
  let hi := slice_index n j in
  firstn (Z.to_nat (hi - lo)) (skipn (Z.to_nat lo) l).

End Python.

(** ** Offline windowing *)

(** [np.array] of a list of one-dimensional arrays needs them to have one
    length (NumPy 1.24 and later raise [ValueError] otherwise). *)
Definition homogeneous (windows : list (list f64)) : bool :=
  match windows with
  | [] => true
  | w :: ws =>
      forallb (fun w' => Nat.eqb (length w') (length w)) ws
  end.

(** [FeatureExtractor.window_and_extract_features], returning
    [(windows, features)]; [None] when [range] or [np.array] raises. *)
Definition window_and_extract_features (data : list f64)
    (window_size step_size : Z)
  : option (list (list f64) * list features) :=
  let num_samples := Z.of_nat (length data) in
  match Python.range 0 (num_samples - window_size + 1) step_size with
  | None => None
  | Some starts =>
      let windows :=
        map (fun start => Python.slice data start (start + window_size))
            starts in
      let feats := map FeatureExtractor.extract_features windows in
      if homogeneous windows then Some (windows, feats) else None
  end.

(** ** Reference notions for the stages *)

(** The windows of [size] samples cut every [step] samples from a stream,
    as long as a whole window is left. *)
Fixpoint chop (fuel size step : nat) (l : list f64) : list (list f64) :=
  match fuel with
  | O => []
  | S fuel' =>
      if (length l <? size)%nat then []
      else firstn size l :: chop fuel' size step (skipn step l)
  end.

(** What a run shows: the windows handed to [_process_window], the results
    it returned, and the number of samples the processing loop took. *)
Fixpoint triggered_windows (obs : list observation) : list (list f64) :=
  match obs with
  | [] => []
  | processed (triggered w _) :: obs' => w :: triggered_windows obs'
  | _ :: obs' => triggered_windows obs'
  end.

Fixpoint results_of (obs : list observation) : list result :=
  match obs with
  | [] => []
  | processed (triggered _ (Some r)) :: obs' => r :: results_of obs'
  | _ :: obs' => results_of obs'
  end.

Fixpoint consumed_count (obs : list observation) : Z :=
  match obs with
  | [] => 0
  | processed timed_out :: obs' => consumed_count obs'
  | processed _ :: obs' => 1 + consumed_count obs'
  | collected _ :: obs' => consumed_count obs'
  end.

(** The samples a run put into the sample queue, in order. *)
Fixpoint enqueued_values (es : list event) (obs : list observation)
  : list f64 :=
  match es, obs with
  | collect (line (Some value)) :: es', collected enqueued :: obs' =>
      sample_of_int value :: enqueued_values es' obs'
  | _ :: es', _ :: obs' => enqueued_values es' obs'
  | _, _ => []
  end.

(** No window of the run was rejected. *)
Definition accepted_observation (o : observation) : Prop :=
  match o with
  | processed (triggered _ None) => False
  | _ => True
  end.

(** Two states of a processor with the same filter: coefficients, state,
    model and sizes. *)
Definition same_filter (s s' : processor) : Prop :=
  b s' = b s /\ a s' = a s /\ filter_state s' = filter_state s /\
  model s' = model s /\ buffer_size s' = buffer_size s /\
  step_size s' = step_size s.

(** The first delay of the filter state is NaN. *)
Definition poisoned (s : processor) : Prop :=
  exists zt, filter_state s = Some (F64.nan :: zt).

(** What every result of a processor with window capacity [size] and model
    [m] satisfies. *)
Definition well_formed_result (size : Z) (m : option classifier)
    (r : result) : Prop :=
  Z.of_nat (length (raw_signal r)) = size /\
  length (filtered_signal r) = length (raw_signal r) /\
  has_nan_or_inf (raw_signal r) = false /\
  has_nan_or_inf (filtered_signal r) = false /\
  result_features r = RealTime._extract_features (filtered_signal r) /\
  prediction r =
    match m with
    | None => None
    | Some predict => predict (filtered_signal r) (result_features r)
    end.

(** A zero of either sign, or a value whose sign bit is clear. *)
Definition clear_or_zero (x : f64) : Prop :=
  is_zero x \/ F64.signbit x = false.

(** ** Training data collection *)

Module TrainingDataCollector.

(** One iteration of the recording loop of [collect_session], on the pair
    [(sample_count, raw_data)]: a parsed line is counted, and appended when
    the count is even.  A line that does not decode or parse
    ([UnicodeDecodeError] is a [ValueError]) is skipped. *)
Definition collect_session_iteration (st : Z * list Z) (u : raw_unit)
  : Z * list Z :=
  let '(sample_count, raw_data) := st in
  match u with
  | no_data => (sample_count, raw_data)
  | line None => (sample_count, raw_data)
  | line (Some value) =>
      let sample_count := sample_count + 1 in
      if sample_count mod 2 =? 0
      then (sample_count, raw_data ++ [value])
      else (sample_count, raw_data)
  end.

(** The recording loop of [collect_session] over the iterations that fit
    into the duration, from [sample_count = 0] and [raw_data = []]. *)
Definition collect_session_loop (units : list raw_unit) : Z * list Z :=
  fold_left collect_session_iteration units (0, []).

End TrainingDataCollector.

(** The integers a sequence of serial lines parses to, in order. *)
Fixpoint parsed_values (units : list raw_unit) : list Z :=
  match units with
  | [] => []
  | line (Some value) :: units' => value :: parsed_values units'
  | _ :: units' => parsed_values units'
  end.

(** The second, fourth, ... element of a list. *)
Fixpoint every_second (l : list Z) : list Z :=
  match l with
  | _ :: x :: r => x :: every_second r
  | _ => []
  end.

(** ** A processor that steps backwards *)

(** What the constructor returns for [buffer_size = 4] and
    [step_size = -3]. *)
Definition example_backwards : processor :=
  mk_processor (port example_processor) (baud_rate example_processor)
    4 (-3) (sampling_freq example_processor) [] example_b example_a
    None None (Queue.empty 1000) (Queue.empty 100) false None None 0 0 0.

(** Five samples arrive; then the processing loop runs four times, and
    once more. *)
Definition example_arrivals : list event :=
  map (fun z => collect (line (Some z))) [1; 2; 3; 4; 5].

(** ** Further example states *)

(** Eight samples arrive, then the processing loop runs eight times: the
    windows [1..4], [3..6] and [5..8] are processed. *)
Definition example_stream : list event :=
  map (fun z => collect (line (Some z))) [1; 2; 3; 4; 5; 6; 7; 8]
  ++ repeat process 8.

(** The example processor with room for one result only. *)
Definition example_one_result : processor :=
  set_result_queue example_processor (Queue.empty 1).

(** The example processor after its filter state was initialised. *)
Definition example_initialised : processor :=
  set_filter_state example_processor (Some example_zi).

(** The example processor with a NaN in its filter state. *)
Definition example_poisoned : processor :=
  set_filter_state example_processor (Some [F64.nan; F64.pzero]).

(** The largest finite binary64 number. *)
Definition example_huge : f64 := F64.of_scaled (2 ^ 53 - 1) 971.

(** A full finite window and a finite filter state from which the filter
    overflows. *)
Definition example_overflow : processor :=
  set_filter_state
    (set_buffer example_processor (map F64.of_Z [1; 2; 3; 4]))
    (Some [example_huge; example_huge]).

Definition example_overflow_output : list f64 * list f64 :=
  Eval vm_compute in
    match lfilter64 (example_unwritten example_overflow) example_b example_a
                    (map F64.of_Z [1; 2; 3; 4])
                    [example_huge; example_huge] with
    | Some out => out
    | None => ([], [])
    end.

(** Three samples in the window, the second one NaN, and the samples 4, 5
    waiting in the sample queue. *)
Definition example_nan_stream : processor :=
  set_buffer
    (set_data_queue example_processor
       (Queue.mk (map F64.of_Z [4; 5]) 1000))
    [F64.of_Z 1; F64.nan; F64.of_Z 3].

(** A recording of eight samples, and the example processor with the
    recording and one more sample in its sample queue. *)
Definition example_recording : list f64 :=
  map F64.of_Z [1; 2; 3; 4; 5; 6; 7; 8].

Definition example_fed : processor :=
  set_data_queue example_processor
    (Queue.mk (example_recording ++ [F64.of_Z 9]) 1000).

(** * Properties *)

#[local] Set Default Proof Using "Type".

(** ** The causal filter carries its state across chunks *)

Section LFilterFacts.

Variable F : Type.
Variable zero : F.
Variables add sub mul div : F -> F -> F.

Local Abbreviation stepF := (filt_step zero add sub mul).
Local Abbreviation filtF := (filt zero add sub mul).
Local Abbreviation updateF := (update_state zero add sub mul).
Local Abbreviation lfilterF := (lfilter zero add sub mul div).
Local Abbreviation normF := (normalize div).
Local Abbreviation padF := (pad zero).

Lemma filt_app (bn an z xs1 xs2 : list F) :
  filtF bn an z (xs1 ++ xs2) =
  let '(ys1, z1) := filtF bn an z xs1 in
  let '(ys2, z2) := filtF bn an z1 xs2 in
  (ys1 ++ ys2, z2).
Proof.
  revert z.
  induction xs1 as [|x xs1 IH]; intros z; simpl.
  - destruct (filtF bn an z xs2); reflexivity.
  - destruct (stepF bn an z x) as [y z'].
    rewrite IH.
    destruct (filtF bn an z' xs1) as [ys1 z1].
    destruct (filtF bn an z1 xs2) as [ys2 z2].
    reflexivity.
Qed.

Lemma update_state_length (x y : F) (bt at_ zt : list F) :
  length at_ = length bt ->
  length (updateF x y bt at_ zt) = length bt.
Proof.
  revert at_ zt.
  induction bt as [|bk bt IH]; intros at_ zt Hlen; [reflexivity|].
  destruct at_ as [|ak at_]; [discriminate|].
  simpl in Hlen. injection Hlen as Hlen.
  cbn [update_state].
  destruct bt as [|bk' bt']; [reflexivity|].
  cbn [length]. f_equal. apply (IH at_ (tl zt) Hlen).
Qed.

Lemma filt_step_length (bn an z : list F) (x : F) :
  length an = length bn ->
  length z = (length bn - 1)%nat ->
  length (snd (stepF bn an z x)) = length z.
Proof.
  intros Hab Hz.
  destruct bn as [|b0 [|b1 bt]]; try reflexivity.
  destruct an as [|a0 at_]; [discriminate|].
  unfold filt_step. cbn [snd].
  rewrite update_state_length.
  - simpl in *. lia.
  - simpl in *. lia.
Qed.

Lemma filt_length (bn an z xs : list F) :
  length an = length bn ->
  length z = (length bn - 1)%nat ->
  length (snd (filtF bn an z xs)) = length z /\
  length (fst (filtF bn an z xs)) = length xs.
Proof.
  intros Hab. revert z.
  induction xs as [|x xs IH]; intros z Hz; [split; reflexivity|].
  simpl.
  pose proof (filt_step_length bn an z x Hab Hz) as Hstep.
  destruct (stepF bn an z x) as [y z']. simpl in Hstep.
  assert (Hz' : length z' = (length bn - 1)%nat) by lia.
  destruct (IH z' Hz') as [IH1 IH2].
  destruct (filtF bn an z' xs) as [ys zf]. simpl in *. split; lia.
Qed.

Lemma pad_length (n : nat) (l : list F) :
  (length l <= n)%nat -> length (pad zero n l) = n.
Proof.
  intros H. unfold pad. rewrite length_app, repeat_length. lia.
Qed.

(** On an input that holds a sample [lfilter] runs the recursive routine,
    whatever the fresh memory holds. *)
Lemma lfilter_runs (fresh : nat -> F) (b_ at_ x zi : list F) (a0 : F) :
  x <> [] ->
  length zi = (Nat.max (length (a0 :: at_)) (length b_) - 1)%nat ->
  lfilterF fresh b_ (a0 :: at_) x zi =
  Some (filtF
          (normF a0 (padF (Nat.max (length (a0 :: at_)) (length b_)) b_))
          (normF a0
             (padF (Nat.max (length (a0 :: at_)) (length b_)) (a0 :: at_)))
          zi x).
Proof.
  intros Hx Hz. unfold lfilter. rewrite Hz, Nat.eqb_refl.
  destruct x as [|x0 x]; [congruence | reflexivity].
Qed.

Lemma lfilter_fresh (fresh fresh' : nat -> F) (b_ a_ x zi : list F) :
  x <> [] -> lfilterF fresh b_ a_ x zi = lfilterF fresh' b_ a_ x zi.
Proof.
  intros Hx. unfold lfilter. destruct x as [|x0 x]; [congruence|].
  reflexivity.
Qed.

(** On an input without samples the final state is the fresh memory. *)
Lemma lfilter_empty (fresh : nat -> F) (b_ a_ zi : list F) :
  a_ <> [] ->
  length zi = (Nat.max (length a_) (length b_) - 1)%nat ->
  lfilterF fresh b_ a_ [] zi = Some ([], map fresh (seq 0 (length zi))).
Proof.
  intros Ha Hz. destruct a_ as [|a0 at_]; [congruence|].
  unfold lfilter. rewrite Hz, Nat.eqb_refl. reflexivity.
Qed.

Lemma lfilter_defined (fresh : nat -> F) (b_ a_ x zi : list F) :
  a_ <> [] ->
  length zi = (Nat.max (length a_) (length b_) - 1)%nat ->
  exists y zf,
    lfilterF fresh b_ a_ x zi = Some (y, zf) /\
    length zf = length zi /\ length y = length x.
Proof.
  intros Ha Hz.
  destruct x as [|x0 x].
  { rewrite (lfilter_empty fresh b_ a_ zi Ha Hz).
    eexists _, _. split; [reflexivity|].
    rewrite length_map, length_seq. split; reflexivity. }
  destruct a_ as [|a0 at_]; [congruence|].
  rewrite lfilter_runs by (congruence || assumption).
  set (n := Nat.max (length (a0 :: at_)) (length b_)) in *.
  set (bn := normalize div a0 (pad zero n b_)).
  set (an := normalize div a0 (pad zero n (a0 :: at_))).
  assert (Hbn : length bn = n).
  { unfold bn, normalize. rewrite length_map. apply pad_length. lia. }
  assert (Han : length an = n).
  { unfold an, normalize. rewrite length_map. apply pad_length. lia. }
  destruct (filt_length bn an zi (x0 :: x)) as [H1 H2]; [congruence | lia |].
  destruct (filtF bn an zi (x0 :: x)) as [y zf] eqn:E.
  exists y, zf. cbn [fst snd] in H1, H2. repeat split; congruence.
Qed.

(** Two chunks that hold a sample each against the whole stream. *)
Lemma lfilter_app (fresh1 fresh2 fresh : nat -> F)
    (b_ a_ zi x1 x2 y1 z1 y2 z2 : list F) :
  x1 <> [] -> x2 <> [] ->
  lfilterF fresh1 b_ a_ x1 zi = Some (y1, z1) ->
  lfilterF fresh2 b_ a_ x2 z1 = Some (y2, z2) ->
  lfilterF fresh b_ a_ (x1 ++ x2) zi = Some (y1 ++ y2, z2).
Proof.
  intros H1 H2 E1 E2.
  destruct x1 as [|u1 x1]; [congruence|].
  destruct x2 as [|u2 x2]; [congruence|].
  unfold lfilter in *.
  destruct a_ as [|a0 at_]; [discriminate|].
  set (n := Nat.max (length (a0 :: at_)) (length b_)) in *.
  destruct (length zi =? n - 1)%nat; [|discriminate].
  destruct (length z1 =? n - 1)%nat; [|discriminate].
  set (bn := normalize div a0 (pad zero n b_)) in *.
  set (an := normalize div a0 (pad zero n (a0 :: at_))) in *.
  change ((u1 :: x1) ++ u2 :: x2) with (u1 :: (x1 ++ u2 :: x2)).
  change (u1 :: (x1 ++ u2 :: x2)) with ((u1 :: x1) ++ u2 :: x2).
  cbn [app]. change (u1 :: x1 ++ u2 :: x2) with ((u1 :: x1) ++ u2 :: x2).
  rewrite filt_app.
  destruct (filtF bn an zi (u1 :: x1)) as [v1 w1].
  injection E1 as -> ->.
  destruct (filtF bn an z1 (u2 :: x2)) as [v2 w2].
  injection E2 as -> ->.
  reflexivity.
Qed.


End LFilterFacts.

(** ** Facts of binary64 arithmetic used below *)

Module F64Facts.

(** Rounding keeps the sign it is given. *)
Lemma binary_round_aux_sign (sx : bool) (mx ex : Z) (lx : location) :
  let r := binary_round_aux F64.prec F64.emax sx mx ex lx in
  r = S754_nan \/ r = S754_zero sx \/ r = S754_infinity sx \/
  exists m e, r = S754_finite sx m e.
Proof.
  cbv zeta. unfold binary_round_aux.
  destruct (shr_fexp F64.prec F64.emax mx ex lx) as [mrs' e'].
  destruct (shr_fexp F64.prec F64.emax _ e' loc_Exact) as [mrs'' e''].
  destruct (shr_m mrs'') as [|m|m]; [tauto | | tauto].
  destruct (e'' <=? F64.emax - F64.prec); [|tauto].
  right; right; right. exists m, e''. reflexivity.
Qed.

(** A square is never negative: [d * d < 0] is false for every [d]. *)
Lemma square_not_negative (d : f64) :
  F64.ltb (F64.mul d d) F64.pzero = false.
Proof.
  destruct d as [s|s| |s m e]; try (destruct s; reflexivity); try reflexivity.
  unfold F64.mul, SFmul. rewrite xorb_nilpotent.
  destruct (binary_round_aux_sign false (Z.pos (m * m)) (e + e) loc_Exact)
    as [H|[H|[H|(m' & e' & H)]]]; rewrite H; reflexivity.
Qed.

(** A finite value minus itself is +0.0. *)
Lemma sub_diag (c : f64) :
  F64.is_finite c = true -> F64.sub c c = F64.pzero.
Proof.
  destruct c as [s|s| |s m e]; intros Hc; try discriminate.
  - destruct s; reflexivity.
  - unfold F64.sub, SFsub. rewrite Z.sub_diag. reflexivity.
Qed.

(** [float(n)] of a positive integer carries no sign. *)
Lemma of_Z_pos_sign (p : positive) :
  let r := F64.of_Z (Z.pos p) in
  r = S754_nan \/ r = S754_zero false \/ r = S754_infinity false \/
  exists m e, r = S754_finite false m e.
Proof.
  cbv zeta.
  unfold F64.of_Z, F64.of_scaled, binary_normalize, binary_round.
  destruct (shl_align p 0 _) as [mz ez].
  apply binary_round_aux_sign.
Qed.

(** If a quotient is finite, dividing +0.0 by the same divisor of positive
    sign gives +0.0. *)
Lemma div_pzero (s d c : f64) :
  F64.div s d = c -> F64.is_finite c = true -> F64.signbit d = false ->
  F64.div F64.pzero d = F64.pzero.
Proof.
  intros Hq Hc Hd.
  destruct d as [sd|sd| |sd md ed]; simpl in Hd; subst.
  - destruct s; discriminate.
  - reflexivity.
  - destruct s; discriminate.
  - reflexivity.
Qed.

Lemma add_zeros (x y : f64) : is_zero x -> is_zero y -> is_zero (F64.add x y).
Proof.
  destruct x as [[]| | |], y as [[]| | |]; simpl; tauto.
Qed.

End F64Facts.

(** ** Facts about the array operations *)

Module NumpyFacts.

Import F64Facts.

Lemma count_true_repeat (v : bool) (n : nat) :
  Numpy.count_true (repeat v n) = if v then Z.of_nat n else 0.
Proof.
  induction n as [|n IH]; [destruct v; reflexivity|].
  cbn [repeat Numpy.count_true]. rewrite IH. destruct v; lia.
Qed.

Lemma adjacent_repeat {A B : Type} (op : A -> A -> B) (x : A) (n : nat) :
  Numpy.adjacent op (repeat x n) = repeat (op x x) (n - 1).
Proof.
  induction n as [|[|n] IH]; try reflexivity.
  change (repeat x (S (S n))) with (x :: repeat x (S n)).
  cbn [Numpy.adjacent]. change (repeat x (S n)) with (x :: repeat x n) at 1.
  cbn iota. rewrite IH.
  replace (S (S n) - 1)%nat with (S (S n - 1)) by lia. reflexivity.
Qed.

Lemma seq_sum_zeros (l : list f64) (init : f64) :
  is_zero init -> Forall is_zero l -> is_zero (Numpy.seq_sum init l).
Proof.
  revert init. unfold Numpy.seq_sum.
  induction l as [|x l IH]; intros init Hi Hl; [exact Hi|].
  inversion Hl; subst. simpl. apply IH; [apply add_zeros|]; assumption.
Qed.

Lemma map2_zeros (l1 l2 : list f64) :
  Forall is_zero l1 -> Forall is_zero l2 -> Forall is_zero (Numpy.map2 l1 l2).
Proof.
  revert l2. induction l1 as [|x l1 IH]; intros [|y l2] H1 H2;
    try constructor; inversion H1; inversion H2; subst.
  - apply add_zeros; assumption.
  - apply IH; assumption.
Qed.

Lemma firstn_zeros (n : nat) (l : list f64) :
  Forall is_zero l -> Forall is_zero (firstn n l).
Proof.
  intros H. rewrite <- (firstn_skipn n l) in H.
  apply Forall_app in H. apply H.
Qed.

Lemma skipn_zeros (n : nat) (l : list f64) :
  Forall is_zero l -> Forall is_zero (skipn n l).
Proof.
  intros H. rewrite <- (firstn_skipn n l) in H.
  apply Forall_app in H. apply H.
Qed.

Lemma unrolled_zeros (fuel : nat) (r rest : list f64) :
  Forall is_zero r -> Forall is_zero rest ->
  Forall is_zero (fst (Numpy.unrolled fuel r rest)) /\
  Forall is_zero (snd (Numpy.unrolled fuel r rest)).
Proof.
  revert r rest. induction fuel as [|fuel IH]; intros r rest Hr Hrest;
    [split; assumption|].
  cbn [Numpy.unrolled].
  destruct (8 <=? length rest)%nat; [|split; assumption].
  apply IH; [apply map2_zeros; [|apply firstn_zeros] | apply skipn_zeros];
    assumption.
Qed.

Lemma nth_zero (i : nat) (r : list f64) :
  Forall is_zero r -> is_zero (nth i r F64.nzero).
Proof.
  intros H. destruct (nth_in_or_default i r F64.nzero) as [Hin | ->];
    [|exact I].
  rewrite Forall_forall in H. apply H, Hin.
Qed.

Lemma combine8_zeros (r : list f64) :
  Forall is_zero r -> is_zero (Numpy.combine8 r).
Proof.
  intros H. unfold Numpy.combine8.
  repeat apply add_zeros; apply nth_zero, H.
Qed.

Lemma block_sum_zeros (l : list f64) :
  Forall is_zero l -> is_zero (Numpy.block_sum l).
Proof.
  intros H. unfold Numpy.block_sum.
  destruct (unrolled_zeros (length l) (firstn 8 l) (skipn 8 l)) as [H1 H2];
    [apply firstn_zeros, H | apply skipn_zeros, H |].
  destruct (Numpy.unrolled _ _ _) as [r rest].
  apply seq_sum_zeros; [apply combine8_zeros, H1 | exact H2].
Qed.

Lemma pairwise_sum_zeros (fuel : nat) (l : list f64) :
  Forall is_zero l -> is_zero (Numpy.pairwise_sum fuel l).
Proof.
  revert l. induction fuel as [|fuel IH]; intros l H; cbn [Numpy.pairwise_sum];
    destruct (length l <? 8)%nat;
    try (apply seq_sum_zeros; [exact I | exact H]);
    destruct (length l <=? 128)%nat;
    try (apply block_sum_zeros, H).
  apply add_zeros; apply IH; [apply firstn_zeros | apply skipn_zeros]; exact H.
Qed.

(** A sum of zeros of either sign is +0.0. *)
Lemma sum_zeros (l : list f64) :
  Forall is_zero l -> Numpy.sum l = F64.pzero.
Proof.
  intros H. unfold Numpy.sum.
  pose proof (pairwise_sum_zeros (length l) l H) as Hz.
  destruct (Numpy.pairwise_sum _ _) as [[]| | |]; try contradiction;
    reflexivity.
Qed.

End NumpyFacts.

(** ** The feature extractors *)

Module FeatureFacts.

Import F64Facts NumpyFacts.

Lemma map_adjacent {A B C : Type} (g : B -> C) (op : A -> A -> B)
    (l : list A) :
  map g (Numpy.adjacent op l) = Numpy.adjacent (fun y x => g (op y x)) l.
Proof.
  induction l as [|x [|y l] IH]; try reflexivity.
  cbn [Numpy.adjacent map] in *. rewrite IH. reflexivity.
Qed.

Lemma adjacent_map {A B C : Type} (f : A -> B) (op : B -> B -> C)
    (l : list A) :
  Numpy.adjacent op (map f l) = Numpy.adjacent (fun y x => op (f y) (f x)) l.
Proof.
  induction l as [|x [|y l] IH]; try reflexivity.
  cbn [Numpy.adjacent map] in *. rewrite IH. reflexivity.
Qed.

Lemma adjacent_ext {A B : Type} (P : A -> Prop) (op1 op2 : A -> A -> B)
    (l : list A) :
  (forall x y, P x -> P y -> op1 y x = op2 y x) ->
  Forall P l ->
  Numpy.adjacent op1 l = Numpy.adjacent op2 l.
Proof.
  intros Hop. induction l as [|x [|y l] IH]; intros Hl; try reflexivity.
  inversion Hl as [|? ? Hx Hl']; subst.
  inversion Hl' as [|? ? Hy _]; subst.
  cbn [Numpy.adjacent] in *. rewrite (Hop x y Hx Hy), (IH Hl'). reflexivity.
Qed.

(** On two samples that are not NaN, the offline test
    [sign(next) - sign(prev) != 0] is the test that their signs differ. *)
Lemma sign_diff_nonzero (x y : f64) :
  F64.isnan x = false -> F64.isnan y = false ->
  negb (F64.eqb (F64.sub (F64.sign y) (F64.sign x)) F64.pzero) =
  negb (sign_class_eqb (sign_class_of x) (sign_class_of y)).
Proof.
  destruct x as [sx|sx| |sx mx ex], y as [sy|sy| |sy my ey];
    intros Hx Hy; try discriminate;
    try destruct sx; try destruct sy; reflexivity.
Qed.

(** The offline extractor counts the sign changes, zero being a sign of its
    own. *)
Lemma offline_zc_sign_changes (w : list f64) :
  Forall (fun x => F64.isnan x = false) w ->
  FeatureExtractor.zero_crossings w = sign_changes w.
Proof.
  intros Hw. unfold FeatureExtractor.zero_crossings, sign_changes, Numpy.diff.
  rewrite map_adjacent, adjacent_map. f_equal.
  apply adjacent_ext with (P := fun x => F64.isnan x = false); [|exact Hw].
  intros x y Hx Hy. apply sign_diff_nonzero; assumption.
Qed.

(** On two samples that are neither zero nor NaN, the sign bits differ
    exactly when the signs do. *)
Lemma realtime_zc_sign_changes (w : list f64) :
  Forall nonzero_number w ->
  RealTime.zero_crossings w = sign_changes w.
Proof.
  intros Hw. unfold RealTime.zero_crossings, sign_changes, Numpy.diff_bool.
  rewrite adjacent_map. f_equal.
  apply adjacent_ext with (P := nonzero_number); [|exact Hw].
  intros [sx|sx| |sx mx ex] [sy|sy| |sy my ey] Hx Hy; try contradiction;
    destruct sx, sy; reflexivity.
Qed.

(** C6.  On the window [[1.0, 0.0, 1.0]] there are two sign changes when a
    zero sample is a sign boundary, and the offline extractor counts two;
    the real-time extractor reads the sign bit, which is clear for 0.0 as
    for 1.0, and returns ZC = 0. *)
Theorem realtime_zc_misses_zero_boundary :
  let w := [F64.one; F64.pzero; F64.one] in
  (3 <= length w)%nat /\
  sign_changes w = 2 /\
  FeatureExtractor.zero_crossings w = 2 /\
  zc (FeatureExtractor.extract_features w) = F64.of_Z 2 /\
  RealTime.zero_crossings w = 0 /\
  zc (RealTime._extract_features w) = F64.of_Z 0.
Proof.
  cbv zeta. repeat apply conj; reflexivity.
Qed.

Lemma slope_sign_changes_constant (c : f64) (n : nat) :
  slope_sign_changes (repeat c n) = 0.
Proof.
  unfold slope_sign_changes, Numpy.diff.
  rewrite !adjacent_repeat, map_repeat, square_not_negative.
  apply count_true_repeat.
Qed.

Lemma std_constant (c : f64) (n : nat) :
  F64.is_finite c = true ->
  Numpy.mean (repeat c n) = c ->
  Numpy.std (repeat c n) = F64.pzero.
Proof.
  intros Hc Hmean. unfold Numpy.std. rewrite Hmean.
  rewrite !map_repeat, (sub_diag c Hc), repeat_length.
  change (F64.mul F64.pzero F64.pzero) with F64.pzero.
  rewrite sum_zeros by (apply Forall_forall; intros x Hx;
                        apply repeat_spec in Hx; subst; exact I).
  unfold Numpy.mean in Hmean. rewrite repeat_length in Hmean.
  rewrite (div_pzero _ _ _ Hmean Hc); [reflexivity|].
  destruct n as [|n]; [reflexivity|].
  change (Z.of_nat (S n)) with (Z.pos (Pos.of_succ_nat n)).
  destruct (of_Z_pos_sign (Pos.of_succ_nat n)) as [H|[H|[H|(m & e & H)]]];
    rewrite H; reflexivity.
Qed.

Lemma signbit_opp (v : f64) :
  F64.isnan v = false -> F64.signbit (SFopp v) = negb (F64.signbit v).
Proof. destruct v; intros H; try discriminate; reflexivity. Qed.

Lemma isnan_opp (v : f64) : F64.isnan (SFopp v) = F64.isnan v.
Proof. destruct v; reflexivity. Qed.

Lemma zero_crossings_alternating (n : nat) (v : f64) :
  F64.isnan v = false ->
  RealTime.zero_crossings (alternating (S n) v) = Z.of_nat n.
Proof.
  revert v. induction n as [|n IH]; intros v Hv; [reflexivity|].
  specialize (IH (SFopp v)). rewrite isnan_opp in IH. specialize (IH Hv).
  unfold RealTime.zero_crossings, Numpy.diff_bool in *.
  cbn [alternating map Numpy.adjacent] in *.
  rewrite (signbit_opp v Hv) in *.
  destruct (F64.signbit v); cbn [negb xorb Numpy.count_true] in *;
    rewrite IH; lia.
Qed.

(** C7, as the code has it.  For a constant window of length at least 3 the
    real-time extractor returns SSC = 0; it returns STD = 0 when the constant
    is finite and the computed mean of the window is the constant itself
    (the mean is a rounded quotient of a rounded sum and can miss the
    constant); and for the alternating window
    [[1, -1, 1, -1, ...]] of length [n >= 3] it returns ZC = n - 1. *)
Theorem constant_and_alternating_windows :
  (forall (c : f64) (n : nat), (3 <= n)%nat ->
     ssc (RealTime._extract_features (repeat c n)) = F64.of_Z 0) /\
  (forall (c : f64) (n : nat), (3 <= n)%nat ->
     F64.is_finite c = true ->
     Numpy.mean (repeat c n) = c ->
     std (RealTime._extract_features (repeat c n)) = F64.of_Z 0) /\
  (forall n : nat, (3 <= n)%nat ->
     zc (RealTime._extract_features (alternating n F64.one)) =
     F64.of_Z (Z.of_nat n - 1)).
Proof.
  split; [|split].
  - intros c n _. cbn [RealTime._extract_features ssc].
    rewrite slope_sign_changes_constant. reflexivity.
  - intros c n _ Hc Hmean. cbn [RealTime._extract_features std].
    rewrite (std_constant c n Hc Hmean). reflexivity.
  - intros [|n] Hn; [lia|]. cbn [RealTime._extract_features zc].
    rewrite zero_crossings_alternating by reflexivity.
    f_equal. lia.
Qed.

End FeatureFacts.

(** ** The processor *)

Section ProcessorFacts.

Variable butter : Z -> f64 -> f64 -> option (list f64 * list f64).
Variable lfilter_zi : list f64 -> list f64 -> option (list f64).
Variable unwritten : processor -> nat -> f64.

Local Abbreviation init := (__init__ butter).
Local Abbreviation process_window := (_process_window lfilter_zi unwritten).
Local Abbreviation process_one := (processing_iteration lfilter_zi unwritten).
Local Abbreviation run_schedule := (run lfilter_zi unwritten).

(** *** Rejected windows *)

Lemma has_nan_or_inf_intro (w : list f64) (x : f64) :
  In x w -> F64.isnan x = true \/ F64.isinf x = true ->
  has_nan_or_inf w = true.
Proof.
  intros Hin Hx. unfold has_nan_or_inf, Numpy.any.
  apply orb_true_iff.
  destruct Hx as [Hx|Hx]; [left|right];
    apply existsb_exists; exists true; (split; [|reflexivity]);
    rewrite <- Hx; apply in_map, Hin.
Qed.

(** C10.  When the window holds a NaN or an infinity, [_process_window]
    returns no result and the processor it leaves is the one it found: the
    rolling buffer keeps all its samples, the filter state is neither
    initialised nor updated, and [samples_processed] is not incremented. *)
Theorem nonfinite_window_rejected (s : processor) (x : f64) :
  In x (buffer s) ->
  F64.isnan x = true \/ F64.isinf x = true ->
  process_window s = (s, None) /\
  buffer (fst (process_window s)) = buffer s /\
  filter_state (fst (process_window s)) = filter_state s /\
  samples_processed (fst (process_window s)) = samples_processed s.
Proof.
  intros Hin Hx.
  assert (E : process_window s = (s, None)).
  { unfold _process_window.
    destruct (negb (Z.of_nat (length (buffer s)) =? buffer_size s));
      [reflexivity|].
    rewrite (has_nan_or_inf_intro _ x Hin Hx). reflexivity. }
  rewrite E. repeat split.
Qed.

(** *** The result channel *)

(** C8.  [get_latest_result] returns at once in every state.  It returns
    [None] exactly when the result queue is empty, and then changes nothing;
    otherwise it returns the oldest queued result and removes that one
    result from the queue, leaving the others in order. *)
Theorem get_latest_result_nonblocking (s : processor) :
  (snd (get_latest_result s) = None <->
   Queue.items (result_queue s) = []) /\
  (Queue.items (result_queue s) = [] -> get_latest_result s = (s, None)) /\
  (forall (r : result) (rest : list result),
     Queue.items (result_queue s) = r :: rest ->
     snd (get_latest_result s) = Some r /\
     Queue.items (result_queue (fst (get_latest_result s))) = rest /\
     Queue.qsize (result_queue (fst (get_latest_result s))) =
       Queue.qsize (result_queue s) - 1 /\
     fst (get_latest_result s) =
       set_result_queue s (Queue.mk rest (Queue.maxsize (result_queue s)))).
Proof.
  unfold get_latest_result, Queue.get_nowait, Queue.qsize.
  destruct (Queue.items (result_queue s)) as [|r0 rest0] eqn:E.
  - cbn. split; [split; intros; reflexivity|]. split; [reflexivity|].
    intros r rest H. discriminate.
  - cbn [fst snd set_result_queue result_queue Queue.items].
    split; [split; discriminate|]. split; [discriminate|].
    intros r rest [= <- <-]. repeat apply conj; try reflexivity.
    cbn [length]. lia.
Qed.

(** *** Construction *)

Local Ltac rejected :=
  repeat apply conj;
  [ intros [? Hs]; discriminate Hs
  | intros (? & ? & ? & ?); (lia || congruence)
  | intros ?; (reflexivity || lia)
  | intros ?; (reflexivity || lia)
  | intros ? Hs; discriminate Hs ].

(** A constructed processor: what its fields hold. *)
Lemma init_fresh (port_ : string)
    (baud_rate_ buffer_size_ step_size_ sampling_freq_ : Z)
    (low_freq high_freq : f64) (filter_order : Z) (s : processor) :
  init port_ baud_rate_ buffer_size_ step_size_ sampling_freq_
       low_freq high_freq filter_order = inr s ->
  0 <= buffer_size_ < 2 ^ 63 /\
  buffer_size s = buffer_size_ /\ step_size s = step_size_ /\
  buffer s = [] /\ filter_state s = None /\
  running s = false /\
  collection_thread s = None /\ processing_thread s = None /\
  Queue.maxsize (data_queue s) = 1000 /\
  Queue.maxsize (result_queue s) = 100.
Proof.
  unfold __init__.
  destruct ((buffer_size_ <? - 2 ^ 63) || (2 ^ 63 <=? buffer_size_)) eqn:Eo;
    [discriminate|].
  apply orb_false_iff in Eo. destruct Eo as [_ Eo]. apply Z.leb_gt in Eo.
  destruct (buffer_size_ <? 0) eqn:Eb; [discriminate|].
  apply Z.ltb_ge in Eb.
  destruct (F64.isinf _); [discriminate|].
  destruct (F64.eqb _ _); [discriminate|].
  destruct (butter _ _ _) as [[b_ a_]|]; [|discriminate].
  intros [= <-]. cbn [buffer_size step_size buffer filter_state running
                      collection_thread processing_thread data_queue
                      result_queue Queue.maxsize Queue.empty].
  repeat apply conj; try reflexivity; assumption.
Qed.

(** C5, as the code has it.  The constructor never compares [step_size] with
    anything.  It succeeds exactly when [buffer_size] is not negative and
    fits a signed 64-bit size, [sampling_freq / 2] is a non-zero float and
    the filter design succeeds; a [buffer_size] that does not fit 64 bits
    and a negative one are rejected by the rolling buffer.  What it returns
    is stopped, has no thread and an empty window, and keeps the sizes it
    was given. *)
Theorem construction_accepts (port_ : string)
    (baud_rate_ buffer_size_ step_size_ sampling_freq_ : Z)
    (low_freq high_freq : f64) (filter_order : Z) :
  let nyquist := F64.of_scaled sampling_freq_ (-1) in
  let made := init port_ baud_rate_ buffer_size_ step_size_ sampling_freq_
                   low_freq high_freq filter_order in
  ((exists s, made = inr s) <->
   0 <= buffer_size_ < 2 ^ 63 /\
   F64.isinf nyquist = false /\
   F64.eqb nyquist F64.pzero = false /\
   butter filter_order (F64.div low_freq nyquist) (F64.div high_freq nyquist)
     <> None) /\
  (buffer_size_ < - 2 ^ 63 \/ 2 ^ 63 <= buffer_size_ ->
   made = inl maxlen_overflow) /\
  (- 2 ^ 63 <= buffer_size_ < 0 -> made = inl maxlen_negative) /\
  (forall s, made = inr s ->
     buffer_size s = buffer_size_ /\ step_size s = step_size_ /\
     buffer s = [] /\ filter_state s = None /\
     running s = false /\
     collection_thread s = None /\ processing_thread s = None /\
     Queue.maxsize (data_queue s) = 1000 /\
     Queue.maxsize (result_queue s) = 100).
Proof.
  cbv zeta. unfold __init__.
  destruct ((buffer_size_ <? - 2 ^ 63) || (2 ^ 63 <=? buffer_size_)) eqn:Eo.
  { apply orb_true_iff in Eo.
    rewrite Z.ltb_lt, Z.leb_le in Eo. rejected. }
  apply orb_false_iff in Eo. rewrite Z.ltb_ge, Z.leb_gt in Eo.
  destruct (buffer_size_ <? 0) eqn:Eb;
    [apply Z.ltb_lt in Eb | apply Z.ltb_ge in Eb].
  { rejected. }
  destruct (F64.isinf (F64.of_scaled sampling_freq_ (-1))) eqn:Ei.
  { rejected. }
  destruct (F64.eqb (F64.of_scaled sampling_freq_ (-1)) F64.pzero) eqn:Ez.
  { rejected. }
  destruct (butter filter_order _ _) as [[b_ a_]|] eqn:Ed.
  2:{ rejected. }
  repeat apply conj.
  - intros _. repeat apply conj; try assumption; try reflexivity; try lia.
    discriminate.
  - intros _. eexists. reflexivity.
  - intros H. lia.
  - intros H. lia.
  - intros s [= <-]. cbn. repeat apply conj; reflexivity.
Qed.

(** *** Lifecycle *)

(** C9.  On a freshly constructed processor [stop] joins no thread and
    returns the processor unchanged.  A first [start] starts one collection
    thread and one processing thread; a second [start] right after it only
    reports that the processor is already running: the processor and the
    list of started threads stay as the first call left them. *)
Theorem stop_fresh_and_start_twice (port_ : string)
    (baud_rate_ buffer_size_ step_size_ sampling_freq_ : Z)
    (low_freq high_freq : f64) (filter_order : Z)
    (s0 : processor) (threads : list thread) :
  init port_ baud_rate_ buffer_size_ step_size_ sampling_freq_
       low_freq high_freq filter_order = inr s0 ->
  stop s0 = (s0, []) /\
  exists s1 t1 t2,
    start s0 threads = (s1, threads ++ [t1; t2], started) /\
    start s1 (threads ++ [t1; t2]) =
      (s1, threads ++ [t1; t2], already_running) /\
    running s1 = true /\
    collection_thread s1 = Some t1 /\
    processing_thread s1 = Some t2 /\
    thread_target t1 = data_collection_loop /\
    thread_target t2 = processing_loop /\
    ident t1 <> ident t2.
Proof.
  intros Hinit.
  assert (Hfresh : running s0 = false /\ collection_thread s0 = None /\
                   processing_thread s0 = None).
  { destruct (init_fresh _ _ _ _ _ _ _ _ _ Hinit)
      as (_ & _ & _ & _ & _ & H1 & H2 & H3 & _).
    repeat split; assumption. }
  destruct Hfresh as (Hr & Hc & Hp).
  split.
  - unfold stop. cbn. rewrite Hc, Hp.
    destruct s0; cbn in Hr; subst; reflexivity.
  - unfold start at 1. rewrite Hr.
    eexists _, _, _. split; [|split].
    + rewrite <- app_assoc. reflexivity.
    + reflexivity.
    + cbn. repeat split. rewrite length_app. cbn. lia.
Qed.

End ProcessorFacts.

(** ** The two stages *)

Module DequeFacts.


Lemma append_below {A : Type} (maxlen : Z) (d : list A) (v : A) :
  Z.of_nat (length d) < maxlen ->
  Deque.append maxlen d v = d ++ [v].
Proof.
  intros Hd. unfold Deque.append.
  destruct (maxlen <? Z.of_nat (length (d ++ [v]))) eqn:E; [|reflexivity].
  apply Z.ltb_lt in E. rewrite length_app in E. cbn [length] in E. lia.
Qed.

Lemma evict_skipn (n : nat) (d : list f64) : evict n d = skipn n d.
Proof.
  revert d. induction n as [|n IH]; intros d; [reflexivity|].
  cbn [evict]. rewrite IH. destruct d; [apply skipn_nil | reflexivity].
Qed.


End DequeFacts.

Section StageFacts.

Import DequeFacts.

Variable lfilter_zi : list f64 -> list f64 -> option (list f64).
Variable unwritten : processor -> nat -> f64.

Local Abbreviation process_window := (_process_window lfilter_zi unwritten).
Local Abbreviation process_one := (processing_iteration lfilter_zi unwritten).
Local Abbreviation step_one := (step lfilter_zi unwritten).
Local Abbreviation run_schedule := (run lfilter_zi unwritten).

Local Ltac case_split :=
  repeat match goal with
    | |- context [match ?x with _ => _ end] => destruct x eqn:?
    end.

(** What [_process_window] leaves alone, and what it does to the window. *)
Lemma process_window_frame (s : processor) :
  let s' := fst (process_window s) in
  buffer_size s' = buffer_size s /\ step_size s' = step_size s /\
  data_queue s' = data_queue s /\ result_queue s' = result_queue s /\
  samples_collected s' = samples_collected s /\
  samples_dropped s' = samples_dropped s.
Proof.
  cbv zeta. unfold _process_window. case_split; cbn; repeat apply conj;
    reflexivity.
Qed.

Lemma process_window_rejects (s s' : processor) :
  process_window s = (s', None) ->
  buffer s' = buffer s /\ samples_processed s' = samples_processed s.
Proof.
  unfold _process_window. case_split; intros [= <-]; cbn; split; reflexivity.
Qed.

Lemma process_window_accepts (s s' : processor) (r : result) :
  process_window s = (s', Some r) ->
  buffer s' = evict (Z.to_nat (step_size s)) (buffer s) /\
  samples_processed s' = samples_processed s + 1 /\
  raw_signal r = buffer s /\
  Z.of_nat (length (buffer s)) = buffer_size s /\
  has_nan_or_inf (buffer s) = false.
Proof.
  unfold _process_window. case_split; intros [= <- <-]; cbn;
    repeat apply conj; try reflexivity; try assumption.
  all: match goal with
       | H : negb _ = false |- _ =>
           apply negb_false_iff, Z.eqb_eq in H; exact H
       end.
Qed.

(** One iteration of the processing loop that finds a sample: the sample is
    appended; a window of exactly [buffer_size] samples is handed to
    [_process_window], any other is left waiting. *)
Lemma process_one_cases (s : processor) (value : f64) (q : Queue.t f64) :
  Queue.get_nowait (data_queue s) = Some (value, q) ->
  let s2 := set_buffer (set_data_queue s q)
              (Deque.append (buffer_size s) (buffer s) value) in
  (Z.of_nat (length (buffer s2)) <> buffer_size s ->
   process_one s = (s2, appended)) /\
  (Z.of_nat (length (buffer s2)) = buffer_size s ->
   exists s3 r,
     process_window s2 = (s3, r) /\
     snd (process_one s) = triggered (buffer s2) r /\
     buffer (fst (process_one s)) = buffer s3 /\
     buffer_size (fst (process_one s)) = buffer_size s /\
     data_queue (fst (process_one s)) = q).
Proof.
  intros Hget. cbv zeta. unfold processing_iteration. rewrite Hget.
  cbn [buffer buffer_size set_buffer set_data_queue].
  split; intros Hlen.
  - apply Z.eqb_neq in Hlen. rewrite Hlen. reflexivity.
  - apply Z.eqb_eq in Hlen. rewrite Hlen.
    pose proof (process_window_frame
                  (set_buffer (set_data_queue s q)
                     (Deque.append (buffer_size s) (buffer s) value))) as Hf.
    cbv zeta in Hf.
    destruct (process_window _) as [s3 r]. cbn [fst] in Hf.
    destruct Hf as (Hbs & _ & Hdq & _).
    cbn [buffer_size data_queue set_buffer set_data_queue] in Hbs, Hdq.
    exists s3, r. split; [reflexivity|].
    destruct r as [res|]; [destruct (Queue.put_nowait _ _)|]; cbn;
      repeat apply conj; auto.
Qed.

Lemma collection_iteration_frame (s : processor) (u : raw_unit) :
  buffer (fst (collection_iteration s u)) = buffer s /\
  buffer_size (fst (collection_iteration s u)) = buffer_size s /\
  step_size (fst (collection_iteration s u)) = step_size s /\
  samples_processed (fst (collection_iteration s u)) = samples_processed s.
Proof.
  unfold collection_iteration. case_split; cbn; repeat apply conj; reflexivity.
Qed.




Variable butter : Z -> f64 -> f64 -> option (list f64 * list f64).


(** *** Eviction and overlap *)

Lemma run_app (es1 es2 : list event) (s : processor) :
  run_schedule s (es1 ++ es2) =
  let '(s1, os1) := run_schedule s es1 in
  let '(s2, os2) := run_schedule s1 es2 in
  (s2, os1 ++ os2).
Proof.
  revert s. induction es1 as [|e es1 IH]; intros s; cbn [app run].
  - destruct (run_schedule s es2); reflexivity.
  - destruct (step_one s e) as [s1 o]. rewrite IH.
    destruct (run_schedule s1 es1) as [s2 os1].
    destruct (run_schedule s2 es2) as [s3 os2]. reflexivity.
Qed.

(** Samples that do not fill the window are appended one by one, in order,
    and nothing else happens. *)
Lemma run_fill (vs : list f64) (s : processor) (rest : list f64) :
  Queue.items (data_queue s) = vs ++ rest ->
  Z.of_nat (length (buffer s) + length vs) < buffer_size s ->
  exists s',
    run_schedule s (repeat process (length vs)) =
      (s', repeat (processed appended) (length vs)) /\
    buffer s' = buffer s ++ vs /\
    Queue.items (data_queue s') = rest /\
    buffer_size s' = buffer_size s.
Proof.
  revert s. induction vs as [|v vs IH]; intros s Hq Hlen.
  - exists s. cbn. rewrite app_nil_r. auto.
  - cbn [length repeat run step].
    assert (Hget : Queue.get_nowait (data_queue s) =
                   Some (v, Queue.mk (vs ++ rest) (Queue.maxsize (data_queue s)))).
    { unfold Queue.get_nowait. rewrite Hq. reflexivity. }
    destruct (process_one_cases s v _ Hget) as [Hno _].
    cbn [buffer set_buffer] in Hno.
    rewrite append_below in Hno by (cbn [length] in Hlen; lia).
    rewrite Hno by (rewrite length_app; cbn [length] in *; lia).
    set (s1 := set_buffer _ _).
    destruct (IH s1) as (s' & Hrun & Hbuf & Hrest & Hbs).
    + reflexivity.
    + subst s1. cbn [buffer buffer_size set_buffer set_data_queue].
      rewrite length_app. cbn [length] in *. lia.
    + exists s'. rewrite Hrun. split; [reflexivity|].
      subst s1. cbn [buffer buffer_size set_buffer set_data_queue] in *.
      rewrite Hbuf, <- app_assoc. auto.
Qed.

(** A deque at its capacity drops its oldest element for the new one. *)
Lemma append_at_capacity (maxlen : Z) (d : list f64) (v : f64) :
  0 < maxlen -> Z.of_nat (length d) = maxlen ->
  Deque.append maxlen d v = skipn 1 d ++ [v].
Proof.
  intros Hpos Hlen. unfold Deque.append. rewrite length_app. cbn [length].
  destruct (maxlen <? Z.of_nat (length d + 1)) eqn:E;
    [|apply Z.ltb_ge in E; lia].
  destruct d as [|x d]; [cbn [length] in Hlen; lia | reflexivity].
Qed.

(** The iteration of the processing loop that completes a window [w]: the
    window is handed to [_process_window]; a result carries it as its raw
    signal, a rejection leaves it in the rolling buffer. *)
Lemma process_one_triggers (s : processor) (value : f64) (q : Queue.t f64) :
  Queue.get_nowait (data_queue s) = Some (value, q) ->
  Z.of_nat (length (Deque.append (buffer_size s) (buffer s) value)) =
    buffer_size s ->
  exists r',
    snd (process_one s) =
      triggered (Deque.append (buffer_size s) (buffer s) value) r' /\
    (forall res, r' = Some res ->
       raw_signal res = Deque.append (buffer_size s) (buffer s) value) /\
    (r' = None ->
       buffer (fst (process_one s)) =
       Deque.append (buffer_size s) (buffer s) value).
Proof.
  intros Hget Hlen.
  destruct (process_one_cases s value q Hget) as [_ Hyes].
  cbn [buffer set_buffer] in Hyes.
  destruct (Hyes Hlen) as (s3 & r' & Hpw & Hobs & Hbuf & _).
  exists r'. split; [exact Hobs|]. split.
  - intros res ->.
    destruct (process_window_accepts _ _ _ Hpw) as (_ & _ & Hraw & _).
    exact Hraw.
  - intros ->.
    destruct (process_window_rejects _ _ Hpw) as (Hb & _).
    rewrite Hbuf, Hb. reflexivity.
Qed.

(** C3, as the code has it.  A call of [_process_window] that returns a
    result removes the [step_size] oldest samples of the window, all of
    them when there are fewer, and none when [step_size] is zero or
    negative: the window gets shorter by [min(max(0, step_size), length)]
    samples.  With a window capacity above zero the processing loop then
    appends the next [k = max(1, min(step_size, buffer_size))] samples, and
    on the last of them hands to [_process_window] the window made of the
    [buffer_size - k] newest samples of the previous window followed by the
    [k] new samples; that window is the raw signal of the next result when
    it is accepted, and stays in the rolling buffer when it is rejected. *)
Theorem eviction_and_overlap (s s1 : processor) (r : result) :
  _process_window lfilter_zi unwritten s = (s1, Some r) ->
  buffer s1 = skipn (Z.to_nat (step_size s)) (buffer s) /\
  Z.of_nat (length (buffer s1)) =
    Z.of_nat (length (buffer s)) -
    Z.min (Z.max 0 (step_size s)) (Z.of_nat (length (buffer s))) /\
  (0 < buffer_size s ->
   forall (vs rest : list f64),
     Queue.items (data_queue s1) = vs ++ rest ->
     Z.of_nat (length vs) = Z.max 1 (Z.min (step_size s) (buffer_size s)) ->
     let kept := skipn (length vs) (raw_signal r) in
     Z.of_nat (length kept) = buffer_size s - Z.of_nat (length vs) /\
     exists s2 r',
       run lfilter_zi unwritten s1 (repeat process (length vs)) =
         (s2, repeat (processed appended) (length vs - 1) ++
              [processed (triggered (kept ++ vs) r')]) /\
       (forall res, r' = Some res -> raw_signal res = kept ++ vs) /\
       (r' = None -> buffer s2 = kept ++ vs)).
Proof.
  intros Hpw.
  destruct (process_window_accepts s s1 r Hpw) as (Hbuf & _ & Hraw & Hfull & _).
  pose proof (process_window_frame s) as Hf. cbv zeta in Hf.
  rewrite Hpw in Hf. cbn [fst] in Hf. destruct Hf as (Hbs & Hss & _).
  rewrite evict_skipn in Hbuf.
  split; [exact Hbuf|]. split.
  { rewrite Hbuf, length_skipn. lia. }
  intros Hpos vs rest Hq Hvs. cbv zeta. rewrite Hraw.
  split; [rewrite length_skipn; lia|].
  destruct (exists_last (l := vs)) as (front & v & ->).
  { intros ->. cbn [length] in Hvs. lia. }
  rewrite length_app in *. cbn [length] in *.
  replace (length front + 1 - 1)%nat with (length front) by lia.
  rewrite <- app_assoc in Hq.
  set (kept := skipn (length front + 1) (buffer s)).
  assert (Hfill : exists s',
             run_schedule s1 (repeat process (length front)) =
               (s', repeat (processed appended) (length front)) /\
             Queue.items (data_queue s') = [v] ++ rest /\
             buffer_size s' = buffer_size s /\
             Deque.append (buffer_size s) (buffer s') v =
               kept ++ front ++ [v] /\
             Z.of_nat (length (kept ++ front ++ [v])) = buffer_size s).
  { assert (Hkept : Z.of_nat (length kept) =
                    buffer_size s - Z.of_nat (length front + 1))
      by (unfold kept; rewrite length_skipn; lia).
    assert (Hwin : Z.of_nat (length (kept ++ front ++ [v])) = buffer_size s)
      by (rewrite !length_app; cbn [length]; lia).
    destruct (Z_le_gt_dec (step_size s) 0) as [Hle|Hgt].
    - assert (Hf0 : front = []).
      { destruct front as [|? ?]; [reflexivity|]. cbn [length] in Hvs. lia. }
      subst front. exists s1. cbn [length repeat run app] in *.
      split; [reflexivity|]. split; [exact Hq|]. split; [exact Hbs|].
      split; [|exact Hwin].
      replace (Z.to_nat (step_size s)) with 0%nat in Hbuf by lia.
      cbn [skipn] in Hbuf. rewrite Hbuf.
      apply append_at_capacity; assumption.
    - assert (Hb1 : buffer s1 = kept).
      { rewrite Hbuf. unfold kept.
        destruct (Z_le_gt_dec (step_size s) (buffer_size s)) as [Hin|Hout].
        - f_equal. lia.
        - rewrite !skipn_all2 by lia. reflexivity. }
      destruct (run_fill front s1 ([v] ++ rest) Hq)
        as (s' & Hrun & Hb' & Hq' & Hbs').
      { rewrite Hb1, Hbs. lia. }
      exists s'. split; [exact Hrun|]. split; [exact Hq'|].
      split; [congruence|]. split; [|exact Hwin].
      rewrite Hb', Hb1, append_below, <- app_assoc; [reflexivity|].
      rewrite length_app. lia. }
  destruct Hfill as (s' & Hrun & Hq' & Hbs' & Happ & Hwin).
  assert (Hget : Queue.get_nowait (data_queue s') =
                 Some (v, Queue.mk rest (Queue.maxsize (data_queue s')))).
  { unfold Queue.get_nowait. rewrite Hq'. reflexivity. }
  destruct (process_one_triggers s' v _ Hget) as (r' & Hobs & Hres & Hrej).
  { rewrite Hbs', Happ. exact Hwin. }
  rewrite Hbs', Happ in Hobs, Hres, Hrej.
  rewrite repeat_app, run_app, Hrun. cbn [repeat run step].
  destruct (process_one s') as [s2 o]. cbn [fst snd] in Hobs, Hrej.
  subst o. exists s2, r'.
  split; [reflexivity|]. split; assumption.
Qed.

(** *** Accounting of the collection loop *)

Lemma process_one_counters (s : processor) :
  samples_collected (fst (process_one s)) = samples_collected s /\
  samples_dropped (fst (process_one s)) = samples_dropped s.
Proof.
  unfold processing_iteration.
  destruct (Queue.get_nowait (data_queue s)) as [[value q]|]; [|split; reflexivity].
  cbn [buffer buffer_size set_buffer set_data_queue].
  destruct (_ =? _); [|split; reflexivity].
  pose proof (process_window_frame
                (set_buffer (set_data_queue s q)
                   (Deque.append (buffer_size s) (buffer s) value))) as Hf.
  cbv zeta in Hf. destruct (process_window _) as [s3 r]. cbn [fst] in Hf.
  destruct Hf as (_ & _ & _ & _ & Hc & Hd). cbn in Hc, Hd.
  destruct r as [res|]; [destruct (Queue.put_nowait _ _)|]; cbn; split;
    assumption.
Qed.

Lemma step_counters (s : processor) (e : event) :
  samples_collected (fst (step_one s e)) =
    samples_collected s + (if parses e then 1 else 0) /\
  samples_dropped (fst (step_one s e)) =
    samples_dropped s +
    (if parses e && Queue.full (data_queue s) then 1 else 0).
Proof.
  destruct e as [[|[value|]]|]; unfold step.
  - cbn. lia.
  - unfold collection_iteration, Queue.put_nowait.
    cbn [data_queue set_samples_collected parses andb].
    destruct (Queue.full (data_queue s)); cbn; lia.
  - cbn. lia.
  - pose proof (process_one_counters s) as H.
    destruct (process_one s) as [s' o]. cbn [fst parses andb] in *. lia.
Qed.

Lemma step_saturated (s : processor) (e : event) :
  is_collect e -> Queue.full (data_queue s) = true ->
  data_queue (fst (step_one s e)) = data_queue s.
Proof.
  destruct e as [[|[value|]]|]; intros He Hfull; try contradiction;
    try reflexivity.
  unfold step, collection_iteration, Queue.put_nowait.
  cbn [data_queue set_samples_collected]. rewrite Hfull. reflexivity.
Qed.

(** C4.  Over any interleaving of the two loops, [samples_collected] grows
    by the number of lines that parsed, whether or not they were enqueued,
    and [samples_dropped] grows by the number of those lines that found the
    sample queue full.  A line that does not parse changes nothing.  While
    only the collection loop runs on a full queue, every parsed line is
    dropped. *)
Theorem ingestion_accounting (s : processor) (es : list event) :
  let s' := fst (run_schedule s es) in
  samples_collected s' = samples_collected s + parsed_count es /\
  samples_dropped s' = samples_dropped s + full_rejections lfilter_zi unwritten
      s es /\
  0 <= full_rejections lfilter_zi unwritten s es <= parsed_count es /\
  collection_iteration s (line None) = (s, skipped) /\
  (Forall is_collect es -> Queue.full (data_queue s) = true ->
   full_rejections lfilter_zi unwritten s es = parsed_count es /\
   data_queue s' = data_queue s).
Proof.
  cbv zeta. revert s. induction es as [|e es IH]; intros s.
  - cbn. repeat apply conj; try lia; try reflexivity. intros _ _. auto.
  - cbn [run parsed_count full_rejections].
    destruct (step_counters s e) as [Hc Hd].
    pose proof (step_saturated s e) as Hsat.
    destruct (step_one s e) as [s1 o]. cbn [fst] in *.
    destruct (IH s1) as (IHc & IHd & IHb & _ & IHsat).
    destruct (run_schedule s1 es) as [s2 os]. cbn [fst] in *.
    repeat apply conj; try reflexivity.
    + lia.
    + lia.
    + destruct (parses e), (Queue.full (data_queue s)); cbn [andb]; lia.
    + destruct (parses e), (Queue.full (data_queue s)); cbn [andb]; lia.
    + intros HF Hfull. inversion HF as [|? ? He Hes]; subst.
      pose proof (Hsat He Hfull) as Hq.
      rewrite Hfull, andb_true_r.
      rewrite <- Hq in Hfull.
      destruct (IHsat Hes Hfull) as [-> ->]. split; [reflexivity | exact Hq].
Qed.

End StageFacts.

(** ** The properties on concrete inputs *)

Module Examples.

(** The example processor is what the constructor returns for
    [buffer_size = 4] and [step_size = 2] with the example design. *)
Lemma example_processor_constructed :
  __init__ example_butter "COM3" 115200 4 2 1000 (F64.of_Z 20) (F64.of_Z 450)
           4 = inr example_processor.
Proof. vm_compute. reflexivity. Qed.

(** The example delays are a steady state of the example section. *)
Lemma example_zi_steady :
  lfilter64 (fun _ => F64.nan) example_b example_a
            [F64.one; F64.one; F64.one] example_zi =
  Some ([F64.pzero; F64.pzero; F64.pzero], example_zi).
Proof. vm_compute. reflexivity. Qed.




(** C3 on the full example window: two samples are evicted, and the next
    window is [3, 4, 5, 6]. *)
Lemma eviction_and_overlap_witness :
  exists s1 r r',
    _process_window example_lfilter_zi example_unwritten example_full =
      (s1, Some r) /\
    0 < buffer_size example_full /\
    Queue.items (data_queue s1) = map F64.of_Z [5; 6] ++ [] /\
    Z.of_nat (length (map F64.of_Z [5; 6])) =
      Z.max 1 (Z.min (step_size example_full) (buffer_size example_full)) /\
    buffer s1 = map F64.of_Z [3; 4] /\
    Z.of_nat (length (buffer s1)) = 4 - Z.min (Z.max 0 2) 4 /\
    snd (run example_lfilter_zi example_unwritten s1 (repeat process 2)) =
      [processed appended;
       processed (triggered (map F64.of_Z [3; 4; 5; 6]) r')].
Proof.
  assert (E : exists s1 r,
             _process_window example_lfilter_zi example_unwritten
                             example_full = (s1, Some r))
    by (vm_compute; eexists; eexists; reflexivity).
  destruct E as (s1 & r & E).
  assert (H0 : 0 < buffer_size example_full) by reflexivity.
  assert (H1 : Z.of_nat (length (map F64.of_Z [5; 6])) =
               Z.max 1 (Z.min (step_size example_full)
                              (buffer_size example_full)))
    by reflexivity.
  pose proof E as Ecomputed.
  vm_compute in Ecomputed. injection Ecomputed as Es Er.
  assert (Hq : Queue.items (data_queue s1) = map F64.of_Z [5; 6] ++ []).
  { rewrite <- Es. vm_compute. reflexivity. }
  destruct (eviction_and_overlap example_lfilter_zi example_unwritten
              example_full s1 r E) as (Hbuf & Hlen & Hnext).
  destruct (Hnext H0 (map F64.of_Z [5; 6]) [] Hq H1)
    as (_ & s2 & r' & Hrun & _).
  exists s1, r, r'.
  split; [exact E|]. split; [exact H0|]. split; [exact Hq|].
  split; [exact H1|]. split; [|split].
  - rewrite <- Es. vm_compute. reflexivity.
  - rewrite <- Es. vm_compute. reflexivity.
  - change (length (map F64.of_Z [5; 6])) with 2%nat in Hrun.
    rewrite Hrun. cbn [snd repeat app Nat.sub].
    rewrite <- Er. vm_compute. reflexivity.
Defined.

(** The claim of C3 fails for a [step_size] the constructor accepts: with
    [buffer_size = 4] and [step_size = -3] the window keeps its four
    samples after the first result, where the claim has it shrink by
    [min(-3, 4)], and the next result, one sample later, shares three
    samples with the first, where the claim has them share
    [4 - (-3) = 7]. *)
Lemma eviction_negative_step_size :
  let s0 := example_backwards in
  let s1 := fst (run example_lfilter_zi example_unwritten s0
                     (example_arrivals ++ repeat process 4)) in
  let obs := snd (run example_lfilter_zi example_unwritten s0
                      (example_arrivals ++ repeat process 5)) in
  __init__ example_butter "COM3" 115200 4 (-3) 1000 (F64.of_Z 20)
           (F64.of_Z 450) 4 = inr s0 /\
  step_size s0 < buffer_size s0 /\
  map raw_signal (results_of obs) =
    [map F64.of_Z [1; 2; 3; 4]; map F64.of_Z [2; 3; 4; 5]] /\
  samples_processed s1 = 1 /\
  Z.of_nat (length (buffer s1)) = 4 /\
  4 - Z.min (step_size s0) 4 <> 4 /\
  buffer_size s0 - step_size s0 = 7.
Proof.
  cbv zeta. repeat apply conj; try (vm_compute; reflexivity).
  vm_compute. discriminate.
Qed.

(** C4 on a saturated queue: of four iterations of the collection loop, two
    read a line that parses; both samples are counted and both are dropped. *)
Lemma ingestion_accounting_witness :
  let es := [collect (line (Some 7)); collect (line None); collect no_data;
             collect (line (Some 9))] in
  let s' := fst (run example_lfilter_zi example_unwritten example_saturated es)
      in
  Forall is_collect es /\
  Queue.full (data_queue example_saturated) = true /\
  parsed_count es = 2 /\
  samples_collected s' = samples_collected example_saturated + 2 /\
  samples_dropped s' = samples_dropped example_saturated + 2 /\
  data_queue s' = data_queue example_saturated.
Proof.
  cbv zeta.
  set (es := [collect (line (Some 7)); collect (line None); collect no_data;
              collect (line (Some 9))]).
  assert (HF : Forall is_collect es) by (repeat constructor).
  assert (Hfull : Queue.full (data_queue example_saturated) = true)
    by (vm_compute; reflexivity).
  assert (Hn : parsed_count es = 2) by reflexivity.
  destruct (ingestion_accounting example_lfilter_zi example_unwritten
      example_saturated es)
    as (Hc & Hd & _ & _ & Hsat).
  destruct (Hsat HF Hfull) as [Hrej Hq].
  rewrite Hrej in Hd. rewrite Hn in Hc, Hd.
  repeat apply conj; assumption.
Defined.

(** C5, the claim as stated: with [step_size = 20] above [buffer_size = 10]
    the constructor returns a processor; so it does with [buffer_size = 0]
    and [step_size = 0].  The filter arguments are the constructor's
    defaults (order 4, 20 Hz and 450 Hz at 1000 Hz). *)
Lemma construction_unchecked_step_size :
  (exists s,
     __init__ example_butter "COM3" 115200 10 20 1000 (F64.of_Z 20)
              (F64.of_Z 450) 4 = inr s /\
     step_size s = 20 /\ buffer_size s = 10 /\
     ~ (0 < step_size s <= buffer_size s)) /\
  (exists s,
     __init__ example_butter "COM3" 115200 0 0 1000 (F64.of_Z 20)
              (F64.of_Z 450) 4 = inr s /\
     step_size s = 0 /\ buffer_size s = 0).
Proof.
  split; eexists; (split; [vm_compute; reflexivity|]); cbn;
    repeat apply conj; try reflexivity.
  intros [_ H]. apply H. reflexivity.
Qed.

(** C5 on the two configurations above, on a negative [buffer_size] and on
    one that does not fit 64 bits. *)
Lemma construction_accepts_witness :
  let make := fun size step =>
    __init__ example_butter "COM3" 115200 size step 1000 (F64.of_Z 20)
             (F64.of_Z 450) 4 in
  (exists s, make 10 20 = inr s) /\
  - 2 ^ 63 <= -1 < 0 /\ make (-1) 20 = inl maxlen_negative /\
  (2 ^ 63 < - 2 ^ 63 \/ 2 ^ 63 <= 2 ^ 63) /\
  make (2 ^ 63) 20 = inl maxlen_overflow /\
  make 4 2 = inr example_processor /\
  step_size example_processor = 2 /\ running example_processor = false.
Proof.
  cbv zeta.
  pose proof (construction_accepts example_butter "COM3" 115200 10 20 1000
                (F64.of_Z 20) (F64.of_Z 450) 4) as H1.
  pose proof (construction_accepts example_butter "COM3" 115200 (-1) 20 1000
                (F64.of_Z 20) (F64.of_Z 450) 4) as H2.
  pose proof (construction_accepts example_butter "COM3" 115200 4 2 1000
                (F64.of_Z 20) (F64.of_Z 450) 4) as H3.
  pose proof (construction_accepts example_butter "COM3" 115200 (2 ^ 63) 20
                1000 (F64.of_Z 20) (F64.of_Z 450) 4) as H4.
  cbv zeta in H1, H2, H3, H4.
  destruct H1 as ([_ H1] & _).
  destruct H2 as (_ & _ & H2 & _).
  destruct H3 as (_ & _ & _ & H3).
  destruct H4 as (_ & H4 & _).
  assert (E : __init__ example_butter "COM3" 115200 4 2 1000 (F64.of_Z 20)
                (F64.of_Z 450) 4 = inr example_processor)
    by (vm_compute; reflexivity).
  assert (Hneg : - 2 ^ 63 <= -1 < 0) by (split; [discriminate | reflexivity]).
  assert (Hbig : 2 ^ 63 < - 2 ^ 63 \/ 2 ^ 63 <= 2 ^ 63)
    by (right; discriminate).
  destruct (H3 example_processor E) as (_ & Hs & _ & _ & Hr & _).
  split.
  { apply H1. split; [split; [discriminate | reflexivity]|].
    repeat apply conj; try (vm_compute; reflexivity). discriminate. }
  split; [exact Hneg|]. split; [exact (H2 Hneg)|].
  split; [exact Hbig|]. split; [exact (H4 Hbig)|].
  split; [exact E|]. split; assumption.
Defined.

(** C7, the claim as stated: the window [0.1, 0.1, 0.1] is constant and the
    extractor returns STD = 2^-56 (about 1.39e-17) for it.  The sum of the
    three samples rounds to 0.30000000000000004 and the mean to
    0.10000000000000002.  A mean that misses the constant does not decide
    the STD: for three samples of [0x1.999999999999ap-1004] the mean is off
    in the same way and the squared deviations round to zero, STD = +0.0;
    for three samples of the largest finite number the sum is infinite and
    so is the STD. *)
Lemma constant_window_std_nonzero :
  valid_binary F64.prec F64.emax tenth = true /\
  Numpy.mean (repeat tenth 3) = S754_finite false 7205759403792795 (-56) /\
  std (RealTime._extract_features (repeat tenth 3)) =
    S754_finite false 4503599627370496 (-108) /\
  std (RealTime._extract_features (repeat tenth 3)) <> F64.of_Z 0 /\
  valid_binary F64.prec F64.emax tenth_scaled = true /\
  Numpy.mean (repeat tenth_scaled 3) =
    S754_finite false 7205759403792795 (-1056) /\
  std (RealTime._extract_features (repeat tenth_scaled 3)) = F64.pzero /\
  F64.is_finite example_huge = true /\
  Numpy.mean (repeat example_huge 3) = F64.pinf /\
  std (RealTime._extract_features (repeat example_huge 3)) = F64.pinf.
Proof.
  repeat apply conj; try (vm_compute; reflexivity).
  vm_compute. discriminate.
Qed.

Lemma constant_window_250 :
  Numpy.mean (repeat (F64.of_Z 512) 250) = F64.of_Z 512 /\
  std (RealTime._extract_features (repeat (F64.of_Z 512) 250)) = F64.pzero.
Proof. split; vm_compute; reflexivity. Qed.

(** C7 on the constant window [5, 5, 5, 5] and the alternating window
    [1, -1, 1, -1]. *)
Lemma constant_and_alternating_windows_witness :
  let c := F64.of_Z 5 in
  (3 <= 4)%nat /\
  F64.is_finite c = true /\
  Numpy.mean (repeat c 4) = c /\
  ssc (RealTime._extract_features (repeat c 4)) = F64.of_Z 0 /\
  std (RealTime._extract_features (repeat c 4)) = F64.of_Z 0 /\
  zc (RealTime._extract_features (alternating 4 F64.one)) = F64.of_Z 3.
Proof.
  cbv zeta.
  assert (Hn : (3 <= 4)%nat) by (repeat constructor).
  assert (Hc : F64.is_finite (F64.of_Z 5) = true) by (vm_compute; reflexivity).
  assert (Hm : Numpy.mean (repeat (F64.of_Z 5) 4) = F64.of_Z 5)
    by (vm_compute; reflexivity).
  destruct FeatureFacts.constant_and_alternating_windows as (H1 & H2 & H3).
  split; [exact Hn|]. split; [exact Hc|]. split; [exact Hm|].
  split; [exact (H1 (F64.of_Z 5) 4%nat Hn)|].
  split; [exact (H2 (F64.of_Z 5) 4%nat Hn Hc Hm)|].
  exact (H3 4%nat Hn).
Defined.

(** C8 on an empty result queue and on a queue of two results. *)
Lemma get_latest_result_nonblocking_witness :
  Queue.items (result_queue example_processor) = [] /\
  get_latest_result example_processor = (example_processor, None) /\
  Queue.items (result_queue example_with_results) =
    example_result 1 :: [example_result 2] /\
  snd (get_latest_result example_with_results) = Some (example_result 1) /\
  Queue.items (result_queue (fst (get_latest_result example_with_results))) =
    [example_result 2].
Proof.
  destruct (get_latest_result_nonblocking example_processor)
    as (_ & Hempty & _).
  destruct (get_latest_result_nonblocking example_with_results)
    as (_ & _ & Hsome).
  destruct (Hsome (example_result 1) [example_result 2] eq_refl)
    as (Hr & Hq & _).
  split; [reflexivity|]. split; [exact (Hempty eq_refl)|].
  split; [reflexivity|]. split; assumption.
Defined.

(** C9 on the example processor, in a process that has started no thread. *)
Lemma stop_fresh_and_start_twice_witness :
  __init__ example_butter "COM3" 115200 4 2 1000 (F64.of_Z 20) (F64.of_Z 450)
           4 = inr example_processor /\
  stop example_processor = (example_processor, []) /\
  exists s1 t1 t2,
    start example_processor [] = (s1, [] ++ [t1; t2], started) /\
    start s1 ([] ++ [t1; t2]) = (s1, [] ++ [t1; t2], already_running) /\
    running s1 = true /\
    collection_thread s1 = Some t1 /\
    processing_thread s1 = Some t2 /\
    thread_target t1 = data_collection_loop /\
    thread_target t2 = processing_loop /\
    ident t1 <> ident t2.
Proof.
  assert (E : __init__ example_butter "COM3" 115200 4 2 1000 (F64.of_Z 20)
                (F64.of_Z 450) 4 = inr example_processor)
    by (vm_compute; reflexivity).
  split; [exact E|].
  exact (stop_fresh_and_start_twice example_butter "COM3" 115200 4 2 1000
           (F64.of_Z 20) (F64.of_Z 450) 4 example_processor [] E).
Defined.

(** C10 on that window. *)
Lemma nonfinite_window_rejected_witness :
  In F64.nan (buffer example_nan_window) /\
  (F64.isnan F64.nan = true \/ F64.isinf F64.nan = true) /\
  Z.of_nat (length (buffer example_nan_window)) =
    buffer_size example_nan_window /\
  _process_window example_lfilter_zi example_unwritten example_nan_window =
    (example_nan_window, None) /\
  filter_state (fst (_process_window example_lfilter_zi example_unwritten
      example_nan_window)) =
    None.
Proof.
  assert (Hin : In F64.nan (buffer example_nan_window))
    by (right; left; reflexivity).
  assert (Hx : F64.isnan F64.nan = true \/ F64.isinf F64.nan = true)
    by (left; reflexivity).
  destruct (nonfinite_window_rejected example_lfilter_zi example_unwritten
      example_nan_window
              F64.nan Hin Hx) as (H1 & _ & H3 & _).
  split; [exact Hin|]. split; [exact Hx|]. split; [reflexivity|].
  split; [exact H1|]. rewrite H3. reflexivity.
Defined.

End Examples.

(** * Further properties of the pipeline *)

Section PipelineFacts.

Import DequeFacts.

Variable lfilter_zi : list f64 -> list f64 -> option (list f64).
Variable unwritten : processor -> nat -> f64.

Local Abbreviation process_window := (_process_window lfilter_zi unwritten).
Local Abbreviation process_one := (processing_iteration lfilter_zi unwritten).
Local Abbreviation step_one := (step lfilter_zi unwritten).
Local Abbreviation run_schedule := (run lfilter_zi unwritten).

Local Ltac split_cases :=
  repeat match goal with
    | |- context [match ?x with _ => _ end] => destruct x eqn:?
    end.

(** The processing loop on a sample it found, as one equation. *)
Lemma process_one_taken (s : processor) (value : f64) (q : Queue.t f64) :
  Queue.get_nowait (data_queue s) = Some (value, q) ->
  process_one s =
  let s2 := set_buffer (set_data_queue s q)
              (Deque.append (buffer_size s) (buffer s) value) in
  if Z.of_nat (length (buffer s2)) =? buffer_size s then
    (match snd (process_window s2) with
     | Some r =>
         match Queue.put_nowait (result_queue (fst (process_window s2))) r with
         | Some q' => set_result_queue (fst (process_window s2)) q'
         | None => fst (process_window s2)
         end
     | None => fst (process_window s2)
     end,
     triggered (buffer s2) (snd (process_window s2)))
  else (s2, appended).
Proof.
  intros Hget. unfold processing_iteration. rewrite Hget.
  cbn [buffer buffer_size set_buffer set_data_queue].
  destruct (_ =? _); [|reflexivity].
  destruct (process_window _) as [s3 [r|]]; cbn [fst snd];
    [destruct (Queue.put_nowait _ _)|]; reflexivity.
Qed.

Lemma get_nowait_items {A : Type} (q q' : Queue.t A) (v : A) :
  Queue.get_nowait q = Some (v, q') ->
  Queue.items q = v :: Queue.items q' /\ Queue.maxsize q' = Queue.maxsize q.
Proof.
  unfold Queue.get_nowait. destruct (Queue.items q) as [|x rest] eqn:E;
    [discriminate|].
  intros [= <- <-]. split; reflexivity.
Qed.

Lemma put_nowait_items {A : Type} (q q' : Queue.t A) (v : A) :
  Queue.put_nowait q v = Some q' ->
  Queue.items q' = Queue.items q ++ [v] /\
  Queue.maxsize q' = Queue.maxsize q /\ Queue.full q = false.
Proof.
  unfold Queue.put_nowait. destruct (Queue.full q); [discriminate|].
  intros [= <-]. repeat split.
Qed.

Lemma append_suffix {A : Type} (maxlen : Z) (d : list A) (v : A) :
  exists gone, d ++ [v] = gone ++ Deque.append maxlen d v.
Proof.
  unfold Deque.append. destruct (maxlen <? _).
  - destruct (d ++ [v]) as [|x t]; [exists []|exists [x]]; reflexivity.
  - exists []. reflexivity.
Qed.

(** The window after [_process_window] is a suffix of the window before. *)
Lemma process_window_suffix (s : processor) :
  exists gone, buffer s = gone ++ buffer (fst (process_window s)).
Proof.
  destruct (process_window s) as [s' [r|]] eqn:E; cbn [fst].
  - destruct (process_window_accepts lfilter_zi unwritten s s' r E) as (-> & _).
    rewrite evict_skipn.
    exists (firstn (Z.to_nat (step_size s)) (buffer s)).
    symmetry. apply firstn_skipn.
  - destruct (process_window_rejects lfilter_zi unwritten s s' E) as (-> & _).
    exists []. reflexivity.
Qed.

Lemma enqueued_values_cons (e : event) (o : observation)
    (es : list event) (obs : list observation) :
  enqueued_values (e :: es) (o :: obs) =
  enqueued_values [e] [o] ++ enqueued_values es obs.
Proof.
  destruct e as [[|[v|]]|], o as [[]|]; reflexivity.
Qed.

Lemma step_order (s : processor) (e : event) :
  exists gone,
    buffer s ++ Queue.items (data_queue s)
      ++ enqueued_values [e] [snd (step_one s e)] =
    gone ++ buffer (fst (step_one s e))
      ++ Queue.items (data_queue (fst (step_one s e))).
Proof.
  destruct e as [[|[v|]]|]; unfold step.
  - exists []. cbn. rewrite app_nil_r. reflexivity.
  - unfold collection_iteration.
    cbn [data_queue set_samples_collected].
    destruct (Queue.put_nowait _ _) as [q'|] eqn:Hput; cbn.
    + destruct (put_nowait_items _ _ _ Hput) as (-> & _). exists [].
      reflexivity.
    + exists []. rewrite app_nil_r. reflexivity.
  - exists []. cbn. rewrite app_nil_r. reflexivity.
  - destruct (Queue.get_nowait (data_queue s)) as [[value q]|] eqn:Hget.
    2:{ unfold processing_iteration. rewrite Hget. exists []. cbn.
        rewrite app_nil_r. reflexivity. }
    destruct (get_nowait_items _ _ _ Hget) as [Hitems _].
    rewrite (process_one_taken s value q Hget). cbv zeta.
    cbn [buffer set_buffer set_data_queue].
    destruct (append_suffix (buffer_size s) (buffer s) value) as [g1 Hg1].
    set (s2 := set_buffer (set_data_queue s q)
                 (Deque.append (buffer_size s) (buffer s) value)).
    assert (Hb2 : buffer s2 =
                  Deque.append (buffer_size s) (buffer s) value)
      by reflexivity.
    assert (Hq2 : data_queue s2 = q) by reflexivity.
    rewrite <- Hb2 in Hg1. clearbody s2.
    assert (Hpre : buffer s ++ Queue.items (data_queue s) ++ [] =
                   g1 ++ buffer s2 ++ Queue.items q).
    { rewrite Hitems, app_nil_r.
      change (value :: Queue.items q) with ([value] ++ Queue.items q).
      rewrite app_assoc, Hg1, <- app_assoc. reflexivity. }
    destruct (_ =? _).
    + destruct (process_window_suffix s2) as [g2 Hg2].
      pose proof (process_window_frame lfilter_zi unwritten s2) as Hf.
      cbv zeta in Hf. destruct Hf as (_ & _ & Hdq & _).
      assert (Hfin : forall s3 : processor,
                 buffer s3 = buffer (fst (process_window s2)) ->
                 data_queue s3 = data_queue (fst (process_window s2)) ->
                 buffer s ++ Queue.items (data_queue s) ++ [] =
                 (g1 ++ g2) ++ buffer s3 ++ Queue.items (data_queue s3)).
      { intros s3 -> ->. rewrite Hdq, Hq2, Hpre, Hg2 at 1.
        rewrite <- !app_assoc. reflexivity. }
      exists (g1 ++ g2). cbn [fst snd enqueued_values].
      destruct (snd (process_window s2)) as [r|];
        [destruct (Queue.put_nowait _ _)|]; apply Hfin; reflexivity.
    + exists g1. cbn [fst snd enqueued_values].
      rewrite Hq2. exact Hpre.
Qed.

(** X1.  Whatever the interleaving of the two loops, the rolling window
    followed by the waiting samples is a suffix of what was there at the
    start followed by the samples enqueued since: samples reach the window
    in the order of their arrival, none twice, and none is missing between
    two samples of the window or of the queue. *)
Theorem samples_keep_their_order (s : processor) (es : list event) :
  exists gone,
    buffer s ++ Queue.items (data_queue s)
      ++ enqueued_values es (snd (run lfilter_zi unwritten s es)) =
    gone ++ buffer (fst (run lfilter_zi unwritten s es))
      ++ Queue.items (data_queue (fst (run lfilter_zi unwritten s es))).
Proof.
  revert s. induction es as [|e es IH]; intros s.
  - exists []. cbn. rewrite app_nil_r. reflexivity.
  - cbn [run].
    destruct (step_order s e) as [g1 H1].
    destruct (step_one s e) as [s1 o]. cbn [fst snd] in H1.
    destruct (IH s1) as [g2 H2].
    destruct (run_schedule s1 es) as [s2 obs]. cbn [fst snd] in *.
    exists (g1 ++ g2).
    rewrite enqueued_values_cons.
    transitivity ((buffer s ++ Queue.items (data_queue s)
                     ++ enqueued_values [e] [o])
                    ++ enqueued_values es obs).
    { rewrite <- !app_assoc. reflexivity. }
    rewrite H1, <- !app_assoc, H2. reflexivity.
Qed.

(** What one iteration of the processing loop that finds a sample does to
    the queues and to the counters. *)
Lemma process_one_effect (s : processor) (value : f64) (q : Queue.t f64) :
  Queue.get_nowait (data_queue s) = Some (value, q) ->
  let s1 := fst (process_one s) in
  let o := snd (process_one s) in
  data_queue s1 = q /\
  samples_collected s1 = samples_collected s /\
  samples_dropped s1 = samples_dropped s /\
  consumed_count [processed o] = 1 /\
  samples_processed s1 =
    samples_processed s + Z.of_nat (length (results_of [processed o])) /\
  Queue.maxsize (result_queue s1) = Queue.maxsize (result_queue s) /\
  Queue.items (result_queue s1) =
    (if Queue.full (result_queue s) then Queue.items (result_queue s)
     else Queue.items (result_queue s) ++ results_of [processed o]).
Proof.
  intros Hget. cbv zeta. rewrite (process_one_taken s value q Hget). cbv zeta.
  set (s2 := set_buffer (set_data_queue s q)
               (Deque.append (buffer_size s) (buffer s) value)).
  assert (Hs2 : data_queue s2 = q /\
                samples_collected s2 = samples_collected s /\
                samples_dropped s2 = samples_dropped s /\
                samples_processed s2 = samples_processed s /\
                result_queue s2 = result_queue s)
    by (repeat split).
  destruct Hs2 as (Hq & Hc & Hd & Hp & Hr). clearbody s2.
  destruct (_ =? _); cbn [fst snd].
  2:{ rewrite Hq, Hc, Hd, Hp, Hr. cbn.
      rewrite app_nil_r. destruct (Queue.full _); repeat split; lia. }
  pose proof (process_window_frame lfilter_zi unwritten s2) as Hf. cbv zeta in
      Hf.
  destruct (process_window s2) as [s3 [res|]] eqn:E; cbn [fst snd] in *.
  - destruct (process_window_accepts lfilter_zi unwritten s2 s3 res E) as (_ &
      Hp3 & _).
    destruct Hf as (_ & _ & Hq3 & Hr3 & Hc3 & Hd3).
    unfold Queue.put_nowait. rewrite Hr3, Hr.
    destruct (Queue.full (result_queue s)); cbn;
      rewrite ?Hq3, ?Hc3, ?Hd3, ?Hp3, ?Hr3, ?Hq, ?Hc, ?Hd, ?Hp, ?Hr;
      repeat split; lia.
  - destruct (process_window_rejects lfilter_zi unwritten s2 s3 E) as (_ & Hp3).
    destruct Hf as (_ & _ & Hq3 & Hr3 & Hc3 & Hd3).
    cbn. rewrite Hq3, Hc3, Hd3, Hp3, Hr3, Hq, Hc, Hd, Hp, Hr, app_nil_r.
    destruct (Queue.full _); repeat split; lia.
Qed.

Lemma step_balance (s : processor) (e : event) :
  samples_collected (fst (step_one s e))
    - samples_dropped (fst (step_one s e))
    - Queue.qsize (data_queue (fst (step_one s e)))
    - consumed_count [snd (step_one s e)] =
  samples_collected s - samples_dropped s - Queue.qsize (data_queue s).
Proof.
  destruct e as [[|[v|]]|]; unfold step.
  - cbn. lia.
  - unfold collection_iteration. cbn [data_queue set_samples_collected].
    destruct (Queue.put_nowait _ _) as [q'|] eqn:Hput; cbn [fst snd].
    + destruct (put_nowait_items _ _ _ Hput) as (Hi & _).
      unfold Queue.qsize. cbn. rewrite Hi, length_app. cbn [length]. lia.
    + cbn. lia.
  - cbn. lia.
  - destruct (Queue.get_nowait (data_queue s)) as [[value q]|] eqn:Hget.
    + pose proof (process_one_effect s value q Hget) as H. cbv zeta in H.
      destruct H as (Hq & Hc & Hd & Hn & _).
      destruct (get_nowait_items _ _ _ Hget) as [Hi _].
      destruct (process_one s) as [s1 o]. cbn [fst snd] in *.
      rewrite Hq, Hc, Hd, Hn. unfold Queue.qsize. rewrite Hi.
      cbn [length]. lia.
    + unfold processing_iteration. rewrite Hget. cbn. lia.
Qed.

Lemma consumed_count_cons (o : observation) (obs : list observation) :
  consumed_count (o :: obs) = consumed_count [o] + consumed_count obs.
Proof. destruct o as [c|[| |w r]]; cbn; lia. Qed.

(** X2.  Every sample that parsed is accounted for: over any interleaving
    of the two loops, the number of samples collected and not dropped is
    the number taken by the processing loop plus the growth of the sample
    queue.  From a fresh processor: collected = dropped + waiting + taken. *)
Theorem samples_are_conserved (s : processor) (es : list event) :
  samples_collected (fst (run lfilter_zi unwritten s es))
    - samples_dropped (fst (run lfilter_zi unwritten s es)) =
  samples_collected s - samples_dropped s
    + (Queue.qsize (data_queue (fst (run lfilter_zi unwritten s es)))
       - Queue.qsize (data_queue s))
    + consumed_count (snd (run lfilter_zi unwritten s es)).
Proof.
  revert s. induction es as [|e es IH]; intros s; [cbn; lia|].
  cbn [run].
  pose proof (step_balance s e) as H1.
  destruct (step_one s e) as [s1 o]. cbn [fst snd] in H1.
  specialize (IH s1).
  destruct (run_schedule s1 es) as [s2 obs]. cbn [fst snd] in *.
  rewrite consumed_count_cons. lia.
Qed.

(** *** Results *)

Lemma firstn_firstn_app {A : Type} (m : nat) (l l' : list A) :
  firstn m (firstn m l ++ l') = firstn m (l ++ l').
Proof.
  destruct (Nat.le_gt_cases (length l) m) as [H|H].
  - rewrite (firstn_all2 l H). reflexivity.
  - rewrite !firstn_app, firstn_firstn, Nat.min_id, length_firstn.
    replace (m - Nat.min m (length l))%nat with 0%nat by lia.
    replace (m - length l)%nat with 0%nat by lia.
    reflexivity.
Qed.

Lemma results_of_cons (o : observation) (obs : list observation) :
  results_of (o :: obs) = results_of [o] ++ results_of obs.
Proof. destruct o as [c|[| |w [r|]]]; reflexivity. Qed.

Lemma results_of_one (o : observation) : (length (results_of [o]) <= 1)%nat.
Proof. destruct o as [c|[| |w [r|]]]; cbn; lia. Qed.

(** One iteration of either loop: the result queue takes the new result if
    it has room, and [samples_processed] counts it in any case. *)
Lemma step_results (s : processor) (e : event) :
  0 < Queue.maxsize (result_queue s) ->
  Queue.qsize (result_queue s) <= Queue.maxsize (result_queue s) ->
  let s1 := fst (step_one s e) in
  let o := snd (step_one s e) in
  Queue.maxsize (result_queue s1) = Queue.maxsize (result_queue s) /\
  Queue.items (result_queue s1) =
    firstn (Z.to_nat (Queue.maxsize (result_queue s)))
           (Queue.items (result_queue s) ++ results_of [o]) /\
  samples_processed s1 =
    samples_processed s + Z.of_nat (length (results_of [o])).
Proof.
  intros Hm Hsize. cbv zeta. unfold Queue.qsize in Hsize.
  assert (Hsame : firstn (Z.to_nat (Queue.maxsize (result_queue s)))
                    (Queue.items (result_queue s) ++ []) =
                  Queue.items (result_queue s)).
  { rewrite app_nil_r. apply firstn_all2. lia. }
  destruct e as [u|]; unfold step.
  - destruct (collection_iteration_frame s u) as (_ & _ & _ & Hp).
    assert (Hr : result_queue (fst (collection_iteration s u)) =
                 result_queue s).
    { unfold collection_iteration. split_cases; reflexivity. }
    destruct (collection_iteration s u) as [s1 o]. cbn [fst snd] in *.
    rewrite Hr, Hp. cbn [results_of length]. rewrite Hsame.
    repeat split. lia.
  - destruct (Queue.get_nowait (data_queue s)) as [[value q]|] eqn:Hget.
    2:{ unfold processing_iteration. rewrite Hget. cbn [fst snd results_of].
        rewrite Hsame. cbn. repeat split. lia. }
    pose proof (process_one_effect s value q Hget) as H. cbv zeta in H.
    destruct H as (_ & _ & _ & _ & Hp & Hmax & Hitems).
    destruct (process_one s) as [s1 o]. cbn [fst snd] in *.
    split; [exact Hmax|]. split; [|exact Hp].
    rewrite Hitems. unfold Queue.full, Queue.qsize.
    pose proof (results_of_one (processed o)) as Hone.
    destruct (0 <? _) eqn:E0; [|apply Z.ltb_ge in E0; lia].
    destruct (_ <=? _) eqn:E1; cbn [andb].
    + apply Z.leb_le in E1.
      rewrite firstn_app.
      replace (Z.to_nat (Queue.maxsize (result_queue s))
               - length (Queue.items (result_queue s)))%nat with 0%nat by lia.
      rewrite firstn_all2 by lia. cbn. rewrite app_nil_r. reflexivity.
    + apply Z.leb_gt in E1. symmetry. apply firstn_all2.
      rewrite length_app. lia.
Qed.

(** X3.  [samples_processed] grows by the number of windows that gave a
    result, whether or not the result could be queued; the result queue
    then holds what it held followed by the new results in order, cut at
    its capacity: once it is full the newest results are the ones lost. *)
Theorem results_are_counted_oldest_kept (s : processor) (es : list event) :
  0 < Queue.maxsize (result_queue s) ->
  Queue.qsize (result_queue s) <= Queue.maxsize (result_queue s) ->
  let s' := fst (run lfilter_zi unwritten s es) in
  let obs := snd (run lfilter_zi unwritten s es) in
  samples_processed s' =
    samples_processed s + Z.of_nat (length (results_of obs)) /\
  Queue.items (result_queue s') =
    firstn (Z.to_nat (Queue.maxsize (result_queue s)))
           (Queue.items (result_queue s) ++ results_of obs) /\
  Queue.maxsize (result_queue s') = Queue.maxsize (result_queue s).
Proof.
  cbv zeta. revert s. induction es as [|e es IH]; intros s Hm Hsize.
  - cbn. rewrite app_nil_r, firstn_all2
      by (unfold Queue.qsize in Hsize; lia).
    repeat split. lia.
  - cbn [run].
    pose proof (step_results s e Hm Hsize) as H1. cbv zeta in H1.
    destruct (step_one s e) as [s1 o]. cbn [fst snd] in H1.
    destruct H1 as (Hmax1 & Hitems1 & Hp1).
    assert (Hsize1 : Queue.qsize (result_queue s1)
                     <= Queue.maxsize (result_queue s1)).
    { unfold Queue.qsize. rewrite Hitems1, Hmax1, length_firstn. lia. }
    destruct (IH s1 ltac:(lia) Hsize1) as (IHp & IHitems & IHmax).
    destruct (run_schedule s1 es) as [s2 obs]. cbn [fst snd] in *.
    rewrite results_of_cons, length_app.
    split; [lia|]. split; [|congruence].
    rewrite IHitems, Hmax1, Hitems1, firstn_firstn_app, <- app_assoc.
    reflexivity.
Qed.

(** *** Statistics *)




Variable butter : Z -> f64 -> f64 -> option (list f64 * list f64).


End PipelineFacts.

(** ** The filter inside the processing stage *)

Section LFilterParts.

Variable F : Type.
Variable zero : F.
Variables add sub mul div : F -> F -> F.

(** A call that succeeds returns as many samples as it was given and a
    state as long as the one it was given. *)
Lemma lfilter_lengths (fresh : nat -> F) (b_ a_ x zi y zf : list F) :
  lfilter zero add sub mul div fresh b_ a_ x zi = Some (y, zf) ->
  length y = length x /\ length zf = length zi /\
  length zi = (Nat.max (length a_) (length b_) - 1)%nat /\ a_ <> [].
Proof.
  intros E.
  assert (Ha : a_ <> []) by (intros ->; discriminate E).
  assert (Hz : length zi = (Nat.max (length a_) (length b_) - 1)%nat).
  { unfold lfilter in E. destruct a_ as [|a0 at_]; [discriminate|].
    destruct (Nat.eqb _ _) eqn:En; [|discriminate].
    apply Nat.eqb_eq in En. exact En. }
  destruct (lfilter_defined F zero add sub mul div fresh b_ a_ x zi Ha Hz)
    as (y' & zf' & E' & H1 & H2).
  rewrite E in E'. injection E' as <- <-. repeat split; assumption.
Qed.

End LFilterParts.

Section FilterStageFacts.

Import DequeFacts.

Variable lfilter_zi : list f64 -> list f64 -> option (list f64).
Variable unwritten : processor -> nat -> f64.

Local Abbreviation process_window := (_process_window lfilter_zi unwritten).
Local Abbreviation process_one := (processing_iteration lfilter_zi unwritten).
Local Abbreviation step_one := (step lfilter_zi unwritten).
Local Abbreviation run_schedule := (run lfilter_zi unwritten).

(** The initial delays a window is filtered from: the stored state, or the
    steady state computed on the first window. *)
Lemma process_window_result (s s1 : processor) (r : result) :
  process_window s = (s1, Some r) ->
  well_formed_result (buffer_size s) (model s) r /\
  raw_signal r = buffer s /\
  exists zi zf,
    (filter_state s = Some zi \/
     filter_state s = None /\ lfilter_zi (b s) (a s) = Some zi) /\
    lfilter64 (unwritten s) (b s) (a s) (buffer s) zi =
      Some (filtered_signal r, zf) /\
    filter_state s1 = Some zf.
Proof.
  unfold _process_window.
  destruct (negb (Z.of_nat (length (buffer s)) =? buffer_size s)) eqn:El;
    [discriminate|].
  apply negb_false_iff, Z.eqb_eq in El.
  destruct (has_nan_or_inf (buffer s)) eqn:En; [discriminate|].
  destruct (match filter_state s with
            | Some zi => Some zi
            | None => lfilter_zi (b s) (a s)
            end) as [zi|] eqn:Ez; [|discriminate].
  cbn [b a set_filter_state].
  destruct (lfilter64 (unwritten s) (b s) (a s) (buffer s) zi)
    as [[filtered zf]|] eqn:Ef; [|discriminate].
  destruct (has_nan_or_inf filtered) eqn:Eo; [discriminate|].
  intros [= <- <-].
  cbn [raw_signal filtered_signal result_features prediction model
       filter_state set_filter_state set_buffer set_samples_processed].
  destruct (lfilter_lengths _ _ _ _ _ _ _ _ _ _ _ _ _ Ef) as (Hy & _).
  split; [|split; [reflexivity|]].
  - unfold well_formed_result.
    cbn [raw_signal filtered_signal result_features prediction].
    repeat split; assumption.
  - exists zi, zf. repeat split; try assumption.
    destruct (filter_state s) as [z|]; [left|right]; [|split]; congruence.
Qed.

(** [_process_window] never changes the coefficients, the model or the
    sizes. *)
Lemma process_window_keeps (s : processor) :
  b (fst (process_window s)) = b s /\
  a (fst (process_window s)) = a s /\
  model (fst (process_window s)) = model s /\
  buffer_size (fst (process_window s)) = buffer_size s /\
  step_size (fst (process_window s)) = step_size s.
Proof.
  unfold _process_window.
  repeat match goal with
    | |- context [match ?x with _ => _ end] => destruct x eqn:?
    end; cbn; repeat split.
Qed.

Lemma same_filter_refl (s : processor) : same_filter s s.
Proof. unfold same_filter. repeat split. Qed.

Lemma same_filter_trans (s1 s2 s3 : processor) :
  same_filter s1 s2 -> same_filter s2 s3 -> same_filter s1 s3.
Proof.
  unfold same_filter.
  intros (? & ? & ? & ? & ? & ?) (? & ? & ? & ? & ? & ?).
  repeat split; congruence.
Qed.

(** One iteration of either loop either leaves the filter alone and hands
    no window to [_process_window], or hands it one full window, from a
    state with the same filter. *)
Lemma step_cases (s : processor) (e : event) :
  (same_filter s (fst (step_one s e)) /\
   triggered_windows [snd (step_one s e)] = [] /\
   results_of [snd (step_one s e)] = [] /\
   accepted_observation (snd (step_one s e))) \/
  (exists s2,
     same_filter s s2 /\
     Z.of_nat (length (buffer s2)) = buffer_size s2 /\
     snd (step_one s e) =
       processed (triggered (buffer s2) (snd (process_window s2))) /\
     same_filter (fst (process_window s2)) (fst (step_one s e))).
Proof.
  destruct e as [u|]; unfold step.
  - left.
    assert (H : same_filter s (fst (collection_iteration s u))).
    { unfold collection_iteration, same_filter.
      repeat match goal with
        | |- context [match ?x with _ => _ end] => destruct x
        end; cbn; repeat split. }
    destruct (collection_iteration s u) as [s1 o]. cbn [fst snd] in *.
    repeat split; try exact H; apply H.
  - destruct (Queue.get_nowait (data_queue s)) as [[value q]|] eqn:Hget.
    2:{ left. unfold processing_iteration. rewrite Hget. cbn [fst snd].
        split; [apply same_filter_refl|]. repeat split. }
    rewrite (process_one_taken lfilter_zi unwritten s value q Hget). cbv zeta.
    set (s2 := set_buffer (set_data_queue s q)
                 (Deque.append (buffer_size s) (buffer s) value)).
    assert (H2 : same_filter s s2) by (unfold same_filter; repeat split).
    assert (Hbs : buffer_size s2 = buffer_size s) by reflexivity.
    clearbody s2. rewrite <- Hbs.
    destruct (Z.of_nat (length (buffer s2)) =? buffer_size s2) eqn:El.
    + right. exists s2. apply Z.eqb_eq in El.
      split; [exact H2|]. split; [exact El|]. split; [reflexivity|].
      cbn [fst]. destruct (snd (process_window s2)) as [r|];
        [destruct (Queue.put_nowait _ _)|];
        unfold same_filter; cbn; repeat split.
    + left. cbn [fst snd]. split; [exact H2|]. repeat split.
Qed.

(** X5.  Every result a run produces is well formed: its raw window holds
    exactly [buffer_size] samples, none of them NaN or infinite; its filtered
    signal has the same number of samples, all finite; its features are
    those of the filtered signal; and its prediction is what the attached
    model returns for them, or missing when no model is attached. *)
Theorem results_are_well_formed (s : processor) (es : list event) :
  Forall (well_formed_result (buffer_size s) (model s))
         (results_of (snd (run lfilter_zi unwritten s es))).
Proof.
  revert s. induction es as [|e es IH]; intros s; [constructor|].
  cbn [run].
  pose proof (step_cases s e) as Hstep.
  destruct (step_one s e) as [s1 o]. cbn [fst snd] in Hstep.
  specialize (IH s1).
  destruct (run_schedule s1 es) as [s2 obs]. cbn [fst snd] in *.
  rewrite results_of_cons. apply Forall_app.
  destruct Hstep as [(Hsame & _ & Hnone & _) | (s' & Hsame & _ & -> & Hsame')].
  - rewrite Hnone. split; [constructor|].
    destruct Hsame as (_ & _ & _ & Hm & Hb & _). rewrite <- Hm, <- Hb.
    exact IH.
  - destruct (process_window_keeps s') as (_ & _ & Hm3 & Hb3 & _).
    destruct Hsame as (_ & _ & _ & Hm & Hb & _).
    destruct Hsame' as (_ & _ & _ & Hm' & Hb' & _).
    split.
    + cbn [results_of].
      destruct (process_window s') as [s3 [r|]] eqn:E; cbn [snd];
        constructor; [|constructor].
      destruct (process_window_result s' s3 r E) as (Hwf & _).
      rewrite <- Hm, <- Hb. exact Hwf.
    + replace (model s) with (model s1) by congruence.
      replace (buffer_size s) with (buffer_size s1) by congruence.
      exact IH.
Qed.

(** X6.  The filter state is threaded through the windows in order.  On
    a processor with a window capacity above zero and an initialised filter
    state, when no window of a run is rejected: a run without results
    leaves the state as it was; otherwise the filtered signals of the
    results, one after the other, are what a single call of [lfilter]
    returns for the raw windows one after the other, started from the
    state the run began with, and the state the run leaves is the final
    state of that call.  Samples that two overlapping windows share go
    through the filter twice. *)
Theorem filter_state_is_threaded (s : processor) (es : list event)
    (zi : list f64) :
  filter_state s = Some zi ->
  (2 <= length (a s))%nat ->
  length zi = (Nat.max (length (a s)) (length (b s)) - 1)%nat ->
  0 < buffer_size s ->
  Forall accepted_observation (snd (run lfilter_zi unwritten s es)) ->
  let rs := results_of (snd (run lfilter_zi unwritten s es)) in
  exists zf,
    filter_state (fst (run lfilter_zi unwritten s es)) = Some zf /\
    (rs = [] -> zf = zi) /\
    (rs <> [] ->
     concat (map raw_signal rs) <> [] /\
     forall fresh : nat -> f64,
       lfilter64 fresh (b s) (a s) (concat (map raw_signal rs)) zi =
         Some (concat (map filtered_signal rs), zf)).
Proof.
  cbv zeta. revert s zi.
  induction es as [|e es IH]; intros s zi Hstate Ha Hlen Hsize Hacc.
  - exists zi. cbn [run fst snd results_of]. split; [exact Hstate|].
    split; [reflexivity | congruence].
  - cbn [run] in *.
    pose proof (step_cases s e) as Hstep.
    destruct (step_one s e) as [s1 o]. cbn [fst snd] in Hstep.
    specialize (IH s1).
    destruct (run_schedule s1 es) as [s2 obs]. cbn [fst snd] in *.
    apply Forall_cons_iff in Hacc. destruct Hacc as [Ho Hobs].
    rewrite results_of_cons.
    destruct Hstep
      as [(Hsame & _ & Hnone & _) | (s' & Hsame & Hfull & Heq & Hsame')].
    + rewrite Hnone. cbn [app].
      destruct Hsame as (Hb & Haa & Hf & _ & Hbs & _).
      rewrite <- Hb, <- Haa.
      apply IH; [congruence | congruence | congruence | lia | exact Hobs].
    + subst o.
      destruct (process_window_keeps s') as (Hb3 & Ha3 & _ & Hbs3 & _).
      destruct Hsame as (Hb & Haa & Hf & _ & Hbs & _).
      destruct Hsame' as (Hb' & Ha' & Hf' & _ & Hbs' & _).
      destruct (process_window s') as [s3 [r|]] eqn:E; cbn [fst snd] in *;
        [|contradiction].
      destruct (process_window_result s' s3 r E)
        as (_ & Hraw & zi' & zf & Hzi & Hfilt & Hzf).
      assert (zi' = zi) as ->.
      { destruct Hzi as [Hzi|[Hzi _]]; congruence. }
      rewrite Hb, Haa, <- Hraw in Hfilt.
      assert (Hwin : raw_signal r <> []).
      { rewrite Hraw. intros Hnil. rewrite Hnil in Hfull.
        cbn [length] in Hfull. lia. }
      destruct (lfilter_lengths _ _ _ _ _ _ _ _ _ _ _ _ _ Hfilt)
        as (_ & Hlz & _).
      destruct (IH zf) as (zf' & Hfinal & Hsame_state & Hrest);
        [congruence | congruence | congruence | lia | exact Hobs |].
      exists zf'. split; [exact Hfinal|].
      cbn [results_of app map concat].
      split; [discriminate|]. intros _.
      split.
      { intros Hnil. apply app_eq_nil in Hnil. apply Hwin, Hnil. }
      intros fresh.
      destruct (results_of obs) as [|r' rs'] eqn:Ers.
      * rewrite (Hsame_state eq_refl). cbn [map concat].
        rewrite !app_nil_r.
        rewrite (lfilter_fresh f64 F64.pzero F64.add F64.sub F64.mul F64.div
                   fresh (unwritten s')) by exact Hwin.
        exact Hfilt.
      * destruct Hrest as [Hne Hrest]; [discriminate|].
        apply (lfilter_app f64 F64.pzero F64.add F64.sub F64.mul F64.div
                 (unwritten s') fresh fresh (b s) (a s) zi
                 (raw_signal r) (concat (map raw_signal (r' :: rs')))
                 (filtered_signal r) zf
                 (concat (map filtered_signal (r' :: rs'))) zf'
                 Hwin Hne Hfilt).
        replace (b s) with (b s1) by congruence.
        replace (a s) with (a s1) by congruence.
        apply Hrest.
Qed.

(** *** A NaN in the filter state *)

Lemma sub_nan_r (t : f64) : F64.sub t F64.nan = F64.nan.
Proof. destruct t; reflexivity. Qed.

Lemma update_state_nan (x : f64) (bt at_ zt : list f64) :
  length at_ = length bt ->
  update_state F64.pzero F64.add F64.sub F64.mul x F64.nan bt at_ zt =
  repeat F64.nan (length bt).
Proof.
  revert at_ zt. induction bt as [|bk bt IH]; intros at_ zt Hlen;
    [reflexivity|].
  destruct at_ as [|ak at_]; [discriminate|].
  cbn [length] in Hlen. injection Hlen as Hlen.
  cbn [update_state].
  change (F64.mul F64.nan ak) with F64.nan. rewrite !sub_nan_r.
  destruct bt as [|bk' bt']; [reflexivity|].
  rewrite (IH at_ (tl zt) Hlen). reflexivity.
Qed.

Lemma filt_nan (bn an : list f64) (xs : list f64) (zt : list f64) :
  (2 <= length bn)%nat ->
  length an = length bn ->
  xs <> [] ->
  filt F64.pzero F64.add F64.sub F64.mul bn an (F64.nan :: zt) xs =
  (repeat F64.nan (length xs), repeat F64.nan (length bn - 1)).
Proof.
  intros Hb Hab. revert zt.
  induction xs as [|x xs IH]; intros zt Hxs; [congruence|].
  destruct bn as [|b0 [|b1 bt]]; try (cbn in Hb; lia).
  destruct an as [|a0 at_]; [discriminate|].
  cbn [filt filt_step hd tl].
  change (F64.add F64.nan (F64.mul b0 x)) with F64.nan.
  rewrite update_state_nan by (cbn [length] in *; lia).
  cbn [length repeat].
  replace (S (S (length bt)) - 1)%nat with (S (length bt)) by lia.
  destruct xs as [|x' xs'].
  - reflexivity.
  - rewrite (IH (repeat F64.nan (length bt))) by discriminate.
    cbn [length repeat].
    replace (S (S (length bt)) - 1)%nat with (S (length bt)) by lia.
    reflexivity.
Qed.

Lemma lfilter64_nan (fresh : nat -> f64) (b_ a_ x zt y zf : list f64) :
  lfilter64 fresh b_ a_ x (F64.nan :: zt) = Some (y, zf) ->
  x <> [] ->
  y = repeat F64.nan (length x) /\
  zf = repeat F64.nan (length (F64.nan :: zt)).
Proof.
  unfold lfilter64, lfilter. destruct a_ as [|a0 at_]; [discriminate|].
  set (n := Nat.max (length (a0 :: at_)) (length b_)).
  destruct (Nat.eqb _ _) eqn:En; [|discriminate].
  apply Nat.eqb_eq in En. intros E Hx.
  destruct x as [|x0 x]; [congruence|].
  rewrite filt_nan in E.
  - injection E as <- <-. unfold normalize.
    rewrite length_map, pad_length by lia.
    rewrite En. split; reflexivity.
  - unfold normalize. rewrite length_map, pad_length by lia.
    cbn [length] in En. lia.
  - unfold normalize. rewrite !length_map, !pad_length by lia. reflexivity.
  - exact Hx.
Qed.

Lemma has_nan_repeat (n : nat) :
  has_nan_or_inf (repeat F64.nan (S n)) = true.
Proof. reflexivity. Qed.

(** A window of a processor whose first delay is NaN is rejected, and the
    first delay is NaN afterwards. *)
Lemma process_window_poisoned (s : processor) :
  poisoned s -> 0 < buffer_size s ->
  snd (process_window s) = None /\ poisoned (fst (process_window s)).
Proof.
  intros [zt Hz] Hsize. unfold _process_window.
  destruct (negb _) eqn:El; [split; [reflexivity | exists zt; exact Hz]|].
  apply negb_false_iff, Z.eqb_eq in El.
  destruct (has_nan_or_inf (buffer s));
    [split; [reflexivity | exists zt; exact Hz]|].
  rewrite Hz. cbn [b a set_filter_state].
  destruct (lfilter64 (unwritten s) (b s) (a s) (buffer s) (F64.nan :: zt))
    as [[filtered zf]|] eqn:Ef.
  - destruct (lfilter64_nan _ _ _ _ _ _ _ Ef) as [-> ->].
    { intros Hb. rewrite Hb in El. cbn in El. lia. }
    destruct (buffer s) as [|x w]; [cbn in El; lia|].
    cbn [length]. rewrite has_nan_repeat. cbn [fst snd].
    split; [reflexivity|].
    exists (repeat F64.nan (length zt)). reflexivity.
  - cbn [fst snd]. split; [reflexivity|]. exists zt. reflexivity.
Qed.

(** X7.  A NaN in the first delay of the filter state never leaves: from
    then on, whatever samples arrive, every window is rejected, no result
    is produced, [samples_processed] stands still, and the first delay is
    still NaN.  Neither loop ever resets the filter state. *)
Theorem nan_state_is_permanent (s : processor) (es : list event) :
  poisoned s ->
  0 < buffer_size s ->
  results_of (snd (run lfilter_zi unwritten s es)) = [] /\
  samples_processed (fst (run lfilter_zi unwritten s es)) = samples_processed s
      /\
  Queue.items (result_queue (fst (run lfilter_zi unwritten s es))) =
    Queue.items (result_queue s) /\
  poisoned (fst (run lfilter_zi unwritten s es)).
Proof.
  revert s. induction es as [|e es IH]; intros s Hp Hsize.
  - cbn. repeat split. exact Hp.
  - cbn [run].
    pose proof (step_cases s e) as Hstep.
    assert (Hframe :
      samples_processed (fst (step_one s e)) =
        samples_processed s
        + Z.of_nat (length (results_of [snd (step_one s e)])) /\
      (results_of [snd (step_one s e)] = [] ->
       Queue.items (result_queue (fst (step_one s e))) =
         Queue.items (result_queue s))).
    { destruct e as [u|]; unfold step.
      - destruct (collection_iteration_frame s u) as (_ & _ & _ & Hpr).
        assert (Hr : result_queue (fst (collection_iteration s u)) =
                     result_queue s).
        { unfold collection_iteration.
          repeat match goal with
            | |- context [match ?x with _ => _ end] => destruct x
            end; reflexivity. }
        destruct (collection_iteration s u) as [s1 o]. cbn [fst snd] in *.
        rewrite Hr, Hpr. cbn. split; [lia | reflexivity].
      - destruct (Queue.get_nowait (data_queue s)) as [[value q]|] eqn:Hget.
        + pose proof (process_one_effect lfilter_zi unwritten s value q Hget)
            as H.
          cbv zeta in H. destruct H as (_ & _ & _ & _ & Hpr & _ & Hit).
          destruct (process_one s) as [s1 o]. cbn [fst snd] in *.
          split; [exact Hpr|]. intros Hnone. rewrite Hit, Hnone, app_nil_r.
          destruct (Queue.full _); reflexivity.
        + unfold processing_iteration. rewrite Hget. cbn.
          split; [lia | reflexivity]. }
    destruct (step_one s e) as [s1 o]. cbn [fst snd] in *.
    assert (H1 : results_of [o] = [] /\ poisoned s1 /\
                 buffer_size s1 = buffer_size s).
    { destruct Hstep as [(Hsame & _ & Hnone & _) | (s' & Hsame & _ & -> &
        Hsame')].
      - split; [exact Hnone|].
        destruct Hsame as (_ & _ & Hf & _ & Hb & _).
        destruct Hp as [zt Hz]. split; [exists zt; congruence | exact Hb].
      - destruct Hsame as (_ & _ & Hf & _ & Hb & _).
        assert (Hp' : poisoned s').
        { destruct Hp as [zt Hz]. exists zt. congruence. }
        destruct (process_window_poisoned s' Hp' ltac:(lia)) as [Hnone Hp3].
        destruct (process_window_keeps s') as (_ & _ & _ & Hb3 & _).
        destruct Hsame' as (_ & _ & Hf' & _ & Hb' & _).
        rewrite Hnone. cbn [results_of]. split; [reflexivity|].
        destruct Hp3 as [zt3 Hz3]. split; [exists zt3|]; congruence. }
    destruct H1 as (Hnone & Hp1 & Hb1).
    destruct Hframe as [Hpr Hrq]. specialize (Hrq Hnone).
    destruct (IH s1 Hp1 ltac:(lia)) as (IHr & IHp & IHq & IHpois).
    destruct (run_schedule s1 es) as [s2 obs]. cbn [fst snd] in *.
    rewrite results_of_cons, Hnone, IHr. cbn [app].
    rewrite Hnone in Hpr. cbn in Hpr.
    repeat split; try congruence; try lia; exact IHpois.
Qed.

(** X8.  A full, finite window whose filtered signal holds a NaN or an
    infinity is rejected like a window with a bad sample: no result, no
    eviction, no count.  But the filter state has already been replaced by
    the state the filter reached on that window. *)
Theorem rejected_output_still_moves_the_filter (s : processor)
    (zi filtered zf : list f64) :
  Z.of_nat (length (buffer s)) = buffer_size s ->
  has_nan_or_inf (buffer s) = false ->
  filter_state s = Some zi ->
  lfilter64 (unwritten s) (b s) (a s) (buffer s) zi = Some (filtered, zf) ->
  has_nan_or_inf filtered = true ->
  snd (_process_window lfilter_zi unwritten s) = None /\
  buffer (fst (_process_window lfilter_zi unwritten s)) = buffer s /\
  samples_processed (fst (_process_window lfilter_zi unwritten s)) =
    samples_processed s /\
  filter_state (fst (_process_window lfilter_zi unwritten s)) = Some zf /\
  fst (_process_window lfilter_zi unwritten s) = set_filter_state s (Some zf).
Proof.
  intros Hlen Hin Hz Hf Hout. unfold _process_window.
  apply Z.eqb_eq in Hlen. rewrite Hlen, Hin, Hz. cbn [negb].
  cbn [b a set_filter_state]. rewrite Hf, Hout. cbn.
  repeat split.
Qed.

(** X9.  A rejected window is tried again on the very next sample: the
    window stays full, so the next sample pushes the oldest one out and
    [_process_window] runs on the window moved on by one sample, not by
    [step_size]. *)
Theorem rejected_window_slides_by_one (s : processor) (value value' : f64)
    (q q' : Queue.t f64) (w : list f64) :
  0 < buffer_size s ->
  Queue.get_nowait (data_queue s) = Some (value, q) ->
  snd (processing_iteration lfilter_zi unwritten s) = triggered w None ->
  Queue.get_nowait (data_queue (fst (processing_iteration lfilter_zi unwritten
      s))) =
    Some (value', q') ->
  buffer (fst (processing_iteration lfilter_zi unwritten s)) = w /\
  Z.of_nat (length w) = buffer_size s /\
  exists r,
    snd (processing_iteration lfilter_zi unwritten
           (fst (processing_iteration lfilter_zi unwritten s))) =
    triggered (tl w ++ [value']) r.
Proof.
  intros Hsize Hget Hobs Hget'.
  rewrite (process_one_taken lfilter_zi unwritten s value q Hget) in *. cbv
      zeta in *.
  set (s2 := set_buffer (set_data_queue s q)
               (Deque.append (buffer_size s) (buffer s) value)) in *.
  assert (Hbs2 : buffer_size s2 = buffer_size s) by reflexivity.
  clearbody s2.
  destruct (Z.of_nat (length (buffer s2)) =? buffer_size s) eqn:El;
    [|discriminate Hobs].
  apply Z.eqb_eq in El. cbn [fst snd] in *.
  injection Hobs as Hw Hr. rewrite Hr in *.
  destruct (process_window_keeps s2) as (_ & _ & _ & Hb3 & _).
  destruct (process_window s2) as [s3 r3] eqn:E. cbn [fst snd] in *.
  subst r3. destruct (process_window_rejects lfilter_zi unwritten s2 s3 E) as
      (Hbuf & _).
  rewrite Hw in El, Hbuf.
  split; [congruence|]. split; [congruence|].
  rewrite (process_one_taken lfilter_zi unwritten s3 value' q' Hget'). cbv zeta.
  cbn [buffer set_buffer set_data_queue].
  assert (Happ : Deque.append (buffer_size s3) (buffer s3) value' =
                 tl w ++ [value']).
  { unfold Deque.append. rewrite Hbuf, length_app. cbn [length].
    destruct (_ <? _) eqn:Elt; [|apply Z.ltb_ge in Elt; lia].
    destruct w as [|x w']; [cbn in *; lia | reflexivity]. }
  rewrite Happ.
  assert (Hfull : Z.of_nat (length (tl w ++ [value'])) = buffer_size s3).
  { rewrite length_app. destruct w as [|x w']; cbn [tl length] in *; lia. }
  apply Z.eqb_eq in Hfull. rewrite Hfull.
  eexists. reflexivity.
Qed.

End FilterStageFacts.

(** ** Ranges of the features *)

Module FeatureRanges.

Import F64Facts NumpyFacts.

Lemma count_true_bounds (l : list bool) :
  0 <= Numpy.count_true l <= Z.of_nat (length l).
Proof.
  induction l as [|[] l IH]; cbn [Numpy.count_true length]; lia.
Qed.

Lemma adjacent_length {A B : Type} (op : A -> A -> B) (l : list A) :
  length (Numpy.adjacent op l) = (length l - 1)%nat.
Proof.
  induction l as [|x [|y l] IH]; try reflexivity.
  cbn [Numpy.adjacent length] in *. rewrite IH. lia.
Qed.

(** X10.  The two counts are bounded by the length of the window: ZC, in
    the real-time and in the offline extractor, lies between 0 and
    [len - 1], and SSC between 0 and [len - 2].  A window of fewer than two
    samples has ZC = 0, one of fewer than three has SSC = 0. *)
Theorem counts_are_bounded (w : list f64) :
  0 <= RealTime.zero_crossings w <= Z.max 0 (Z.of_nat (length w) - 1) /\
  0 <= FeatureExtractor.zero_crossings w
    <= Z.max 0 (Z.of_nat (length w) - 1) /\
  0 <= slope_sign_changes w <= Z.max 0 (Z.of_nat (length w) - 2) /\
  ((length w < 2)%nat ->
   zc (RealTime._extract_features w) = F64.of_Z 0 /\
   zc (FeatureExtractor.extract_features w) = F64.of_Z 0) /\
  ((length w < 3)%nat ->
   ssc (RealTime._extract_features w) = F64.of_Z 0).
Proof.
  assert (Hrt : 0 <= RealTime.zero_crossings w
                <= Z.max 0 (Z.of_nat (length w) - 1)).
  { unfold RealTime.zero_crossings, Numpy.diff_bool.
    pose proof (count_true_bounds
                  (Numpy.adjacent xorb (map F64.signbit w))) as H.
    rewrite adjacent_length, length_map in H. lia. }
  assert (Hoff : 0 <= FeatureExtractor.zero_crossings w
                 <= Z.max 0 (Z.of_nat (length w) - 1)).
  { unfold FeatureExtractor.zero_crossings, Numpy.diff.
    match goal with |- 0 <= Numpy.count_true ?l <= _ =>
      pose proof (count_true_bounds l) as H end.
    rewrite length_map, adjacent_length, length_map in H. lia. }
  assert (Hssc : 0 <= slope_sign_changes w
                 <= Z.max 0 (Z.of_nat (length w) - 2)).
  { unfold slope_sign_changes, Numpy.diff.
    match goal with |- 0 <= Numpy.count_true ?l <= _ =>
      pose proof (count_true_bounds l) as H end.
    rewrite length_map, !adjacent_length in H. lia. }
  split; [exact Hrt|]. split; [exact Hoff|]. split; [exact Hssc|].
  split; intros Hlen; cbn [RealTime._extract_features
                            FeatureExtractor.extract_features zc ssc].
  - split; f_equal; lia.
  - f_equal. lia.
Qed.

(** *** MAV and STD are not negative *)

Lemma binary_round_clear (m : positive) (e : Z) :
  F64.signbit (binary_round F64.prec F64.emax false m e) = false.
Proof.
  unfold binary_round. destruct (shl_align m e _) as [mz ez].
  destruct (binary_round_aux_sign false (Z.pos mz) ez loc_Exact)
    as [H|[H|[H|(m' & e' & H)]]]; rewrite H; reflexivity.
Qed.

Lemma add_clear_or_zero (x y : f64) :
  clear_or_zero x -> clear_or_zero y -> clear_or_zero (F64.add x y).
Proof.
  unfold clear_or_zero.
  destruct x as [sx|sx| |sx mx ex], y as [sy|sy| |sy my ey];
    cbn [is_zero F64.signbit];
    intros [Hx|Hx] [Hy|Hy]; try contradiction; subst;
    try (left; destruct sx, sy; exact I);
    try (left; destruct sx; exact I);
    try (left; destruct sy; exact I);
    try (right; reflexivity).
  all: try (right; destruct sx; reflexivity).
  all: try (right; destruct sy; reflexivity).
  right. unfold F64.add, SFadd. cbn [cond_Zopp Z.add].
  apply binary_round_clear.
Qed.

Lemma seq_sum_clear (l : list f64) (init : f64) :
  clear_or_zero init -> Forall clear_or_zero l ->
  clear_or_zero (Numpy.seq_sum init l).
Proof.
  revert init. unfold Numpy.seq_sum.
  induction l as [|x l IH]; intros init Hi Hl; [exact Hi|].
  inversion Hl; subst. simpl. apply IH; [apply add_clear_or_zero|];
    assumption.
Qed.

Lemma map2_clear (l1 l2 : list f64) :
  Forall clear_or_zero l1 -> Forall clear_or_zero l2 ->
  Forall clear_or_zero (Numpy.map2 l1 l2).
Proof.
  revert l2. induction l1 as [|x l1 IH]; intros [|y l2] H1 H2;
    try constructor; inversion H1; inversion H2; subst.
  - apply add_clear_or_zero; assumption.
  - apply IH; assumption.
Qed.

Lemma firstn_skipn_clear (n : nat) (l : list f64) :
  Forall clear_or_zero l ->
  Forall clear_or_zero (firstn n l) /\ Forall clear_or_zero (skipn n l).
Proof.
  intros H. rewrite <- (firstn_skipn n l) in H.
  apply Forall_app in H. exact H.
Qed.

Lemma unrolled_clear (fuel : nat) (r rest : list f64) :
  Forall clear_or_zero r -> Forall clear_or_zero rest ->
  Forall clear_or_zero (fst (Numpy.unrolled fuel r rest)) /\
  Forall clear_or_zero (snd (Numpy.unrolled fuel r rest)).
Proof.
  revert r rest. induction fuel as [|fuel IH]; intros r rest Hr Hrest;
    [split; assumption|].
  cbn [Numpy.unrolled].
  destruct (8 <=? length rest)%nat; [|split; assumption].
  destruct (firstn_skipn_clear 8 rest Hrest) as [Hf Hs].
  apply IH; [apply map2_clear|]; assumption.
Qed.

Lemma nth_clear (i : nat) (r : list f64) :
  Forall clear_or_zero r -> clear_or_zero (nth i r F64.nzero).
Proof.
  intros H. destruct (nth_in_or_default i r F64.nzero) as [Hin | ->].
  - rewrite Forall_forall in H. apply H, Hin.
  - left. exact I.
Qed.

Lemma block_sum_clear (l : list f64) :
  Forall clear_or_zero l -> clear_or_zero (Numpy.block_sum l).
Proof.
  intros H. unfold Numpy.block_sum.
  destruct (firstn_skipn_clear 8 l H) as [Hf Hs].
  destruct (unrolled_clear (length l) (firstn 8 l) (skipn 8 l) Hf Hs)
    as [H1 H2].
  destruct (Numpy.unrolled _ _ _) as [r rest]. cbn [fst snd] in *.
  apply seq_sum_clear; [|exact H2].
  unfold Numpy.combine8. repeat apply add_clear_or_zero; apply nth_clear, H1.
Qed.

Lemma pairwise_sum_clear (fuel : nat) (l : list f64) :
  Forall clear_or_zero l -> clear_or_zero (Numpy.pairwise_sum fuel l).
Proof.
  revert l. induction fuel as [|fuel IH]; intros l H;
    cbn [Numpy.pairwise_sum];
    destruct (length l <? 8)%nat;
    try (apply seq_sum_clear; [left; exact I | exact H]);
    destruct (length l <=? 128)%nat;
    try (apply block_sum_clear, H).
  destruct (firstn_skipn_clear
              (length l / 2 - (length l / 2) mod 8)%nat l H) as [Hf Hs].
  apply add_clear_or_zero; apply IH; assumption.
Qed.

(** The sum of numbers with a clear sign bit has a clear sign bit. *)
Lemma sum_clear (l : list f64) :
  Forall (fun x => F64.signbit x = false) l ->
  F64.signbit (Numpy.sum l) = false.
Proof.
  intros H. unfold Numpy.sum.
  assert (H' : Forall clear_or_zero l).
  { eapply Forall_impl; [|exact H]. intros x Hx. right. exact Hx. }
  pose proof (pairwise_sum_clear (length l) l H') as Hp.
  destruct (Numpy.pairwise_sum _ _) as [s|s| |s m e];
    destruct Hp as [Hp|Hp]; try contradiction;
    cbn [F64.signbit] in *; subst; try reflexivity;
    destruct s; reflexivity.
Qed.

Lemma of_nat_clear (n : nat) :
  F64.signbit (F64.of_Z (Z.of_nat n)) = false.
Proof.
  destruct n as [|n]; [reflexivity|].
  change (Z.of_nat (S n)) with (Z.pos (Pos.of_succ_nat n)).
  pose proof (of_Z_pos_sign (Pos.of_succ_nat n)) as H. cbv zeta in H.
  destruct H as [H|[H|[H|(m & e & H)]]]; rewrite H; reflexivity.
Qed.

Lemma div_clear (x d : f64) :
  F64.signbit x = false -> F64.signbit d = false ->
  F64.signbit (F64.div x d) = false.
Proof.
  destruct x as [sx|sx| |sx mx ex], d as [sd|sd| |sd md ed];
    cbn [F64.signbit]; intros Hx Hd; subst; try reflexivity.
  unfold F64.div, SFdiv.
  destruct (SFdiv_core_binary _ _ _ _ _ _) as [[mz ez] lz].
  cbn [xorb].
  destruct (binary_round_aux_sign false mz ez lz)
    as [H|[H|[H|(m' & e' & H)]]]; rewrite H; reflexivity.
Qed.

Lemma mul_self_clear (v : f64) : F64.signbit (F64.mul v v) = false.
Proof.
  destruct v as [s|s| |s m e]; try (destruct s; reflexivity);
    try reflexivity.
  unfold F64.mul, SFmul. rewrite xorb_nilpotent.
  destruct (binary_round_aux_sign false (Z.pos (m * m)) (e + e) loc_Exact)
    as [H|[H|[H|(m' & e' & H)]]]; rewrite H; reflexivity.
Qed.

Lemma sqrt_clear (x : f64) :
  F64.signbit x = false -> F64.signbit (F64.sqrt x) = false.
Proof.
  destruct x as [s|s| |s m e]; cbn [F64.signbit]; intros Hx; subst;
    try reflexivity.
  unfold F64.sqrt, SFsqrt.
  destruct (SFsqrt_core_binary _ _ _ _) as [[mz ez] lz].
  destruct (binary_round_aux_sign false mz ez lz)
    as [H|[H|[H|(m' & e' & H)]]]; rewrite H; reflexivity.
Qed.

Lemma clear_not_negative (x : f64) :
  F64.signbit x = false -> F64.ltb x F64.pzero = false.
Proof. destruct x as [s|s| |s m e]; cbn; intros Hx; subst; reflexivity. Qed.

(** X11.  Whatever the window, MAV and STD are never negative: each has a
    clear sign bit, so it is NaN (as for an empty window) or a number that
    is at least +0.0, never -0.0; and so are the two counts as features. *)
Theorem features_are_not_negative (w : list f64) :
  let f := RealTime._extract_features w in
  F64.signbit (mav f) = false /\ F64.ltb (mav f) F64.pzero = false /\
  F64.signbit (std f) = false /\ F64.ltb (std f) F64.pzero = false /\
  F64.signbit (ssc f) = false /\ F64.signbit (zc f) = false /\
  mav (FeatureExtractor.extract_features w) = mav f /\
  std (FeatureExtractor.extract_features w) = std f /\
  ssc (FeatureExtractor.extract_features w) = ssc f.
Proof.
  cbv zeta. cbn [RealTime._extract_features FeatureExtractor.extract_features
                 mav std ssc zc].
  assert (Hmav : F64.signbit (Numpy.mean (map F64.abs w)) = false).
  { unfold Numpy.mean. apply div_clear; [|apply of_nat_clear].
    apply sum_clear, Forall_forall. intros x Hx.
    apply in_map_iff in Hx. destruct Hx as (v & <- & _).
    destruct v; reflexivity. }
  assert (Hstd : F64.signbit (Numpy.std w) = false).
  { unfold Numpy.std. apply sqrt_clear, div_clear; [|apply of_nat_clear].
    apply sum_clear, Forall_forall. intros x Hx.
    apply in_map_iff in Hx. destruct Hx as (v & <- & _).
    apply mul_self_clear. }
  assert (Hcount : forall z, 0 <= z -> F64.signbit (F64.of_Z z) = false).
  { intros z Hz. rewrite <- (Z2Nat.id z Hz). apply of_nat_clear. }
  destruct (count_true_bounds
              (Numpy.diff_bool (map F64.signbit w))) as [Hzc _].
  assert (Hssc : 0 <= slope_sign_changes w).
  { unfold slope_sign_changes. apply count_true_bounds. }
  repeat split; try assumption; try (apply clear_not_negative; assumption).
  - apply Hcount, Hssc.
  - apply Hcount. exact Hzc.
Qed.

End FeatureRanges.

(** ** Offline windowing *)

Module WindowingFacts.

Lemma slice_inside {A : Type} (l : list A) (i size : Z) :
  0 <= i -> 0 <= size -> i + size <= Z.of_nat (length l) ->
  Python.slice l i (i + size) =
  firstn (Z.to_nat size) (skipn (Z.to_nat i) l).
Proof.
  intros Hi Hs Hle. unfold Python.slice, Python.slice_index.
  destruct (i <? 0) eqn:E1; [apply Z.ltb_lt in E1; lia|].
  destruct (i + size <? 0) eqn:E2; [apply Z.ltb_lt in E2; lia|].
  rewrite !Z.min_l by lia.
  replace (i + size - i) with size by lia. reflexivity.
Qed.

Lemma homogeneous_same (size : nat) (ws : list (list f64)) :
  Forall (fun w => length w = size) ws -> homogeneous ws = true.
Proof.
  intros H. destruct ws as [|w ws]; [reflexivity|].
  inversion H as [|? ? Hw Hws]; subst. cbn [homogeneous].
  apply forallb_forall. intros w' Hin.
  rewrite Forall_forall in Hws. rewrite (Hws w' Hin). apply Nat.eqb_refl.
Qed.

(** The number of whole windows in [n] samples. *)
Lemma window_count (n size step : Z) :
  0 < size -> 0 < step -> 0 <= n ->
  Python.range_length 0 (n - size + 1) step =
  if n <? size then 0 else (n - size) / step + 1.
Proof.
  intros Hs Ht Hn. unfold Python.range_length.
  destruct (0 <? step) eqn:E0; [|apply Z.ltb_ge in E0; lia].
  destruct (n <? size) eqn:E1.
  - apply Z.ltb_lt in E1.
    destruct (0 <? n - size + 1) eqn:E2; [apply Z.ltb_lt in E2; lia|].
    cbn [andb].
    destruct (step <? 0) eqn:E3; [apply Z.ltb_lt in E3; lia|]. reflexivity.
  - apply Z.ltb_ge in E1.
    destruct (0 <? n - size + 1) eqn:E2; [|apply Z.ltb_ge in E2; lia].
    cbn [andb]. replace (n - size + 1 - 1 - 0) with (n - size) by lia. lia.
Qed.

(** Every window of the closed form lies in the data. *)
Lemma window_inside (n window_size step_size : Z) (k : nat) :
  0 < window_size -> 0 < step_size ->
  In k (seq 0 (Z.to_nat (if n <? window_size then 0
                         else (n - window_size) / step_size + 1))) ->
  Z.of_nat k * step_size + window_size <= n.
Proof.
  intros Hsize Hstep Hk. apply in_seq in Hk.
  destruct (n <? window_size) eqn:E; [cbn in Hk; lia|].
  apply Z.ltb_ge in E.
  assert (Hk' : Z.of_nat k <= (n - window_size) / step_size).
  { pose proof (Z.div_pos (n - window_size) step_size ltac:(lia) Hstep).
    lia. }
  pose proof (Z.mul_div_le (n - window_size) step_size Hstep).
  nia.
Qed.

Lemma closed_form_lengths (data : list f64) (window_size step_size : Z) :
  0 < window_size -> 0 < step_size ->
  Forall (fun w => Z.of_nat (length w) = window_size)
    (map (fun k => firstn (Z.to_nat window_size)
                     (skipn (k * Z.to_nat step_size) data))
         (seq 0 (Z.to_nat
                   (if Z.of_nat (length data) <? window_size then 0
                    else (Z.of_nat (length data) - window_size) / step_size
                         + 1)))).
Proof.
  intros Hsize Hstep. apply Forall_forall. intros w Hw.
  apply in_map_iff in Hw. destruct Hw as (k & <- & Hk).
  pose proof (window_inside _ _ _ k Hsize Hstep Hk).
  rewrite length_firstn, length_skipn. nia.
Qed.

Lemma offline_windows_closed_form (data : list f64)
    (window_size step_size : Z) :
  0 < window_size -> 0 < step_size ->
  option_map fst (window_and_extract_features data window_size step_size) =
  Some (map (fun k => firstn (Z.to_nat window_size)
                        (skipn (k * Z.to_nat step_size) data))
            (seq 0 (Z.to_nat
                      (if Z.of_nat (length data) <? window_size then 0
                       else (Z.of_nat (length data) - window_size)
                            / step_size + 1)))).
Proof.
  intros Hsize Hstep.
  unfold window_and_extract_features, Python.range.
  destruct (step_size =? 0) eqn:E0; [apply Z.eqb_eq in E0; lia|].
  rewrite (window_count _ window_size step_size) by lia.
  rewrite map_map.
  erewrite map_ext_in.
  2:{ intros k Hk. pose proof (window_inside _ _ _ k Hsize Hstep Hk).
      rewrite Z.add_0_l, slice_inside by lia.
      replace (Z.to_nat (Z.of_nat k * step_size))
        with (k * Z.to_nat step_size)%nat by nia.
      reflexivity. }
  rewrite (homogeneous_same (Z.to_nat window_size)); [reflexivity|].
  eapply Forall_impl; [|exact (closed_form_lengths data _ _ Hsize Hstep)].
  cbn. intros w Hwl. lia.
Qed.

(** X12.  For positive sizes [window_and_extract_features] returns the
    windows [data[k*step : k*step + size]] for [k = 0, 1, ...] as long as
    the whole window lies in the data: none when the data are shorter than
    a window, [(n - size) / step + 1] otherwise.  Each window has exactly
    [size] samples and comes with its own features; the samples after the
    last whole window are left out.  A zero [step_size] raises. *)
Theorem offline_windows (data : list f64) (window_size step_size : Z) :
  window_and_extract_features data window_size 0 = None /\
  (0 < window_size -> 0 < step_size ->
   let n := Z.of_nat (length data) in
   let count :=
     if n <? window_size then 0 else (n - window_size) / step_size + 1 in
   let windows :=
     map (fun k => firstn (Z.to_nat window_size)
                     (skipn (k * Z.to_nat step_size) data))
         (seq 0 (Z.to_nat count)) in
   window_and_extract_features data window_size step_size =
     Some (windows, map FeatureExtractor.extract_features windows) /\
   length windows = Z.to_nat count /\
   Forall (fun w => Z.of_nat (length w) = window_size) windows).
Proof.
  split; [reflexivity|].
  intros Hsize Hstep. cbv zeta.
  pose proof (offline_windows_closed_form data _ _ Hsize Hstep) as H.
  pose proof (closed_form_lengths data _ _ Hsize Hstep) as Hlen.
  split; [|split; [rewrite length_map, length_seq; reflexivity | exact Hlen]].
  unfold window_and_extract_features in *.
  destruct (Python.range _ _ _) as [starts|]; [|discriminate H].
  destruct (homogeneous _); [|discriminate H].
  cbn [option_map fst] in H. injection H as H. rewrite H. reflexivity.
Qed.

End WindowingFacts.

(** ** The processing loop cuts the stream like the offline windowing *)

Module ChopFacts.

Lemma chop_closed (fuel size step : nat) (l : list f64) :
  (0 < size)%nat -> (0 < step)%nat -> (length l < fuel)%nat ->
  chop fuel size step l =
  map (fun k => firstn size (skipn (k * step) l))
      (seq 0 (if (length l <? size)%nat then 0
              else (length l - size) / step + 1)).
Proof.
  intros Hsize Hstep. revert l.
  induction fuel as [|fuel IH]; intros l Hfuel; [lia|].
  cbn [chop]. destruct (length l <? size)%nat eqn:E; [reflexivity|].
  apply Nat.ltb_ge in E.
  rewrite Nat.add_1_r. cbn [seq map]. rewrite Nat.mul_0_l, skipn_0.
  f_equal. rewrite IH by (rewrite length_skipn; lia).
  rewrite <- seq_shift, map_map, length_skipn.
  assert (Hc : (if (length l - step <? size)%nat then 0
                else (length l - step - size) / step + 1)%nat =
               ((length l - size) / step)%nat).
  { destruct (length l - step <? size)%nat eqn:E'.
    - apply Nat.ltb_lt in E'. symmetry. apply Nat.div_small. lia.
    - apply Nat.ltb_ge in E'.
      replace (length l - size)%nat
        with (length l - step - size + 1 * step)%nat by lia.
      rewrite Nat.div_add by lia. reflexivity. }
  rewrite Hc. apply map_ext. intros k.
  rewrite skipn_skipn. f_equal. f_equal. lia.
Qed.

Lemma count_to_nat (n size step : Z) :
  0 < size -> 0 < step -> 0 <= n ->
  Z.to_nat (if n <? size then 0 else (n - size) / step + 1) =
  (if (Z.to_nat n <? Z.to_nat size)%nat then 0
   else (Z.to_nat n - Z.to_nat size) / Z.to_nat step + 1)%nat.
Proof.
  intros Hsize Hstep Hn.
  destruct (n <? size) eqn:E.
  - apply Z.ltb_lt in E.
    destruct (Z.to_nat n <? Z.to_nat size)%nat eqn:E';
      [reflexivity | apply Nat.ltb_ge in E'; lia].
  - apply Z.ltb_ge in E.
    destruct (Z.to_nat n <? Z.to_nat size)%nat eqn:E';
      [apply Nat.ltb_lt in E'; lia|].
    pose proof (Z.div_pos (n - size) step ltac:(lia) Hstep).
    rewrite Z2Nat.inj_add by lia.
    rewrite Z2Nat.inj_div by lia.
    rewrite Z2Nat.inj_sub by lia. reflexivity.
Qed.

(** The offline windows are the stream chopped every [step] samples. *)
Lemma offline_windows_chop (data : list f64) (window_size step_size : Z) :
  0 < window_size -> 0 < step_size ->
  option_map fst (window_and_extract_features data window_size step_size) =
  Some (chop (S (length data)) (Z.to_nat window_size) (Z.to_nat step_size)
             data).
Proof.
  intros Hsize Hstep.
  rewrite (WindowingFacts.offline_windows_closed_form data _ _ Hsize Hstep).
  rewrite chop_closed by lia.
  rewrite count_to_nat by lia. rewrite Nat2Z.id. reflexivity.
Qed.

Lemma chop_fuel (fuel fuel' size step : nat) (l : list f64) :
  (0 < size)%nat -> (0 < step)%nat ->
  (length l < fuel)%nat -> (length l < fuel')%nat ->
  chop fuel size step l = chop fuel' size step l.
Proof.
  intros Hsize Hstep H1 H2. rewrite !chop_closed by assumption. reflexivity.
Qed.

Lemma triggered_windows_app (obs1 obs2 : list observation) :
  triggered_windows (obs1 ++ obs2) =
  triggered_windows obs1 ++ triggered_windows obs2.
Proof.
  induction obs1 as [|[c|[| |w r]] obs1 IH]; cbn [app triggered_windows];
    rewrite ?IH; reflexivity.
Qed.

Lemma triggered_windows_appended (n : nat) :
  triggered_windows (repeat (processed appended) n) = [].
Proof. induction n as [|n IH]; [reflexivity | exact IH]. Qed.

End ChopFacts.

Section WindowMatch.

Import DequeFacts ChopFacts.

Variable lfilter_zi : list f64 -> list f64 -> option (list f64).
Variable unwritten : processor -> nat -> f64.

Local Abbreviation process_window := (_process_window lfilter_zi unwritten).
Local Abbreviation process_one := (processing_iteration lfilter_zi unwritten).
Local Abbreviation step_one := (step lfilter_zi unwritten).
Local Abbreviation run_schedule := (run lfilter_zi unwritten).

Lemma run_keeps_sizes (es : list event) (s : processor) :
  buffer_size (fst (run_schedule s es)) = buffer_size s /\
  step_size (fst (run_schedule s es)) = step_size s.
Proof.
  revert s. induction es as [|e es IH]; intros s; [split; reflexivity|].
  cbn [run].
  pose proof (step_cases lfilter_zi unwritten s e) as Hstep.
  destruct (step_one s e) as [s1 o]. cbn [fst snd] in Hstep.
  specialize (IH s1).
  destruct (run_schedule s1 es) as [s2 obs]. cbn [fst snd] in *.
  assert (H1 : buffer_size s1 = buffer_size s /\ step_size s1 = step_size s).
  { destruct Hstep as [(Hsame & _) | (s' & Hsame & _ & _ & Hsame')].
    - destruct Hsame as (_ & _ & _ & _ & Hb & Hs). split; assumption.
    - destruct (process_window_keeps lfilter_zi unwritten s') as (_ & _ & _ &
        Hb3 & Hs3).
      destruct Hsame as (_ & _ & _ & _ & Hb & Hs).
      destruct Hsame' as (_ & _ & _ & _ & Hb' & Hs').
      split; congruence. }
  destruct IH as [IHb IHs]. destruct H1 as [Hb Hs]. split; congruence.
Qed.

(** The iteration that completes a window, when the window is accepted. *)
Lemma process_one_completes (s : processor) (v : f64) (q : Queue.t f64) :
  Queue.get_nowait (data_queue s) = Some (v, q) ->
  Z.of_nat (length (buffer s)) + 1 = buffer_size s ->
  accepted_observation (processed (snd (process_one s))) ->
  exists r,
    snd (process_one s) = triggered (buffer s ++ [v]) (Some r) /\
    raw_signal r = buffer s ++ [v] /\
    buffer (fst (process_one s)) =
      skipn (Z.to_nat (step_size s)) (buffer s ++ [v]) /\
    data_queue (fst (process_one s)) = q.
Proof.
  intros Hget Hlen Hacc.
  destruct (process_one_cases lfilter_zi unwritten s v q Hget) as [_ Hyes].
  pose proof (process_one_effect lfilter_zi unwritten s v q Hget) as Heff.
  cbv zeta in Heff. destruct Heff as (Hq & _).
  cbn [buffer set_buffer] in Hyes.
  rewrite append_below in Hyes by lia.
  destruct Hyes as (s3 & r & Hpw & Hobs & Hbuf & _).
  { rewrite length_app. cbn [length]. lia. }
  rewrite Hobs in Hacc |- *.
  destruct r as [res|]; [|contradiction].
  destruct (process_window_accepts lfilter_zi unwritten _ _ _ Hpw)
    as (Hb3 & _ & Hraw & _).
  cbn [buffer step_size set_buffer set_data_queue] in Hb3, Hraw.
  exists res. split; [reflexivity|]. split; [exact Hraw|].
  split; [|exact Hq].
  rewrite Hbuf, Hb3. apply evict_skipn.
Qed.

Lemma run_chop (fuel : nat) (s : processor) (data rest : list f64) :
  (length (buffer s ++ data) < fuel)%nat ->
  Z.of_nat (length (buffer s)) < buffer_size s ->
  0 < step_size s <= buffer_size s ->
  Queue.items (data_queue s) = data ++ rest ->
  Forall accepted_observation
         (snd (run_schedule s (repeat process (length data)))) ->
  triggered_windows (snd (run_schedule s (repeat process (length data)))) =
  chop fuel (Z.to_nat (buffer_size s)) (Z.to_nat (step_size s))
       (buffer s ++ data).
Proof.
  revert s data rest.
  induction fuel as [|fuel IH]; intros s data rest Hfuel Hbuf Hstep Hq Hacc;
    [lia|].
  cbn [chop].
  destruct (length (buffer s ++ data) <? Z.to_nat (buffer_size s))%nat eqn:E.
  - apply Nat.ltb_lt in E. rewrite length_app in E.
    destruct (run_fill lfilter_zi unwritten data s rest Hq) as (s' & Hrun & _);
      [lia|].
    rewrite Hrun. apply triggered_windows_appended.
  - apply Nat.ltb_ge in E. rewrite length_app in E.
    set (k := (Z.to_nat (buffer_size s) - length (buffer s))%nat).
    assert (Hk : (1 <= k <= length data)%nat) by lia.
    assert (Hd : data = firstn k data ++ skipn k data)
      by (symmetry; apply firstn_skipn).
    assert (Hk1 : length (firstn k data) = k)
      by (rewrite length_firstn; lia).
    destruct (exists_last (l := firstn k data)) as (front & v & Hfv).
    { intros Hnil. rewrite Hnil in Hk1. cbn in Hk1. lia. }
    set (d2 := skipn k data) in *.
    rewrite Hfv in Hd, Hk1. rewrite length_app in Hk1. cbn [length] in Hk1.
    assert (Hlen : length data = (length front + S (length d2))%nat).
    { rewrite Hd at 1. rewrite !length_app. cbn [length]. lia. }
    assert (Hq1 : Queue.items (data_queue s) = front ++ ([v] ++ d2 ++ rest)).
    { rewrite Hq, Hd, <- !app_assoc. reflexivity. }
    destruct (run_fill lfilter_zi unwritten front s _ Hq1)
      as (s1 & Hrun1 & Hb1 & Hq1' & Hbs1); [lia|].
    destruct (run_keeps_sizes (repeat process (length front)) s) as [_ Hss1].
    rewrite Hrun1 in Hss1. cbn [fst] in Hss1.
    assert (Hget : Queue.get_nowait (data_queue s1) =
                   Some (v, Queue.mk (d2 ++ rest)
                              (Queue.maxsize (data_queue s1)))).
    { unfold Queue.get_nowait. rewrite Hq1'. reflexivity. }
    assert (Hfull : Z.of_nat (length (buffer s1)) + 1 = buffer_size s1).
    { rewrite Hb1, length_app, Hbs1. lia. }
    pose proof (process_one_completes s1 v _ Hget Hfull) as Hone.
    destruct (run_keeps_sizes [process] s1) as [Hbs2 Hss2].
    cbn [run step] in Hbs2, Hss2.
    destruct (process_one s1) as [s2 o] eqn:Eone.
    cbn [fst snd] in Hone, Hbs2, Hss2.
    specialize (IH s2 d2 rest).
    destruct (run_schedule s2 (repeat process (length d2))) as [s3 obs]
      eqn:Erun.
    assert (Hall : run_schedule s (repeat process (length data)) =
                   (s3, repeat (processed appended) (length front)
                        ++ processed o :: obs)).
    { rewrite Hlen, repeat_app, (run_app lfilter_zi unwritten), Hrun1.
      cbn [repeat run step]. rewrite Eone, Erun. reflexivity. }
    rewrite Hall in Hacc |- *.
    cbn [fst snd] in *.
    apply Forall_app in Hacc. destruct Hacc as [_ Hacc].
    apply Forall_cons_iff in Hacc. destruct Hacc as [Ho Hobs].
    destruct (Hone Ho) as (r & Ho' & _ & Hb2 & Hq2). rewrite Ho'.
    rewrite triggered_windows_app, triggered_windows_appended.
    cbn [app triggered_windows].
    assert (Hsplit : buffer s ++ data = (buffer s1 ++ [v]) ++ d2).
    { rewrite Hb1, Hd, <- !app_assoc. reflexivity. }
    assert (Hw1 : length (buffer s1 ++ [v]) = Z.to_nat (buffer_size s)).
    { rewrite length_app. cbn [length]. lia. }
    assert (Hwin : buffer s1 ++ [v] =
                   firstn (Z.to_nat (buffer_size s)) (buffer s ++ data)).
    { rewrite Hsplit, firstn_app, Hw1, Nat.sub_diag.
      rewrite firstn_all2 by lia.
      cbn [firstn]. rewrite app_nil_r. reflexivity. }
    rewrite Hwin at 1. f_equal.
    assert (Hnext : buffer s2 ++ d2 =
                    skipn (Z.to_nat (step_size s)) (buffer s ++ data)).
    { rewrite Hb2, Hss1, Hsplit.
      rewrite (skipn_app (Z.to_nat (step_size s)) (buffer s1 ++ [v]) d2).
      replace (Z.to_nat (step_size s) - length (buffer s1 ++ [v]))%nat
        with 0%nat by lia.
      reflexivity. }
    rewrite <- Hnext.
    replace (buffer_size s) with (buffer_size s2) by congruence.
    replace (step_size s) with (step_size s2) by congruence.
    apply IH.
    + rewrite Hnext, length_skipn. rewrite length_app in Hfuel |- *. lia.
    + rewrite Hb2, length_skipn, Hw1. lia.
    + lia.
    + rewrite Hq2. reflexivity.
    + exact Hobs.
Qed.

Lemma run_raw_signals (es : list event) (s : processor) :
  Forall accepted_observation (snd (run_schedule s es)) ->
  map raw_signal (results_of (snd (run_schedule s es))) =
  triggered_windows (snd (run_schedule s es)).
Proof.
  revert s. induction es as [|e es IH]; intros s Hacc; [reflexivity|].
  cbn [run] in Hacc |- *.
  pose proof (step_cases lfilter_zi unwritten s e) as Hstep.
  destruct (step_one s e) as [s1 o]. cbn [fst snd] in Hstep.
  specialize (IH s1).
  destruct (run_schedule s1 es) as [s2 obs]. cbn [fst snd] in *.
  apply Forall_cons_iff in Hacc. destruct Hacc as [Ho Hobs].
  specialize (IH Hobs).
  rewrite results_of_cons.
  change (o :: obs) with ([o] ++ obs).
  rewrite triggered_windows_app, map_app, IH.
  f_equal.
  destruct Hstep as [(_ & Ht & Hr & _) | (s' & _ & _ & Ho' & _)].
  - rewrite Ht, Hr. reflexivity.
  - rewrite Ho' in Ho |- *.
    destruct (process_window s') as [s3 [r|]] eqn:Epw;
      cbn [snd] in Ho |- *; [|contradiction].
    destruct (process_window_result lfilter_zi unwritten _ _ _ Epw) as (_ &
        Hraw & _).
    cbn [results_of triggered_windows map]. rewrite Hraw. reflexivity.
Qed.

(** X13. Fed a recording through its sample queue, the processing loop of a
    processor with an empty rolling buffer and 0 < step_size <= buffer_size
    cuts it into exactly the windows that
    FeatureExtractor.window_and_extract_features cuts the same data into
    with window_size = buffer_size and the same step_size, in the same
    order, provided no window is rejected; these windows are the raw_signal
    entries of the results. *)
Theorem realtime_windows_match_offline
    (s : processor) (data rest : list f64) :
  buffer s = [] ->
  0 < step_size s <= buffer_size s ->
  Queue.items (data_queue s) = data ++ rest ->
  Forall accepted_observation
         (snd (run lfilter_zi unwritten s (repeat process (length data)))) ->
  option_map fst
    (window_and_extract_features data (buffer_size s) (step_size s)) =
  Some (map raw_signal
          (results_of
             (snd (run lfilter_zi unwritten s (repeat process (length
                 data)))))) /\
  triggered_windows
    (snd (run lfilter_zi unwritten s (repeat process (length data)))) =
  map raw_signal
    (results_of (snd (run lfilter_zi unwritten s (repeat process (length
        data))))).
Proof.
  intros Hbuf Hstep Hq Hacc.
  rewrite (run_raw_signals _ _ Hacc).
  split; [|reflexivity].
  rewrite offline_windows_chop by lia. f_equal.
  rewrite (run_chop (S (length data)) s data rest); try assumption.
  - rewrite Hbuf. reflexivity.
  - rewrite Hbuf. cbn [app]. lia.
  - rewrite Hbuf. cbn [length]. lia.
Qed.

End WindowMatch.

(** X14. [stop] followed by [start] always starts a new pair of daemon
    threads, whatever the processor did before, and resets nothing: the
    rolling buffer, the filter state, the model, both queues and the three
    counters are those from before the stop, so a restarted processor
    resumes in mid-stream.  [stop] joins exactly the threads recorded by the
    last start and leaves them recorded, so a second [stop] joins them
    again and changes nothing. *)
Theorem restart_resumes_midstream (s : processor) (threads : list thread) :
  let s1 := fst (stop s) in
  let s2 := fst (fst (start s1 threads)) in
  exists t1 t2,
    start s1 threads = (s2, threads ++ [t1; t2], started) /\
    running s1 = false /\ running s2 = true /\
    collection_thread s2 = Some t1 /\ processing_thread s2 = Some t2 /\
    t1 = mk_thread (length threads) data_collection_loop true /\
    t2 = mk_thread (S (length threads)) processing_loop true /\
    snd (stop s) =
      match collection_thread s with Some t => [t] | None => [] end ++
      match processing_thread s with Some t => [t] | None => [] end /\
    stop s1 = (s1, snd (stop s)) /\
    buffer s2 = buffer s /\ filter_state s2 = filter_state s /\
    model s2 = model s /\
    data_queue s2 = data_queue s /\ result_queue s2 = result_queue s /\
    samples_collected s2 = samples_collected s /\
    samples_processed s2 = samples_processed s /\
    samples_dropped s2 = samples_dropped s.
Proof.
  intros s1 s2. subst s1 s2.
  exists (mk_thread (length threads) data_collection_loop true),
         (mk_thread (S (length threads)) processing_loop true).
  destruct s. unfold stop, start. cbn.
  rewrite length_app, Nat.add_comm, <- app_assoc. cbn.
  repeat split; reflexivity.
Qed.

Module CollectorFacts.

Import TrainingDataCollector.

Lemma every_second_snoc (l : list Z) (v : Z) :
  every_second (l ++ [v]) =
  if Nat.even (length l) then every_second l else every_second l ++ [v].
Proof.
  enough (H : (every_second (l ++ [v]) =
               if Nat.even (length l) then every_second l
               else every_second l ++ [v]) /\
              forall x,
                every_second ((x :: l) ++ [v]) =
                if Nat.even (length (x :: l)) then every_second (x :: l)
                else every_second (x :: l) ++ [v]) by apply H.
  induction l as [|y l [IH1 IH2]].
  - split; [reflexivity | intros x; reflexivity].
  - split; [apply IH2|].
    intros x. cbn [app every_second length Nat.even]. rewrite IH1.
    destruct (Nat.even (length l)); reflexivity.
Qed.

Lemma every_second_nth (i : nat) (l : list Z) :
  nth_error (every_second l) i = nth_error l (2 * i + 1).
Proof.
  replace (2 * i + 1)%nat with (S (2 * i)) by lia.
  revert l. induction i as [|i IH]; intros [|x [|y r]].
  - reflexivity.
  - reflexivity.
  - reflexivity.
  - reflexivity.
  - cbn [every_second nth_error]. destruct (2 * S i)%nat; reflexivity.
  - replace (2 * S i)%nat with (S (S (2 * i))) by lia.
    cbn [every_second nth_error]. apply IH.
Qed.

Lemma every_second_length (l : list Z) :
  Z.of_nat (length (every_second l)) = Z.of_nat (length l) / 2.
Proof.
  enough (H : Z.of_nat (length (every_second l)) = Z.of_nat (length l) / 2 /\
              forall x,
                Z.of_nat (length (every_second (x :: l))) =
                Z.of_nat (length (x :: l)) / 2) by apply H.
  induction l as [|y l [IH1 IH2]].
  - split; [reflexivity | intros x; reflexivity].
  - split; [apply IH2|].
    intros x. cbn [every_second length]. rewrite !Nat2Z.inj_succ, IH1.
    Z.to_euclidean_division_equations. lia.
Qed.

Lemma count_parity (n : nat) :
  ((Z.of_nat n + 1) mod 2 =? 0) = negb (Nat.even n).
Proof.
  destruct (Nat.even n) eqn:E; cbn [negb].
  - apply Nat.even_spec in E. destruct E as [k ->].
    apply Z.eqb_neq. Z.to_euclidean_division_equations. lia.
  - assert (O : Nat.odd n = true) by (unfold Nat.odd; rewrite E; reflexivity).
    apply Nat.odd_spec in O. destruct O as [k ->].
    apply Z.eqb_eq. Z.to_euclidean_division_equations. lia.
Qed.

Lemma collect_session_loop_from (units : list raw_unit) (seen : list Z) :
  fold_left collect_session_iteration units
            (Z.of_nat (length seen), every_second seen) =
  (Z.of_nat (length (seen ++ parsed_values units)),
   every_second (seen ++ parsed_values units)).
Proof.
  revert seen. induction units as [|u units IH]; intros seen.
  - cbn [fold_left parsed_values]. rewrite app_nil_r. reflexivity.
  - cbn [fold_left parsed_values].
    destruct u as [|[value|]]; cbn [collect_session_iteration]; try apply IH.
    rewrite count_parity.
    replace (seen ++ value :: parsed_values units)
      with ((seen ++ [value]) ++ parsed_values units)
      by (rewrite <- app_assoc; reflexivity).
    rewrite <- IH. f_equal.
    rewrite length_app, every_second_snoc. cbn [length].
    replace (Z.of_nat (length seen + 1)) with (Z.of_nat (length seen) + 1)
      by lia.
    destruct (Nat.even (length seen)); reflexivity.
Qed.

(** X15. The recording loop of [collect_session] counts every line that
    parses and stores every second one: after any sequence of iterations
    sample_count is the number of parsed lines and raw_data holds the
    second, fourth, ... parsed value, in order, that is the parsed values
    at the odd positions 1, 3, 5, ...; it has half as many entries as lines
    parsed, rounded down.  Empty polls and unparsable lines change neither. *)
Theorem recording_keeps_every_second_sample (units : list raw_unit) :
  let vs := parsed_values units in
  let sample_count := fst (collect_session_loop units) in
  let raw_data := snd (collect_session_loop units) in
  sample_count = Z.of_nat (length vs) /\
  raw_data = every_second vs /\
  Z.of_nat (length raw_data) = Z.of_nat (length vs) / 2 /\
  forall i : nat, nth_error raw_data i = nth_error vs (2 * i + 1).
Proof.
  cbv zeta. unfold collect_session_loop.
  change (0, @nil Z) with (Z.of_nat (length (@nil Z)), every_second []).
  rewrite (collect_session_loop_from units []). cbn [app fst snd].
  repeat split.
  - apply every_second_length.
  - intros i. apply every_second_nth.
Qed.

End CollectorFacts.

Module MoreExamples.

Import FeatureRanges WindowingFacts.

Local Ltac all_accepted :=
  vm_compute; repeat (apply Forall_cons; [exact I|]); apply Forall_nil.

Lemma results_are_counted_oldest_kept_witness :
  let s := example_one_result in
  let s' := fst (run example_lfilter_zi example_unwritten s example_stream) in
  let obs := snd (run example_lfilter_zi example_unwritten s example_stream) in
  0 < Queue.maxsize (result_queue s) /\
  Queue.qsize (result_queue s) <= Queue.maxsize (result_queue s) /\
  length (results_of obs) = 3%nat /\
  samples_processed s' =
    samples_processed s + Z.of_nat (length (results_of obs)) /\
  Queue.items (result_queue s') =
    firstn (Z.to_nat (Queue.maxsize (result_queue s)))
           (Queue.items (result_queue s) ++ results_of obs) /\
  Queue.maxsize (result_queue s') = Queue.maxsize (result_queue s).
Proof.
  cbv zeta.
  split; [vm_compute; reflexivity|].
  split; [vm_compute; intros H; discriminate H|].
  split; [vm_compute; reflexivity|].
  apply (results_are_counted_oldest_kept example_lfilter_zi example_unwritten
           example_one_result example_stream).
  - vm_compute. reflexivity.
  - vm_compute. intros H. discriminate H.
Defined.


Lemma filter_state_is_threaded_witness :
  let s := example_initialised in
  let rs := results_of (snd (run example_lfilter_zi example_unwritten s
                                 example_stream)) in
  filter_state s = Some example_zi /\
  (2 <= length (a s))%nat /\
  length example_zi = (Nat.max (length (a s)) (length (b s)) - 1)%nat /\
  0 < buffer_size s /\
  Forall accepted_observation
         (snd (run example_lfilter_zi example_unwritten s example_stream)) /\
  length rs = 3%nat /\
  rs <> [] /\
  exists zf,
    filter_state (fst (run example_lfilter_zi example_unwritten s
                           example_stream)) = Some zf /\
    forall fresh : nat -> f64,
      lfilter64 fresh (b s) (a s) (concat (map raw_signal rs)) example_zi =
        Some (concat (map filtered_signal rs), zf).
Proof.
  cbv zeta.
  assert (Hacc : Forall accepted_observation
                   (snd (run example_lfilter_zi example_unwritten
                             example_initialised example_stream)))
    by all_accepted.
  assert (Hrs : results_of
                  (snd (run example_lfilter_zi example_unwritten
                            example_initialised example_stream)) <> []).
  { intros H. apply (f_equal (@length result)) in H.
    vm_compute in H. discriminate H. }
  assert (Ha : (2 <= length (a example_initialised))%nat)
    by (vm_compute; lia).
  assert (Hsize : 0 < buffer_size example_initialised) by reflexivity.
  split; [reflexivity|].
  split; [exact Ha|].
  split; [reflexivity|].
  split; [exact Hsize|].
  split; [exact Hacc|].
  split; [vm_compute; reflexivity|].
  split; [exact Hrs|].
  destruct (filter_state_is_threaded example_lfilter_zi example_unwritten
              example_initialised example_stream example_zi
              eq_refl Ha eq_refl Hsize Hacc) as (zf & Hzf & _ & Hcall).
  exists zf. split; [exact Hzf|]. exact (proj2 (Hcall Hrs)).
Defined.

Lemma nan_state_is_permanent_witness :
  let s := example_poisoned in
  poisoned s /\
  0 < buffer_size s /\
  results_of (snd (run example_lfilter_zi example_unwritten s example_stream))
      = [] /\
  samples_processed (fst (run example_lfilter_zi example_unwritten s
      example_stream)) =
    samples_processed s /\
  Queue.items (result_queue (fst (run example_lfilter_zi example_unwritten s
      example_stream))) =
    Queue.items (result_queue s) /\
  poisoned (fst (run example_lfilter_zi example_unwritten s example_stream)).
Proof.
  cbv zeta.
  assert (Hp : poisoned example_poisoned)
    by (exists [F64.pzero]; reflexivity).
  split; [exact Hp|].
  split; [reflexivity|].
  apply (nan_state_is_permanent example_lfilter_zi example_unwritten
      example_poisoned
           example_stream).
  - exact Hp.
  - reflexivity.
Defined.

Lemma rejected_output_still_moves_the_filter_witness :
  let s := example_overflow in
  let zi := [example_huge; example_huge] in
  let filtered := fst example_overflow_output in
  let zf := snd example_overflow_output in
  Z.of_nat (length (buffer s)) = buffer_size s /\
  has_nan_or_inf (buffer s) = false /\
  has_nan_or_inf zi = false /\
  filter_state s = Some zi /\
  lfilter64 (example_unwritten s) (b s) (a s) (buffer s) zi =
    Some (filtered, zf) /\
  has_nan_or_inf filtered = true /\
  snd (_process_window example_lfilter_zi example_unwritten s) = None /\
  buffer (fst (_process_window example_lfilter_zi example_unwritten s)) =
      buffer s /\
  samples_processed (fst (_process_window example_lfilter_zi example_unwritten
      s)) =
    samples_processed s /\
  filter_state (fst (_process_window example_lfilter_zi example_unwritten s)) =
      Some zf /\
  fst (_process_window example_lfilter_zi example_unwritten s) =
    set_filter_state s (Some zf).
Proof.
  cbv zeta.
  split; [reflexivity|].
  split; [vm_compute; reflexivity|].
  split; [vm_compute; reflexivity|].
  split; [reflexivity|].
  split; [vm_compute; reflexivity|].
  split; [vm_compute; reflexivity|].
  apply (rejected_output_still_moves_the_filter example_lfilter_zi
      example_unwritten
           example_overflow [example_huge; example_huge]
           (fst example_overflow_output) (snd example_overflow_output)).
  - reflexivity.
  - vm_compute. reflexivity.
  - reflexivity.
  - vm_compute. reflexivity.
  - vm_compute. reflexivity.
Defined.

Lemma rejected_window_slides_by_one_witness :
  let s := example_nan_stream in
  let w := [F64.of_Z 1; F64.nan; F64.of_Z 3; F64.of_Z 4] in
  0 < buffer_size s /\
  Queue.get_nowait (data_queue s) =
    Some (F64.of_Z 4, Queue.mk [F64.of_Z 5] 1000) /\
  snd (processing_iteration example_lfilter_zi example_unwritten s) = triggered
      w None /\
  Queue.get_nowait
    (data_queue (fst (processing_iteration example_lfilter_zi example_unwritten
        s))) =
    Some (F64.of_Z 5, Queue.mk [] 1000) /\
  buffer (fst (processing_iteration example_lfilter_zi example_unwritten s)) =
      w /\
  Z.of_nat (length w) = buffer_size s /\
  exists r,
    snd (processing_iteration example_lfilter_zi example_unwritten
           (fst (processing_iteration example_lfilter_zi example_unwritten s)))
               =
    triggered (tl w ++ [F64.of_Z 5]) r.
Proof.
  cbv zeta.
  split; [reflexivity|].
  split; [vm_compute; reflexivity|].
  split; [vm_compute; reflexivity|].
  split; [vm_compute; reflexivity|].
  apply (rejected_window_slides_by_one example_lfilter_zi example_unwritten
      example_nan_stream
           (F64.of_Z 4) (F64.of_Z 5) (Queue.mk [F64.of_Z 5] 1000)
           (Queue.mk [] 1000)).
  - reflexivity.
  - vm_compute. reflexivity.
  - vm_compute. reflexivity.
  - vm_compute. reflexivity.
Defined.

Lemma counts_are_bounded_witness :
  let w := [F64.one; SFopp F64.one] in
  (length w < 3)%nat /\
  0 <= RealTime.zero_crossings w <= Z.max 0 (Z.of_nat (length w) - 1) /\
  0 <= FeatureExtractor.zero_crossings w
    <= Z.max 0 (Z.of_nat (length w) - 1) /\
  0 <= slope_sign_changes w <= Z.max 0 (Z.of_nat (length w) - 2) /\
  ssc (RealTime._extract_features w) = F64.of_Z 0 /\
  (length [F64.one] < 2)%nat /\
  zc (RealTime._extract_features [F64.one]) = F64.of_Z 0 /\
  zc (FeatureExtractor.extract_features [F64.one]) = F64.of_Z 0.
Proof.
  cbv zeta.
  destruct (counts_are_bounded [F64.one; SFopp F64.one])
    as (H1 & H2 & H3 & _ & H5).
  destruct (counts_are_bounded [F64.one]) as (_ & _ & _ & H4 & _).
  assert (L3 : (length [F64.one; SFopp F64.one] < 3)%nat) by (cbn; lia).
  assert (L2 : (length [F64.one] < 2)%nat) by (cbn; lia).
  destruct (H4 L2) as [H6 H7].
  repeat apply conj;
    try exact L3; try exact L2; try exact (H5 L3); try tauto.
Defined.

Lemma offline_windows_witness :
  let data := example_recording in
  let windows := [map F64.of_Z [1; 2; 3; 4]; map F64.of_Z [3; 4; 5; 6];
                  map F64.of_Z [5; 6; 7; 8]] in
  0 < 4 /\ 0 < 2 /\
  window_and_extract_features data 4 0 = None /\
  window_and_extract_features data 4 2 =
    Some (windows, map FeatureExtractor.extract_features windows) /\
  Forall (fun w => Z.of_nat (length w) = 4) windows.
Proof.
  cbv zeta.
  destruct (offline_windows example_recording 4 2) as [H0 H].
  assert (P4 : 0 < 4) by lia.
  assert (P2 : 0 < 2) by lia.
  destruct (H P4 P2) as (Hw & _ & Hall).
  repeat apply conj; try assumption.
Defined.

Lemma realtime_windows_match_offline_witness :
  let s := example_fed in
  let obs :=
    snd (run example_lfilter_zi example_unwritten s
             (repeat process (length example_recording))) in
  buffer s = [] /\
  0 < step_size s <= buffer_size s /\
  Queue.items (data_queue s) = example_recording ++ [F64.of_Z 9] /\
  Forall accepted_observation obs /\
  length (results_of obs) = 3%nat /\
  option_map fst
    (window_and_extract_features example_recording (buffer_size s)
                                 (step_size s)) =
  Some (map raw_signal (results_of obs)) /\
  triggered_windows obs = map raw_signal (results_of obs).
Proof.
  cbv zeta.
  assert (Hacc : Forall accepted_observation
                   (snd (run example_lfilter_zi example_unwritten example_fed
                             (repeat process (length example_recording)))))
    by all_accepted.
  split; [reflexivity|].
  split; [change (0 < 2 <= 4); lia|].
  split; [reflexivity|].
  split; [exact Hacc|].
  split; [vm_compute; reflexivity|].
  apply (realtime_windows_match_offline example_lfilter_zi example_unwritten
      example_fed
           example_recording [F64.of_Z 9]).
  - reflexivity.
  - change (0 < 2 <= 4). lia.
  - reflexivity.
  - exact Hacc.
Defined.

End MoreExamples.
